(** * Event-driven backtest core: broker, portfolio ledger and engine

    A shallow embedding of the simulation core of the backtest package
    ([engine/event.py], [engine/portfolio.py], [broker/simulated.py],
    [engine/engine.py], [strategy/base.py], [data/base.py],
    [analysis/metrics.py]) together with the properties of the ledger, the
    broker and the signal sizing.

    Conventions of the embedding.
    - A Python [int] is a [Z].  A Python [float] is read as the rational
      it denotes: prices, cash and fees are [Q], arithmetic is exact, and
      [round(x, n)] is rounding to [n] decimals, ties to even.  NaN and
      infinities are outside the model.  Where a result hangs on the last
      bit of a float product or quotient (the integer part that sizes an
      order, the cent a commission is rounded to) the lines are given a
      second time on binary64 numbers, in [Binary64].
    - Strings stay strings: the directions and order kinds are compared
      with [==] on text in the source, and so they are here.
    - Methods that read or write [self] are computations in a small
      state-and-exception monad over the object they act on. *)

From Stdlib Require Import ZArith QArith Qround Qminmax Qabs String List Bool Lia Lqa
  Permutation Floats.
Import ListNotations.

Set Warnings "-inexact-float".

Local Open Scope Q_scope.
Local Open Scope string_scope.

(** ** Python numerics *)

Module Py.

(** [a < b] on floats, as a boolean. *)
Definition ltb (a b : Q) : bool := negb (Qle_bool b a).

(** [a > b]. *)
Definition gtb (a b : Q) : bool := ltb b a.

(** [a <= b]. *)
Definition leb (a b : Q) : bool := Qle_bool a b.

(** A Python [int] used in float arithmetic. *)
Definition of_int (n : Z) : Q := inject_Z n.

(** [int(x)]: truncation toward zero. *)
Definition int (x : Q) : Z :=
  if Qle_bool 0 x then Qfloor x else Qceiling x.

(** [10 ** n] for a non-negative number of digits. *)
Definition pow10 (n : nat) : Z := Z.pow 10 (Z.of_nat n).

(** Nearest integer, ties to the even neighbour. *)
Definition round_half_even (x : Q) : Z :=
  let f := Qfloor x in
  let r := x - inject_Z f in
  match Qcompare r (1 # 2) with
  | Lt => f
  | Gt => (f + 1)%Z
  | Eq => if Z.even f then f else (f + 1)%Z
  end.

(** [round(x, n)]. *)
Definition round (x : Q) (n : nat) : Q :=
  inject_Z (round_half_even (x * inject_Z (pow10 n))) / inject_Z (pow10 n).

(** [abs(x)]. *)
Definition abs (x : Q) : Q := Qabs x.

(** [max(a, b)] and [min(a, b)] keep the first argument on a tie. *)
Definition max (a b : Q) : Q := Qmax a b.
Definition min (a b : Q) : Q := Qmin a b.

End Py.

(** ** Exceptions and the state monad of a mutable object *)

Inductive PyExn : Type :=
| TypeError (msg : string)
| ValueError (msg : string)
| IndexError (msg : string)
| ZeroDivisionError (msg : string)
| OverflowError (msg : string).

Inductive Outcome (A : Type) : Type :=
| Ok (a : A)
| Raise (e : PyExn)
| Diverge.
Arguments Ok {A} a.
Arguments Raise {A} e.
Arguments Diverge {A}.

(** A method of an object of class [S]: it returns, raises or runs forever,
    and leaves the object in some state in each case. *)
Definition M (S A : Type) : Type := S -> Outcome A * S.

Definition ret {S A} (a : A) : M S A := fun s => (Ok a, s).

Definition bind {S A B} (m : M S A) (k : A -> M S B) : M S B :=
  fun s =>
    match m s with
    | (Ok a, s') => k a s'
    | (Raise e, s') => (Raise e, s')
    | (Diverge, s') => (Diverge, s')
    end.

Definition raise {S A} (e : PyExn) : M S A := fun s => (Raise e, s).
Definition diverge {S A} : M S A := fun s => (Diverge, s).
Definition get {S} : M S S := fun s => (Ok s, s).
Definition gets {S A} (f : S -> A) : M S A := fun s => (Ok (f s), s).
Definition put {S} (s : S) : M S unit := fun _ => (Ok tt, s).
Definition modify {S} (f : S -> S) : M S unit := fun s => (Ok tt, f s).

(** Run a method of a component object held in a field of [S]. *)
Definition zoom {S T A} (proj : S -> T) (upd : T -> S -> S) (m : M T A) : M S A :=
  fun s => let (r, t') := m (proj s) in (r, upd t' s).

Declare Scope py_scope.
Delimit Scope py_scope with py.
Notation "x <- m ;; k" := (bind m (fun x => k))
  (at level 61, m at next level, right associativity) : py_scope.
Notation "m ;; k" := (bind m (fun _ => k))
  (at level 61, right associativity) : py_scope.
Local Open Scope py_scope.

Definition result {S A} (m : M S A) (s : S) : Outcome A := fst (m s).
Definition final {S A} (m : M S A) (s : S) : S := snd (m s).

(** ** Events ([engine/event.py]) *)

(** A [pd.Timestamp], as its position on the time axis. *)
Abbreviation Timestamp := Z (only parsing).

Module MarketEvent.
Record t : Type := mk { datetime : Timestamp }.
End MarketEvent.

Module SignalEvent.
Record t : Type := mk {
  datetime : Timestamp;
  symbol : string;
  direction : string;
  volume : Z;
  order_type : string;
  limit_price : option Q
}.
End SignalEvent.

Module OrderEvent.
Record t : Type := mk {
  datetime : Timestamp;
  symbol : string;
  direction : string;
  order_type : string;
  quantity : Z;
  price : option Q
}.
End OrderEvent.

Module FillEvent.
Record t : Type := mk {
  datetime : Timestamp;
  symbol : string;
  direction : string;
  quantity : Z;
  fill_price : Q;
  commission : Q;
  slippage_cost : Q
}.
End FillEvent.

(** The four event classes, told apart by their [type] field. *)
Inductive Event : Type :=
| MARKET (e : MarketEvent.t)
| SIGNAL (e : SignalEvent.t)
| ORDER (e : OrderEvent.t)
| FILL (e : FillEvent.t).

(** One row of the bar table: [bar.name] is its timestamp. *)
Module Bar.
Record t : Type := mk {
  name : Timestamp;
  open : Q;
  high : Q;
  low : Q;
  close : Q;
  volume : Q
}.
End Bar.

(** ** Portfolio ([engine/portfolio.py]) *)

Module Trade.
Record t : Type := mk {
  datetime : Timestamp;
  symbol : string;
  direction : string;
  price : Q;
  quantity : Z;
  commission : Q;
  slippage : Q
}.
End Trade.

(** One row of the equity curve (a dict in the source). *)
Module EquityRow.
Record t : Type := mk {
  datetime : Timestamp;
  cash : Q;
  market_value : Q;
  total_equity : Q;
  position : Z
}.
End EquityRow.

Module Portfolio.

Record t : Type := mk {
  initial_capital : Q;
  cash : Q;
  commission_rate : Q;
  slippage : Q;
  min_commission : Q;
  stamp_tax : Q;
  market : string;
  position : Z;
  position_avg_cost : Q;
  trades : list Trade.t;
  equity_curve : list EquityRow.t
}.

Definition set_cash (v : Q) (self : t) : t :=
  mk (initial_capital self) v (commission_rate self) (slippage self)
     (min_commission self) (stamp_tax self) (market self) (position self)
     (position_avg_cost self) (trades self) (equity_curve self).

Definition set_position (v : Z) (self : t) : t :=
  mk (initial_capital self) (cash self) (commission_rate self) (slippage self)
     (min_commission self) (stamp_tax self) (market self) v
     (position_avg_cost self) (trades self) (equity_curve self).

Definition set_position_avg_cost (v : Q) (self : t) : t :=
  mk (initial_capital self) (cash self) (commission_rate self) (slippage self)
     (min_commission self) (stamp_tax self) (market self) (position self)
     v (trades self) (equity_curve self).

Definition set_trades (v : list Trade.t) (self : t) : t :=
  mk (initial_capital self) (cash self) (commission_rate self) (slippage self)
     (min_commission self) (stamp_tax self) (market self) (position self)
     (position_avg_cost self) v (equity_curve self).

Definition set_equity_curve (v : list EquityRow.t) (self : t) : t :=
  mk (initial_capital self) (cash self) (commission_rate self) (slippage self)
     (min_commission self) (stamp_tax self) (market self) (position self)
     (position_avg_cost self) (trades self) v.

(** [Portfolio.__init__], with its keyword arguments in order. *)
Definition __init__ (initial_capital commission_rate slippage
                     min_commission stamp_tax : Q) (market : string) : t :=
  mk initial_capital initial_capital commission_rate slippage
     min_commission stamp_tax market 0%Z 0 [] [].

(** The defaults of the constructor's signature. *)
Definition default_min_commission : Q := 5.
Definition default_stamp_tax : Q := 1 # 1000.

Definition calculate_slippage (price : Q) (direction : string) : M t Q :=
  self <- get ;;
  if direction =? "BUY"
  then ret (Py.round (price * (1 + slippage self)) 4)
  else ret (Py.round (price * (1 - slippage self)) 4).

(** The products and the sum are exact here; [Binary64.calculate_commission]
    has the same lines with the float ones. *)
Definition calculate_commission (price : Q) (quantity : Z)
                                (direction : string) : M t Q :=
  self <- get ;;
  let trade_amount := price * Py.of_int quantity in
  let commission :=
    if market self =? "A" then
      let commission :=
        Py.max (trade_amount * commission_rate self) (min_commission self) in
      if direction =? "SELL"
      then commission + trade_amount * stamp_tax self
      else commission
    else trade_amount * commission_rate self in
  ret (Py.round commission 2).

(** The tail of [execute_fill]: append the trade, return [True]. *)
Definition record_trade (fill_event : FillEvent.t) : M t bool :=
  modify (fun self =>
    set_trades (trades self ++
      [Trade.mk (FillEvent.datetime fill_event)
                (FillEvent.symbol fill_event)
                (FillEvent.direction fill_event)
                (FillEvent.fill_price fill_event)
                (FillEvent.quantity fill_event)
                (FillEvent.commission fill_event)
                (FillEvent.slippage_cost fill_event)]) self) ;;
  ret true.

Definition execute_fill (fill_event : FillEvent.t) : M t bool :=
  let cost :=
    FillEvent.fill_price fill_event * Py.of_int (FillEvent.quantity fill_event) in
  if FillEvent.direction fill_event =? "BUY" then
    let total_cost := cost + FillEvent.commission fill_event in
    self <- get ;;
    if Py.gtb total_cost (cash self) then ret false
    else
      let total_value :=
        position_avg_cost self * Py.of_int (position self) + cost in
      modify (fun self =>
        set_position (position self + FillEvent.quantity fill_event) self) ;;
      self <- get ;;
      (if (position self >? 0)%Z
       then modify (set_position_avg_cost
                      (total_value / Py.of_int (position self)))
       else ret tt) ;;
      modify (fun self => set_cash (cash self - total_cost) self) ;;
      record_trade fill_event
  else if FillEvent.direction fill_event =? "SELL" then
    self <- get ;;
    if (FillEvent.quantity fill_event >? position self)%Z then ret false
    else
      let revenue := cost - FillEvent.commission fill_event in
      modify (fun self => set_cash (cash self + revenue) self) ;;
      modify (fun self =>
        set_position (position self - FillEvent.quantity fill_event) self) ;;
      self <- get ;;
      (if (position self =? 0)%Z
       then modify (set_position_avg_cost 0)
       else ret tt) ;;
      record_trade fill_event
  else record_trade fill_event.

Definition update_market_value (datetime : Timestamp) (close_price : Q)
  : M t unit :=
  self <- get ;;
  let market_value := Py.of_int (position self) * close_price in
  let total_equity := cash self + market_value in
  modify (fun self =>
    set_equity_curve (equity_curve self ++
      [EquityRow.mk datetime (Py.round (cash self) 2)
                    (Py.round market_value 2) (Py.round total_equity 2)
                    (position self)]) self).

End Portfolio.

(** ** Simulated broker ([broker/simulated.py]) *)

Module SimulatedBroker.

Record t : Type := mk { _order_count : Z }.

Definition __init__ : t := mk 0.

(** The broker runs with two objects in reach: itself and the portfolio
    it was handed. *)
Definition Scope : Type := (t * Portfolio.t)%type.

Definition on_self {A} (m : M t A) : M Scope A :=
  zoom fst (fun b s => (b, snd s)) m.
Definition on_portfolio {A} (m : M Portfolio.t A) : M Scope A :=
  zoom snd (fun p s => (fst s, p)) m.

(** Step 1 of [execute_order]: the base fill price, [None] when the order
    does not execute; comparing a missing limit price raises. *)
Definition base_fill_price (order : OrderEvent.t) (current_bar : Bar.t)
  : Outcome (option Q) :=
  if OrderEvent.order_type order =? "MARKET" then
    Ok (Some (Bar.close current_bar))
  else if OrderEvent.order_type order =? "LIMIT" then
    match OrderEvent.price order with
    | None => Raise (TypeError "ordering comparison of NoneType and float")
    | Some price =>
      if OrderEvent.direction order =? "BUY" then
        if Py.ltb price (Bar.low current_bar) then Ok None
        else Ok (Some (Py.min price (Bar.close current_bar)))
      else
        if Py.gtb price (Bar.high current_bar) then Ok None
        else Ok (Some (Py.max price (Bar.close current_bar)))
    end
  else Ok None.

Definition execute_order (order : OrderEvent.t) (current_bar : Bar.t)
  : M Scope (option FillEvent.t) :=
  on_self (modify (fun self => mk (_order_count self + 1))) ;;
  match base_fill_price order current_bar with
  | Raise e => raise e
  | Diverge => diverge
  | Ok None => ret None
  | Ok (Some fill_price) =>
    actual_price <- on_portfolio
      (Portfolio.calculate_slippage fill_price (OrderEvent.direction order)) ;;
    commission <- on_portfolio
      (Portfolio.calculate_commission actual_price (OrderEvent.quantity order)
                                      (OrderEvent.direction order)) ;;
    portfolio <- on_portfolio get ;;
    let emit :=
      let slippage_cost :=
        Py.abs (actual_price - fill_price) * Py.of_int (OrderEvent.quantity order) in
      ret (Some (FillEvent.mk (OrderEvent.datetime order)
                              (OrderEvent.symbol order)
                              (OrderEvent.direction order)
                              (OrderEvent.quantity order)
                              actual_price commission slippage_cost)) in
    if OrderEvent.direction order =? "BUY" then
      let cost := actual_price * Py.of_int (OrderEvent.quantity order) + commission in
      if Py.gtb cost (Portfolio.cash portfolio) then ret None else emit
    else if OrderEvent.direction order =? "SELL" then
      if (OrderEvent.quantity order >? Portfolio.position portfolio)%Z
      then ret None else emit
    else emit
  end.

End SimulatedBroker.

(** ** Strategy contract ([strategy/base.py]) *)

Module Strategy.

(** What a hook can read through its context. *)
Record Context : Type := mkContext {
  data : list Bar.t;
  current_idx : nat;
  position : Z;
  cash : Q
}.

(** A call of [self.buy(volume, price, order_type)] or of [self.sell]. *)
Inductive Call : Type :=
| buy (volume : Z) (price : option Q) (order_type : string)
| sell (volume : Z) (price : option Q) (order_type : string).

(** What running a hook amounts to: the orders it placed, in order, whether
    it returned or raised, and the strategy object after it. *)
Record Ran (St : Type) : Type := mkRan {
  calls : list Call;
  outcome : Outcome unit;
  after : St
}.
Arguments mkRan {St}.
Arguments calls {St}.
Arguments outcome {St}.
Arguments after {St}.

(** A user strategy with private state [St]. *)
Record t (St : Type) : Type := mk {
  name : string;
  init : Context -> St -> Ran St;
  on_bar : Context -> Bar.t -> St -> Ran St;
  on_order_filled : Context -> FillEvent.t -> St -> Ran St
}.
Arguments mk {St}.
Arguments name {St}.
Arguments init {St}.
Arguments on_bar {St}.
Arguments on_order_filled {St}.

End Strategy.

(** ** Engine ([engine/engine.py]) *)

(** What [run] returns (the fields of [BacktestResult]). *)
Module BacktestResult.
Record t : Type := mk {
  equity_curve : list EquityRow.t;
  trades : list Trade.t;
  initial_capital : Q;
  data : list Bar.t;
  strategy_name : string;
  symbol : string
}.
End BacktestResult.

Module BacktestEngine.

Section Engine.

Variable St : Type.

Record t : Type := mk {
  data : list Bar.t;
  strategy : Strategy.t St;
  strategy_self : St;
  symbol : string;
  market : string;
  event_queue : list Event;
  portfolio : Portfolio.t;
  broker : SimulatedBroker.t;
  _current_idx : nat
}.

Definition set_strategy_self (v : St) (self : t) : t :=
  mk (data self) (strategy self) v (symbol self) (market self)
     (event_queue self) (portfolio self) (broker self) (_current_idx self).

Definition set_event_queue (v : list Event) (self : t) : t :=
  mk (data self) (strategy self) (strategy_self self) (symbol self)
     (market self) v (portfolio self) (broker self) (_current_idx self).

Definition set_portfolio (v : Portfolio.t) (self : t) : t :=
  mk (data self) (strategy self) (strategy_self self) (symbol self)
     (market self) (event_queue self) v (broker self) (_current_idx self).

Definition set_broker (v : SimulatedBroker.t) (self : t) : t :=
  mk (data self) (strategy self) (strategy_self self) (symbol self)
     (market self) (event_queue self) (portfolio self) v (_current_idx self).

Definition set__current_idx (v : nat) (self : t) : t :=
  mk (data self) (strategy self) (strategy_self self) (symbol self)
     (market self) (event_queue self) (portfolio self) (broker self) v.

Definition on_portfolio {A} (m : M Portfolio.t A) : M t A :=
  zoom portfolio set_portfolio m.

(** The broker is called with the engine's portfolio as argument. *)
Definition on_broker {A} (m : M SimulatedBroker.Scope A) : M t A :=
  zoom (fun self => (broker self, portfolio self))
       (fun bp self => set_portfolio (snd bp) (set_broker (fst bp) self)) m.

(** [BacktestEngine.__init__] with the default broker. *)
Definition __init__ (data : list Bar.t) (strategy : Strategy.t St)
                    (strategy_self : St) (capital commission slippage : Q)
                    (market symbol : string) : t :=
  mk data strategy strategy_self symbol market []
     (Portfolio.__init__ capital commission slippage
        Portfolio.default_min_commission Portfolio.default_stamp_tax market)
     SimulatedBroker.__init__ 0.

(** The [StrategyContext] as the strategy sees it now. *)
Definition context (self : t) : Strategy.Context :=
  Strategy.mkContext (data self) (_current_idx self)
    (Portfolio.position (portfolio self)) (Portfolio.cash (portfolio self)).

(** [StrategyContext.get_current_bar]. *)
Definition get_current_bar : M t Bar.t :=
  self <- get ;;
  match nth_error (data self) (_current_idx self) with
  | Some bar => ret bar
  | None => raise (IndexError "single positional indexer is out-of-bounds")
  end.

(** [Strategy.buy] and [Strategy.sell], acting on the engine's queue. *)
Definition place (c : Strategy.Call) : M t unit :=
  match c with
  | Strategy.buy volume price order_type =>
    bar <- get_current_bar ;;
    self <- get ;;
    let signal :=
      SignalEvent.mk (Bar.name bar) (symbol self) "BUY" volume
                     order_type price in
    modify (fun self => set_event_queue (event_queue self ++ [SIGNAL signal]) self)
  | Strategy.sell volume price order_type =>
    bar <- get_current_bar ;;
    self <- get ;;
    let volume :=
      if (volume <=? 0)%Z then Portfolio.position (portfolio self) else volume in
    let signal :=
      SignalEvent.mk (Bar.name bar) (symbol self) "SELL" volume
                     order_type price in
    modify (fun self => set_event_queue (event_queue self ++ [SIGNAL signal]) self)
  end.

Fixpoint place_all (cs : list Strategy.Call) : M t unit :=
  match cs with
  | [] => ret tt
  | c :: cs => place c ;; place_all cs
  end.

(** Run a strategy hook: its calls reach the queue, its state is kept,
    and what it raises propagates. *)
Definition hook (h : Strategy.Context -> St -> Strategy.Ran St) : M t unit :=
  self <- get ;;
  let ran := h (context self) (strategy_self self) in
  modify (set_strategy_self (Strategy.after ran)) ;;
  place_all (Strategy.calls ran) ;;
  match Strategy.outcome ran with
  | Ok _ => ret tt
  | Raise e => raise e
  | Diverge => diverge
  end.

Definition _handle_market (event : MarketEvent.t) (bar : Bar.t) : M t unit :=
  self <- get ;;
  hook (fun ctx => Strategy.on_bar (strategy self) ctx bar).

(** The quotient is exact here; [Binary64._calculate_order_quantity] has
    the same lines with the float quotient. *)
Definition _calculate_order_quantity (signal : SignalEvent.t) (bar : Bar.t)
  : M t Z :=
  self <- get ;;
  if SignalEvent.direction signal =? "SELL" then
    ret (Portfolio.position (portfolio self))
  else
    let available := Portfolio.cash (portfolio self) * (95 # 100) in
    let price := Bar.close bar in
    if Py.leb price 0 then ret 0%Z
    else
      let quantity := Py.int (available / price) in
      let quantity :=
        if market self =? "A" then (quantity / 100 * 100)%Z else quantity in
      ret (Z.max quantity 0).

Definition _handle_signal (signal : SignalEvent.t) (bar : Bar.t) : M t unit :=
  let quantity := SignalEvent.volume signal in
  quantity <- (if (quantity <=? 0)%Z
               then _calculate_order_quantity signal bar
               else ret quantity) ;;
  if (quantity <=? 0)%Z then ret tt
  else
    let order :=
      OrderEvent.mk (SignalEvent.datetime signal)
                    (SignalEvent.symbol signal)
                    (SignalEvent.direction signal)
                    (SignalEvent.order_type signal)
                    quantity
                    (SignalEvent.limit_price signal) in
    modify (fun self => set_event_queue (event_queue self ++ [ORDER order]) self).

Definition _handle_order (order : OrderEvent.t) (bar : Bar.t) : M t unit :=
  fill <- on_broker (SimulatedBroker.execute_order order bar) ;;
  match fill with
  | Some fill =>
    modify (fun self => set_event_queue (event_queue self ++ [FILL fill]) self)
  | None => ret tt
  end.

Definition _handle_fill (fill : FillEvent.t) : M t unit :=
  on_portfolio (Portfolio.execute_fill fill) ;;
  self <- get ;;
  hook (fun ctx => Strategy.on_order_filled (strategy self) ctx fill).

Definition _process_event (event : Event) (current_bar : Bar.t) : M t unit :=
  match event with
  | MARKET e => _handle_market e current_bar
  | SIGNAL e => _handle_signal e current_bar
  | ORDER e => _handle_order e current_bar
  | FILL e => _handle_fill e
  end.

(** [while self.event_queue: ...], cut off after [fuel] events. *)
Fixpoint drain (fuel : nat) (bar : Bar.t) : M t unit :=
  self <- get ;;
  match event_queue self with
  | [] => ret tt
  | event :: rest =>
    match fuel with
    | O => diverge
    | S fuel =>
      modify (set_event_queue rest) ;;
      _process_event event bar ;;
      drain fuel bar
    end
  end.

(** The body of [for idx in range(total_bars)]. *)
Definition run_bar (fuel : nat) (idx : nat) : M t unit :=
  modify (set__current_idx idx) ;;
  bar <- get_current_bar ;;
  let market_event := MarketEvent.mk (Bar.name bar) in
  modify (fun self => set_event_queue (event_queue self ++ [MARKET market_event]) self) ;;
  drain fuel bar ;;
  on_portfolio (Portfolio.update_market_value (Bar.name bar) (Bar.close bar)).

Fixpoint for_each (idxs : list nat) (body : nat -> M t unit) : M t unit :=
  match idxs with
  | [] => ret tt
  | idx :: idxs => body idx ;; for_each idxs body
  end.

(** [run]; [fuel] bounds the events handled within one bar. *)
Definition run (fuel : nat) : M t BacktestResult.t :=
  self <- get ;;
  hook (Strategy.init (strategy self)) ;;
  self <- get ;;
  let total_bars := length (data self) in
  for_each (seq 0 total_bars) (run_bar fuel) ;;
  self <- get ;;
  ret (BacktestResult.mk
         (Portfolio.equity_curve (portfolio self))
         (Portfolio.trades (portfolio self))
         (Portfolio.initial_capital (portfolio self))
         (data self)
         (Strategy.name (strategy self))
         (symbol self)).

End Engine.

Arguments mk {St}.
Arguments data {St}.
Arguments strategy {St}.
Arguments strategy_self {St}.
Arguments symbol {St}.
Arguments market {St}.
Arguments event_queue {St}.
Arguments portfolio {St}.
Arguments broker {St}.
Arguments _current_idx {St}.
Arguments set_strategy_self {St}.
Arguments set_event_queue {St}.
Arguments set_portfolio {St}.
Arguments set_broker {St}.
Arguments set__current_idx {St}.
Arguments on_portfolio {St A}.
Arguments on_broker {St A}.
Arguments __init__ {St}.
Arguments context {St}.
Arguments get_current_bar {St}.
Arguments place {St}.
Arguments place_all {St}.
Arguments hook {St}.
Arguments _handle_market {St}.
Arguments _calculate_order_quantity {St}.
Arguments _handle_signal {St}.
Arguments _handle_order {St}.
Arguments _handle_fill {St}.
Arguments _process_event {St}.
Arguments drain {St}.
Arguments run_bar {St}.
Arguments for_each {St}.
Arguments run {St}.

End BacktestEngine.

(** ** Data loader ([data/base.py]) *)

(** The part of a [pd.DataFrame] that [validate] looks at: the column
    labels, the class of the index, and the rows, each with its index label
    and one cell per column.  A missing cell (NaN) is [None]. *)
Module DataFrame.

Record Row : Type := mkRow {
  label : Timestamp;
  cells : list (option Q)
}.

Record t : Type := mk {
  columns : list string;
  index_is_DatetimeIndex : bool;
  rows : list Row
}.

(** [col in df.columns]. *)
Definition has_column (col : string) (df : t) : bool :=
  existsb (String.eqb col) (columns df).

(** The cell of a row under a column label. *)
Fixpoint cell_at (cols : list string) (cs : list (option Q)) (col : string)
  : option Q :=
  match cols, cs with
  | c :: cols, v :: cs => if c =? col then v else cell_at cols cs col
  | _, _ => None
  end.

Fixpoint insert_row (r : Row) (sorted : list Row) : list Row :=
  match sorted with
  | [] => [r]
  | r' :: rest =>
    if (label r' <=? label r)%Z then r' :: insert_row r rest
    else r :: r' :: rest
  end.

(** [df.sort_index()]: ascending by label; rows with equal labels keep
    their order. *)
Definition sort_index (df : t) : t :=
  mk (columns df) (index_is_DatetimeIndex df)
     (fold_left (fun acc r => insert_row r acc) (rows df) []).

(** [df.dropna(subset=cols)]: drop the rows with a missing cell under one
    of [cols]. *)
Definition dropna (subset : list string) (df : t) : t :=
  mk (columns df) (index_is_DatetimeIndex df)
     (filter (fun r =>
        forallb (fun col =>
          match cell_at (columns df) (cells r) col with
          | Some _ => true
          | None => false
          end) subset) (rows df)).

End DataFrame.

Module DataLoader.

Definition REQUIRED_COLUMNS : list string :=
  ["open"; "high"; "low"; "close"; "volume"].

(** The first loop of [validate]: raise on the first required column that
    the table lacks. *)
Fixpoint check_columns (cols : list string) (df : DataFrame.t) : Outcome unit :=
  match cols with
  | [] => Ok tt
  | col :: cols =>
    if negb (DataFrame.has_column col df)
    then Raise (ValueError ("missing required column: " ++ col))
    else check_columns cols df
  end.

(** [validate] on a table of floats, where the closing [pd.to_numeric] pass
    changes nothing; [ObjectLoader.validate] is [validate] with that pass, on
    tables that can hold text. *)
Definition validate (df : DataFrame.t) : Outcome DataFrame.t :=
  match check_columns REQUIRED_COLUMNS df with
  | Raise e => Raise e
  | Diverge => Diverge
  | Ok _ =>
    if negb (DataFrame.index_is_DatetimeIndex df)
    then Raise (ValueError "index must be a DatetimeIndex")
    else
      let df := DataFrame.sort_index df in
      let df := DataFrame.dropna REQUIRED_COLUMNS df in
      Ok df
  end.

End DataLoader.

(** ** The sizing and fee lines in binary floating point *)

(** The ledger above reads a float as the rational it denotes and computes
    exactly.  Comparisons, [min], [max] and the rounding of a given number
    act on a float in just that way, but a product or a quotient of floats is
    itself rounded to 53 bits, and the last bit can decide an integer part or
    a tie between two cents.  The lines of [_handle_signal],
    [_calculate_order_quantity] and [calculate_commission] are given here
    once more, on binary64 numbers with the operations the source runs. *)
Module Binary64.

(** The rational a finite float denotes; NaN and the infinities denote
    none. *)
Definition value (x : float) : option Q :=
  match Prim2SF x with
  | S754_zero _ => Some 0
  | S754_finite s m e =>
    let magnitude := inject_Z (Zpos m) * Qpower 2 e in
    Some (if s then - magnitude else magnitude)
  | S754_infinity _ => None
  | S754_nan => None
  end.

(** A Python [int] used in float arithmetic: the nearest float. *)
Definition of_int (n : Z) : float :=
  SF2Prim (binary_normalize prec emax n 0 false).

(** [int(x)]: truncation toward zero; NaN and the infinities raise. *)
Definition int (x : float) : Outcome Z :=
  match value x with
  | Some v => Ok (Py.int v)
  | None =>
    if PrimFloat.is_nan x
    then Raise (ValueError "cannot convert float NaN to integer")
    else Raise (OverflowError "cannot convert float infinity to integer")
  end.

(** [max(a, b)]: the second argument only when it is greater. *)
Definition max (a b : float) : float :=
  if PrimFloat.ltb a b then b else a.

(** [round(x, n)], as the decimal number that the float it returns is
    nearest to; NaN and the infinities are returned as they are. *)
Definition round (x : float) (n : nat) : option Q :=
  option_map (fun v => Py.round v n) (value x).

(** What the sizing reads of the engine and its portfolio. *)
Record Account : Type := mkAccount {
  cash : float;
  position : Z;
  market : string
}.

(** [_calculate_order_quantity], with [bar['close']] as [close].  The
    divisor is not zero where the division is reached. *)
Definition _calculate_order_quantity (direction : string) (close : float)
                                     (self : Account) : Outcome Z :=
  if direction =? "SELL" then Ok (position self)
  else
    let available := (cash self * 0.95)%float in
    let price := close in
    if (price <=? 0)%float then Ok 0%Z
    else
      match int (available / price)%float with
      | Ok quantity =>
        let quantity :=
          if market self =? "A" then (quantity / 100 * 100)%Z else quantity in
        Ok (Z.max quantity 0)
      | Raise e => Raise e
      | Diverge => Diverge
      end.

(** [_handle_signal]: the order that joins the queue, if one does. *)
Definition _handle_signal (signal : SignalEvent.t) (close : float)
                          (self : Account) : Outcome (option OrderEvent.t) :=
  let quantity := SignalEvent.volume signal in
  match (if (quantity <=? 0)%Z
         then _calculate_order_quantity (SignalEvent.direction signal) close self
         else Ok quantity) with
  | Ok quantity =>
    if (quantity <=? 0)%Z then Ok None
    else
      Ok (Some (OrderEvent.mk (SignalEvent.datetime signal)
                              (SignalEvent.symbol signal)
                              (SignalEvent.direction signal)
                              (SignalEvent.order_type signal)
                              quantity
                              (SignalEvent.limit_price signal)))
  | Raise e => Raise e
  | Diverge => Diverge
  end.

(** The fee settings of a portfolio. *)
Record Fees : Type := mkFees {
  commission_rate : float;
  min_commission : float;
  stamp_tax : float;
  fee_market : string
}.

(** [calculate_commission]. *)
Definition calculate_commission (price : float) (quantity : Z) (direction : string)
                                (self : Fees) : option Q :=
  let trade_amount := (price * of_int quantity)%float in
  let commission :=
    if fee_market self =? "A" then
      let commission := max (trade_amount * commission_rate self)%float
                            (min_commission self) in
      if direction =? "SELL"
      then (commission + trade_amount * stamp_tax self)%float
      else commission
    else (trade_amount * commission_rate self)%float in
  round commission 2.

End Binary64.

(** * Properties *)

(** ** Comparisons *)

Lemma Py_ltb_lt a b : Py.ltb a b = true <-> a < b.
Proof.
  unfold Py.ltb. rewrite negb_true_iff, <- not_true_iff_false, Qle_bool_iff.
  split; [apply Qnot_le_lt | apply Qlt_not_le].
Qed.

Lemma Py_ltb_ge a b : Py.ltb a b = false <-> b <= a.
Proof. unfold Py.ltb. rewrite negb_false_iff. apply Qle_bool_iff. Qed.

Lemma Py_gtb_gt a b : Py.gtb a b = true <-> b < a.
Proof. apply Py_ltb_lt. Qed.

Lemma Py_gtb_le a b : Py.gtb a b = false <-> a <= b.
Proof. apply Py_ltb_ge. Qed.

Lemma Py_leb_le a b : Py.leb a b = true <-> a <= b.
Proof. apply Qle_bool_iff. Qed.

Lemma Py_leb_gt a b : Py.leb a b = false <-> b < a.
Proof.
  unfold Py.leb. rewrite <- not_true_iff_false, Qle_bool_iff.
  split; [apply Qnot_le_lt | apply Qlt_not_le].
Qed.

(** Unfold the monad down to pairs of an outcome and a state. *)
Ltac run_monad :=
  unfold result, final, bind, ret, get, gets, put, modify, raise, diverge, zoom in *;
  cbn [fst snd] in *.

(** ** The ledger *)

(** The trade that [execute_fill] records for a fill. *)
Definition trade_of (fill : FillEvent.t) : Trade.t :=
  Trade.mk (FillEvent.datetime fill) (FillEvent.symbol fill)
           (FillEvent.direction fill) (FillEvent.fill_price fill)
           (FillEvent.quantity fill) (FillEvent.commission fill)
           (FillEvent.slippage_cost fill).

Lemma record_trade_spec fill p :
  Portfolio.record_trade fill p =
  (Ok true, Portfolio.set_trades (Portfolio.trades p ++ [trade_of fill])%list p).
Proof. reflexivity. Qed.

(** What [execute_fill] does, branch by branch, as one pure expression. *)
Lemma execute_fill_unfold fill p :
  Portfolio.execute_fill fill p =
  let cost := FillEvent.fill_price fill * Py.of_int (FillEvent.quantity fill) in
  if FillEvent.direction fill =? "BUY" then
    if Py.gtb (cost + FillEvent.commission fill) (Portfolio.cash p)
    then (Ok false, p)
    else
      let position := (Portfolio.position p + FillEvent.quantity fill)%Z in
      let avg :=
        if (position >? 0)%Z
        then (Portfolio.position_avg_cost p * Py.of_int (Portfolio.position p) + cost)
             / Py.of_int position
        else Portfolio.position_avg_cost p in
      (Ok true,
       Portfolio.mk (Portfolio.initial_capital p)
         (Portfolio.cash p - (cost + FillEvent.commission fill))
         (Portfolio.commission_rate p) (Portfolio.slippage p)
         (Portfolio.min_commission p) (Portfolio.stamp_tax p) (Portfolio.market p)
         position avg (Portfolio.trades p ++ [trade_of fill])%list
         (Portfolio.equity_curve p))
  else if FillEvent.direction fill =? "SELL" then
    if (FillEvent.quantity fill >? Portfolio.position p)%Z
    then (Ok false, p)
    else
      let position := (Portfolio.position p - FillEvent.quantity fill)%Z in
      (Ok true,
       Portfolio.mk (Portfolio.initial_capital p)
         (Portfolio.cash p + (cost - FillEvent.commission fill))
         (Portfolio.commission_rate p) (Portfolio.slippage p)
         (Portfolio.min_commission p) (Portfolio.stamp_tax p) (Portfolio.market p)
         position
         (if (position =? 0)%Z then 0 else Portfolio.position_avg_cost p)
         (Portfolio.trades p ++ [trade_of fill])%list
         (Portfolio.equity_curve p))
  else
    (Ok true, Portfolio.set_trades (Portfolio.trades p ++ [trade_of fill])%list p).
Proof.
  unfold Portfolio.execute_fill, Portfolio.record_trade.
  destruct (FillEvent.direction fill =? "BUY").
  - run_monad.
    destruct (Py.gtb _ _); [reflexivity|].
    cbn. destruct (_ >? 0)%Z; reflexivity.
  - destruct (FillEvent.direction fill =? "SELL"); [|reflexivity].
    run_monad.
    destruct (_ >? _)%Z; [reflexivity|].
    cbn. destruct (_ =? 0)%Z; reflexivity.
Qed.

(** C2.  A fill that [execute_fill] rejects (it returns [False]) leaves the
    portfolio exactly as it was: cash, position, average cost, the trade
    history and the equity curve are those from before the call. *)
Theorem execute_fill_rejection_is_atomic (fill : FillEvent.t) (p : Portfolio.t) :
  result (Portfolio.execute_fill fill) p = Ok false ->
  final (Portfolio.execute_fill fill) p = p
  /\ Portfolio.cash (final (Portfolio.execute_fill fill) p) = Portfolio.cash p
  /\ Portfolio.position (final (Portfolio.execute_fill fill) p) = Portfolio.position p
  /\ Portfolio.position_avg_cost (final (Portfolio.execute_fill fill) p)
     = Portfolio.position_avg_cost p
  /\ Portfolio.trades (final (Portfolio.execute_fill fill) p) = Portfolio.trades p
  /\ Portfolio.equity_curve (final (Portfolio.execute_fill fill) p)
     = Portfolio.equity_curve p.
Proof.
  unfold result, final. rewrite execute_fill_unfold. cbv zeta.
  destruct (FillEvent.direction fill =? "BUY").
  - destruct (Py.gtb _ _); cbn; [intuition reflexivity | discriminate].
  - destruct (FillEvent.direction fill =? "SELL").
    + destruct (_ >? _)%Z; cbn; [intuition reflexivity | discriminate].
    + cbn. discriminate.
Qed.

(** C10.  A fill whose direction is neither "BUY" nor "SELL" is accepted:
    [execute_fill] returns [True] and appends its trade, and cash, position
    and average cost stay as they were. *)
Theorem execute_fill_unknown_direction_records (fill : FillEvent.t) (p : Portfolio.t) :
  FillEvent.direction fill <> "BUY" ->
  FillEvent.direction fill <> "SELL" ->
  result (Portfolio.execute_fill fill) p = Ok true
  /\ Portfolio.trades (final (Portfolio.execute_fill fill) p)
     = (Portfolio.trades p ++ [trade_of fill])%list
  /\ Portfolio.cash (final (Portfolio.execute_fill fill) p) = Portfolio.cash p
  /\ Portfolio.position (final (Portfolio.execute_fill fill) p) = Portfolio.position p
  /\ Portfolio.position_avg_cost (final (Portfolio.execute_fill fill) p)
     = Portfolio.position_avg_cost p
  /\ Portfolio.equity_curve (final (Portfolio.execute_fill fill) p)
     = Portfolio.equity_curve p.
Proof.
  intros Hb Hs. unfold result, final. rewrite execute_fill_unfold. cbv zeta.
  apply String.eqb_neq in Hb, Hs. rewrite Hb, Hs. cbn. intuition reflexivity.
Qed.

(** ** The fee model and the broker *)

(** The values the two fee methods return; both only read the portfolio. *)
Definition slipped (p : Portfolio.t) (price : Q) (direction : string) : Q :=
  if direction =? "BUY"
  then Py.round (price * (1 + Portfolio.slippage p)) 4
  else Py.round (price * (1 - Portfolio.slippage p)) 4.

Definition raw_commission (p : Portfolio.t) (price : Q) (quantity : Z)
                          (direction : string) : Q :=
  let trade_amount := price * Py.of_int quantity in
  if Portfolio.market p =? "A" then
    if direction =? "SELL"
    then Py.max (trade_amount * Portfolio.commission_rate p) (Portfolio.min_commission p)
         + trade_amount * Portfolio.stamp_tax p
    else Py.max (trade_amount * Portfolio.commission_rate p) (Portfolio.min_commission p)
  else trade_amount * Portfolio.commission_rate p.

Lemma calculate_slippage_reads price direction p :
  Portfolio.calculate_slippage price direction p = (Ok (slipped p price direction), p).
Proof.
  unfold Portfolio.calculate_slippage, slipped. run_monad.
  destruct (direction =? "BUY"); reflexivity.
Qed.

Lemma calculate_commission_reads price quantity direction p :
  Portfolio.calculate_commission price quantity direction p =
  (Ok (Py.round (raw_commission p price quantity direction) 2), p).
Proof.
  unfold Portfolio.calculate_commission, raw_commission. run_monad.
  destruct (Portfolio.market p =? "A"); [|reflexivity].
  destruct (direction =? "SELL"); reflexivity.
Qed.

(** The broker after one more call of [execute_order]. *)
Definition counted (b : SimulatedBroker.t) : SimulatedBroker.t :=
  SimulatedBroker.mk (SimulatedBroker._order_count b + 1).

(** The fill the broker emits for an order at a base price. *)
Definition fill_at (p : Portfolio.t) (order : OrderEvent.t) (fill_price : Q)
  : FillEvent.t :=
  let actual_price := slipped p fill_price (OrderEvent.direction order) in
  FillEvent.mk (OrderEvent.datetime order) (OrderEvent.symbol order)
    (OrderEvent.direction order) (OrderEvent.quantity order) actual_price
    (Py.round (raw_commission p actual_price (OrderEvent.quantity order)
                              (OrderEvent.direction order)) 2)
    (Py.abs (actual_price - fill_price) * Py.of_int (OrderEvent.quantity order)).

(** Step 4 of [execute_order], on the values of steps 1 to 3. *)
Definition funds_check (p : Portfolio.t) (order : OrderEvent.t) (fill_price : Q)
  : option FillEvent.t :=
  let fill := fill_at p order fill_price in
  if OrderEvent.direction order =? "BUY" then
    if Py.gtb (FillEvent.fill_price fill * Py.of_int (OrderEvent.quantity order)
               + FillEvent.commission fill) (Portfolio.cash p)
    then None else Some fill
  else if OrderEvent.direction order =? "SELL" then
    if (OrderEvent.quantity order >? Portfolio.position p)%Z then None else Some fill
  else Some fill.

Lemma execute_order_unfold order bar b p :
  SimulatedBroker.execute_order order bar (b, p) =
  match SimulatedBroker.base_fill_price order bar with
  | Raise e => (Raise e, (counted b, p))
  | Diverge => (Diverge, (counted b, p))
  | Ok None => (Ok None, (counted b, p))
  | Ok (Some fill_price) => (Ok (funds_check p order fill_price), (counted b, p))
  end.
Proof.
  unfold SimulatedBroker.execute_order, SimulatedBroker.on_self,
    SimulatedBroker.on_portfolio.
  destruct (SimulatedBroker.base_fill_price order bar) as [[fp|]|e|];
    try reflexivity.
  run_monad.
  rewrite calculate_slippage_reads. cbn [fst snd].
  rewrite calculate_commission_reads. cbn [fst snd].
  unfold funds_check, fill_at. cbn [FillEvent.fill_price FillEvent.commission].
  destruct (OrderEvent.direction order =? "BUY").
  - destruct (Py.gtb _ _); reflexivity.
  - destruct (OrderEvent.direction order =? "SELL"); [|reflexivity].
    destruct (_ >? _)%Z; reflexivity.
Qed.

Lemma update_market_value_unfold datetime close_price p :
  Portfolio.update_market_value datetime close_price p =
  (Ok tt,
   Portfolio.set_equity_curve
     (Portfolio.equity_curve p ++
      [EquityRow.mk datetime (Py.round (Portfolio.cash p) 2)
         (Py.round (Py.of_int (Portfolio.position p) * close_price) 2)
         (Py.round (Portfolio.cash p + Py.of_int (Portfolio.position p) * close_price) 2)
         (Portfolio.position p)]) p).
Proof. reflexivity. Qed.

(** C9.  [execute_order] never writes the portfolio it is handed: whatever
    the order, the bar and the outcome (a fill, a rejection or an exception),
    the portfolio after the call is the one from before.  The per-bar
    snapshot [update_market_value] appends exactly one row to the equity
    curve and leaves cash, position, average cost and the trade history as
    they were. *)
Theorem broker_and_snapshot_frame (order : OrderEvent.t) (bar : Bar.t)
    (b : SimulatedBroker.t) (p : Portfolio.t)
    (datetime : Timestamp) (close_price : Q) :
  snd (final (SimulatedBroker.execute_order order bar) (b, p)) = p
  /\ (let p' := final (Portfolio.update_market_value datetime close_price) p in
      Portfolio.cash p' = Portfolio.cash p
      /\ Portfolio.position p' = Portfolio.position p
      /\ Portfolio.position_avg_cost p' = Portfolio.position_avg_cost p
      /\ Portfolio.trades p' = Portfolio.trades p
      /\ (exists row, Portfolio.equity_curve p' = (Portfolio.equity_curve p ++ [row])%list
                      /\ EquityRow.datetime row = datetime
                      /\ EquityRow.position row = Portfolio.position p)
      /\ p' = Portfolio.set_equity_curve (Portfolio.equity_curve p') p).
Proof.
  split.
  - unfold final. rewrite execute_order_unfold.
    destruct (SimulatedBroker.base_fill_price order bar) as [[fp|]|e|]; reflexivity.
  - unfold final. rewrite update_market_value_unfold. cbn.
    repeat split; try reflexivity.
    eexists. repeat split.
Qed.





(** Once the base price is fixed, nothing else of the bar or of the order
    kind enters the fill. *)
Lemma execute_order_fill_from_base order bar b p fill :
  result (SimulatedBroker.execute_order order bar) (b, p) = Ok (Some fill) ->
  exists fill_price,
    SimulatedBroker.base_fill_price order bar = Ok (Some fill_price)
    /\ fill = fill_at p order fill_price.
Proof.
  unfold result. rewrite execute_order_unfold.
  destruct (SimulatedBroker.base_fill_price order bar) as [[fp|]|e|];
    cbn [fst]; try discriminate.
  intros H. exists fp. split; [reflexivity|].
  injection H as H. unfold funds_check in H.
  destruct (OrderEvent.direction order =? "BUY").
  - destruct (Py.gtb _ _); congruence.
  - destruct (OrderEvent.direction order =? "SELL"); [|congruence].
    destruct (_ >? _)%Z; congruence.
Qed.


(** ** The commission formula *)

(** The commission as the fee model words it: in the proportional market
    the trade amount times the rate; in the floor-and-tax market the larger
    of that and the minimum commission, plus the tax on the trade amount
    when selling. *)
Definition stated_commission (floor_and_tax : bool) (rate minimum tax : Q)
                             (price : Q) (quantity : Z) (sell : bool) : Q :=
  let trade_amount := price * inject_Z quantity in
  if floor_and_tax then
    if sell
    then Qmax (trade_amount * rate) minimum + trade_amount * tax
    else Qmax (trade_amount * rate) minimum
  else trade_amount * rate.

(** Rounding to the nearest integer moves a number by at most one half. *)
Lemma round_half_even_error y :
  Qabs (inject_Z (Py.round_half_even y) - y) <= 1 # 2.
Proof.
  unfold Py.round_half_even.
  pose proof (Qfloor_le y) as Hlo.
  pose proof (Qlt_floor y) as Hhi.
  rewrite inject_Z_plus in Hhi. change (inject_Z 1) with 1 in Hhi.
  apply Qabs_Qle_condition.
  destruct (Qcompare_spec (y - inject_Z (Qfloor y)) (1 # 2)) as [E|E|E].
  - destruct (Z.even (Qfloor y)).
    + split; lra.
    + rewrite inject_Z_plus. change (inject_Z 1) with 1. split; lra.
  - split; lra.
  - rewrite inject_Z_plus. change (inject_Z 1) with 1. split; lra.
Qed.

(** [round(x, n)] is within half a unit of the [n]-th decimal of [x]. *)
Lemma Py_round_error x n :
  Qabs (Py.round x n - x) <= (1 # 2) / inject_Z (Py.pow10 n).
Proof.
  unfold Py.round.
  set (k := inject_Z (Py.pow10 n)).
  assert (Hk : 0 < k).
  { unfold k. change 0 with (inject_Z 0). rewrite <- Zlt_Qlt.
    unfold Py.pow10. apply Z.pow_pos_nonneg; lia. }
  pose proof (round_half_even_error (x * k)) as H.
  apply Qabs_Qle_condition in H. destruct H as [H1 H2].
  set (r := inject_Z (Py.round_half_even (x * k))) in *.
  assert (Hik : 0 <= / k) by (apply Qlt_le_weak, Qinv_lt_0_compat, Hk).
  assert (Heq : r / k - x == (r - x * k) * / k).
  { field. intros E. rewrite E in Hk. exact (Qlt_irrefl 0 Hk). }
  apply Qabs_Qle_condition. rewrite Heq. unfold Qdiv. split.
  - setoid_replace (- ((1 # 2) * / k)) with ((- (1 # 2)) * / k) by ring.
    apply Qmult_le_compat_r; assumption.
  - apply Qmult_le_compat_r; assumption.
Qed.

(** A number of whole cents. *)
Lemma Py_round_cents x :
  Py.round x 2 = inject_Z (Py.round_half_even (x * 100)) / 100.
Proof. reflexivity. Qed.

(** C7, as the code has it.  [calculate_commission] returns the stated
    commission to the nearest cent: a whole number of cents that is within
    half a cent of the stated amount; which of two cents is returned when the
    amount falls midway between them is not said.  The call only reads the
    portfolio.  Market "A" is the floor-and-tax market, every other market is
    proportional, and the tax applies to direction "SELL" alone. *)
Theorem calculate_commission_to_the_cent (p : Portfolio.t) (price : Q)
    (quantity : Z) (direction : string) :
  let stated :=
    stated_commission (Portfolio.market p =? "A")
      (Portfolio.commission_rate p) (Portfolio.min_commission p)
      (Portfolio.stamp_tax p) price quantity (direction =? "SELL") in
  exists (commission : Q) (cents : Z),
    Portfolio.calculate_commission price quantity direction p = (Ok commission, p)
    /\ commission = inject_Z cents / 100
    /\ Qabs (commission - stated) <= 1 # 200.
Proof.
  cbv zeta. rewrite calculate_commission_reads.
  assert (E : raw_commission p price quantity direction
              = stated_commission (Portfolio.market p =? "A")
                  (Portfolio.commission_rate p) (Portfolio.min_commission p)
                  (Portfolio.stamp_tax p) price quantity (direction =? "SELL")).
  { unfold raw_commission, stated_commission.
    destruct (Portfolio.market p =? "A"); [|reflexivity].
    destruct (direction =? "SELL"); reflexivity. }
  rewrite E. eexists. eexists. split; [reflexivity|].
  split; [apply Py_round_cents | apply (Py_round_error _ 2)].
Qed.

(** A proportional-market portfolio with the default rate. *)
Definition us_portfolio : Portfolio.t :=
  Portfolio.__init__ 100000 (3 # 10000) (1 # 1000)
    Portfolio.default_min_commission Portfolio.default_stamp_tax "US".

(** C7, as stated, fails: buying one share at 10 in the proportional market
    costs a commission of 0, not the 0.003 that amount times rate gives. *)
Lemma commission_is_not_exact :
  exists c,
    result (Portfolio.calculate_commission 10 1 "BUY") us_portfolio = Ok c
    /\ c == 0
    /\ ~ c == stated_commission false (Portfolio.commission_rate us_portfolio)
                (Portfolio.min_commission us_portfolio)
                (Portfolio.stamp_tax us_portfolio) 10 1 false.
Proof.
  eexists. split; [reflexivity|]. split; [reflexivity|].
  vm_compute. discriminate.
Qed.

(** Which cent a tie goes to is settled in floating point.  Selling 200
    shares at 64.975 in market "A" with the default fees, the stated commission
    is 17.995, midway between two cents.  The float sum of the fee and the tax
    lies just below it, and the commission is 17.99: a whole number of cents
    within half a cent of the stated amount. *)
Lemma commission_tie_in_binary64 :
  let stated :=
    stated_commission true (3 # 10000) 5 (1 # 1000) (64975 # 1000) 200 true in
  stated == 17995 # 1000
  /\ Binary64.calculate_commission 64.975 200 "SELL"
       (Binary64.mkFees 0.0003 5 0.001 "A")
     = Some (1799 # 100)
  /\ Qabs ((1799 # 100) - stated) <= 1 # 200.
Proof.
  cbv zeta. split; [vm_compute; reflexivity|].
  split; [vm_compute; reflexivity|].
  vm_compute. discriminate.
Qed.

(** ** Worked instances *)

(** An A-share portfolio with 1000 in cash and the default fees. *)
Definition a_portfolio : Portfolio.t :=
  Portfolio.__init__ 1000 (3 # 10000) (1 # 1000)
    Portfolio.default_min_commission Portfolio.default_stamp_tax "A".

Definition a_bar : Bar.t := Bar.mk 1 10 12 9 11 5000.

Definition market_order (direction : string) (quantity : Z) : OrderEvent.t :=
  OrderEvent.mk 1 "600519" direction "MARKET" quantity None.


(** Buying 100 shares at 20 with 1000 in cash is refused and changes
    nothing. *)
Lemma execute_fill_rejection_is_atomic_witness :
  final (Portfolio.execute_fill (FillEvent.mk 1 "600519" "BUY" 100 20 5 2)) a_portfolio
  = a_portfolio.
Proof.
  exact (proj1 (execute_fill_rejection_is_atomic
                  (FillEvent.mk 1 "600519" "BUY" 100 20 5 2) a_portfolio eq_refl)).
Defined.

(** A fill marked "HOLD" is recorded as a trade. *)
Lemma execute_fill_unknown_direction_records_witness :
  result (Portfolio.execute_fill (FillEvent.mk 1 "600519" "HOLD" 100 20 5 2)) a_portfolio
  = Ok true.
Proof.
  refine (proj1 (execute_fill_unknown_direction_records
                   (FillEvent.mk 1 "600519" "HOLD" 100 20 5 2) a_portfolio _ _));
    cbn; discriminate.
Defined.



(** ** Signal sizing *)

(** The default size as the sizing policy words it: a SELL sells the whole
    position; a BUY spends 95% of the cash at the close, rounded down to a
    whole number of shares, and down to a multiple of 100 where the market
    trades in lots. *)
Definition stated_quantity (lots : bool) (sell : bool) (cash close : Q)
                           (position : Z) : Z :=
  if sell then position
  else
    let shares := Qfloor ((95 # 100) * cash / close) in
    if lots then (shares - shares mod 100)%Z else shares.

Lemma Py_int_nonneg x : 0 <= x -> Py.int x = Qfloor x /\ (0 <= Qfloor x)%Z.
Proof.
  intros H. unfold Py.int.
  destruct (Qle_bool 0 x) eqn:E.
  - split; [reflexivity|].
    change 0%Z with (Qfloor (inject_Z 0)) at 1.
    rewrite <- (Qfloor_Z 0). apply Qfloor_resp_le. exact H.
  - apply Qle_bool_iff in H. congruence.
Qed.

Lemma Py_int_neg x : x < 0 -> (Py.int x <= 0)%Z /\ (Qfloor x < 0)%Z.
Proof.
  intros H. unfold Py.int.
  assert (Hf : (Qfloor x < 0)%Z).
  { apply Z.lt_nge. intros Hge.
    assert (Hx : inject_Z 0 <= x).
    { apply Qle_trans with (inject_Z (Qfloor x)).
      - rewrite <- Zle_Qle. exact Hge.
      - apply Qfloor_le. }
    apply (Qlt_not_le _ _ H). exact Hx. }
  split; [|exact Hf].
  destruct (Qle_bool 0 x) eqn:E.
  - lia.
  - unfold Qceiling.
    assert (0 <= Qfloor (- x))%Z; [|lia].
    rewrite <- (Qfloor_Z 0). apply Qfloor_resp_le.
    change (inject_Z 0) with (- 0). apply Qopp_le_compat. apply Qlt_le_weak, H.
Qed.

Lemma calculate_order_quantity_reads {St} (signal : SignalEvent.t) (bar : Bar.t)
    (e : BacktestEngine.t St) :
  BacktestEngine._calculate_order_quantity signal bar e =
  (Ok (if SignalEvent.direction signal =? "SELL"
       then Portfolio.position (BacktestEngine.portfolio e)
       else if Py.leb (Bar.close bar) 0 then 0%Z
       else
         let quantity :=
           Py.int (Portfolio.cash (BacktestEngine.portfolio e) * (95 # 100)
                   / Bar.close bar) in
         Z.max (if BacktestEngine.market e =? "A"
                then (quantity / 100 * 100)%Z else quantity) 0), e).
Proof.
  unfold BacktestEngine._calculate_order_quantity. run_monad.
  destruct (SignalEvent.direction signal =? "SELL"); [reflexivity|].
  destruct (Py.leb _ _); reflexivity.
Qed.

(** The order that [_handle_signal] builds from a signal and a quantity. *)
Definition order_of (signal : SignalEvent.t) (quantity : Z) : OrderEvent.t :=
  OrderEvent.mk (SignalEvent.datetime signal) (SignalEvent.symbol signal)
                (SignalEvent.direction signal) (SignalEvent.order_type signal)
                quantity (SignalEvent.limit_price signal).

Definition enqueue {St} (ev : Event) (e : BacktestEngine.t St) : BacktestEngine.t St :=
  BacktestEngine.set_event_queue (BacktestEngine.event_queue e ++ [ev]) e.

Lemma handle_signal_unfold {St} (signal : SignalEvent.t) (bar : Bar.t)
    (e : BacktestEngine.t St) :
  BacktestEngine._handle_signal signal bar e =
  let quantity :=
    if (SignalEvent.volume signal <=? 0)%Z
    then match fst (BacktestEngine._calculate_order_quantity signal bar e) with
         | Ok q => q
         | _ => 0%Z
         end
    else SignalEvent.volume signal in
  (Ok tt, if (quantity <=? 0)%Z then e else enqueue (ORDER (order_of signal quantity)) e).
Proof.
  unfold BacktestEngine._handle_signal.
  destruct (SignalEvent.volume signal <=? 0)%Z eqn:Ev.
  - unfold bind at 1. rewrite calculate_order_quantity_reads. cbn [fst].
    cbv zeta. clear Ev.
    match goal with |- context [(?q <=? 0)%Z] => destruct (q <=? 0)%Z end; reflexivity.
  - unfold bind at 1, ret at 1. cbv zeta. rewrite Ev. reflexivity.
Qed.

(** The whole lots in a number of shares. *)
Definition whole_lots (lots : bool) (shares : Z) : Z :=
  if lots then (shares - shares mod 100)%Z else shares.

Lemma Binary64_int_value x v :
  Binary64.value x = Some v -> Binary64.int x = Ok (Py.int v).
Proof. intros H. unfold Binary64.int. rewrite H. reflexivity. Qed.

Lemma Binary64_int_no_value x :
  Binary64.value x = None -> exists e, Binary64.int x = Raise e.
Proof.
  intros H. unfold Binary64.int. rewrite H.
  destruct (PrimFloat.is_nan x); eauto.
Qed.

(** The size kept of an integer part: negative parts count as nothing. *)
Lemma kept_quantity (lots : bool) (v : Q) :
  let quantity := Z.max (if lots then (Py.int v / 100 * 100)%Z else Py.int v) 0 in
  (quantity <=? 0)%Z = negb (0 <? whole_lots lots (Qfloor v))%Z
  /\ ((0 < whole_lots lots (Qfloor v))%Z -> quantity = whole_lots lots (Qfloor v)).
Proof.
  cbv zeta. unfold whole_lots.
  destruct (Qlt_le_dec v 0) as [Hneg | Hpos].
  - destruct (Py_int_neg v Hneg) as [Hi Hf].
    assert (Hq : (Z.max (if lots then Py.int v / 100 * 100 else Py.int v) 0 = 0)%Z).
    { destruct lots; [|lia]. Z.div_mod_to_equations. lia. }
    assert (Hw : ((if lots then Qfloor v - Qfloor v mod 100 else Qfloor v) < 0)%Z).
    { destruct lots; [|lia]. Z.div_mod_to_equations. lia. }
    rewrite Hq. split; [|lia].
    cbn [Z.leb Z.compare]. symmetry. apply negb_true_iff, Z.ltb_ge. lia.
  - destruct (Py_int_nonneg v Hpos) as [Hi Hf]. rewrite Hi.
    assert (Hq : (Z.max (if lots then Qfloor v / 100 * 100 else Qfloor v) 0
                  = if lots then Qfloor v - Qfloor v mod 100 else Qfloor v)%Z).
    { destruct lots; [|lia]. Z.div_mod_to_equations. lia. }
    rewrite Hq. split; [|reflexivity].
    match goal with |- (?q <=? 0)%Z = _ =>
      destruct (q <=? 0)%Z eqn:E; [apply Z.leb_le in E | apply Z.leb_gt in E]
    end.
    + symmetry. apply negb_true_iff, Z.ltb_ge. exact E.
    + symmetry. apply negb_false_iff, Z.ltb_lt. exact E.
Qed.

(** C6, as the code has it.  Sizing of a signal that asks for quantity 0.
    A SELL is sized to the whole current position.  Any other direction (a
    BUY) on a bar whose close is not positive is sized to nothing.  On a bar
    with a positive close a BUY is sized to the integer part of the float
    [(cash * 0.95) / close], the product and the quotient each rounded to
    binary64: the floor of the number that float denotes, cut down to a
    multiple of 100 in market "A" and left as it is in every other market.
    One order of that size is emitted when the size is positive, and none
    when it is not.  Where the quotient is NaN or infinite the conversion to
    an integer raises. *)
Theorem signal_sizing_in_binary64 (signal : SignalEvent.t) (close : float)
    (self : Binary64.Account) :
  SignalEvent.volume signal = 0%Z ->
  let emitted (quantity : Z) :=
    if (0 <? quantity)%Z then Some (order_of signal quantity) else None in
  let quotient := (Binary64.cash self * 0.95 / close)%float in
  (SignalEvent.direction signal = "SELL" ->
     Binary64._calculate_order_quantity "SELL" close self
     = Ok (Binary64.position self)
     /\ Binary64._handle_signal signal close self
        = Ok (emitted (Binary64.position self)))
  /\ (SignalEvent.direction signal <> "SELL" ->
      ((close <=? 0)%float = true ->
         Binary64._handle_signal signal close self = Ok None)
      /\ ((close <=? 0)%float = false ->
          forall v, Binary64.value quotient = Some v ->
            Binary64._handle_signal signal close self
            = Ok (emitted (whole_lots (Binary64.market self =? "A") (Qfloor v))))
      /\ ((close <=? 0)%float = false ->
          Binary64.value quotient = None ->
          exists e, Binary64._handle_signal signal close self = Raise e)).
Proof.
  intros Hv emitted quotient.
  unfold Binary64._handle_signal. rewrite Hv. cbn [Z.leb Z.compare].
  unfold Binary64._calculate_order_quantity.
  split.
  - intros Hd. apply String.eqb_eq in Hd. rewrite Hd.
    split; [reflexivity|]. unfold emitted.
    destruct (Binary64.position self <=? 0)%Z eqn:E;
      [apply Z.leb_le in E | apply Z.leb_gt in E].
    + replace (0 <? _)%Z with false; [reflexivity|].
      symmetry. apply Z.ltb_ge. exact E.
    + replace (0 <? _)%Z with true; [reflexivity|].
      symmetry. apply Z.ltb_lt. exact E.
  - intros Hd. apply String.eqb_neq in Hd. rewrite Hd.
    split; [|split].
    + intros Hc. rewrite Hc. reflexivity.
    + intros Hc v Hq. rewrite Hc. fold quotient.
      rewrite (Binary64_int_value quotient v Hq).
      destruct (kept_quantity (Binary64.market self =? "A") v) as [Hz Hk].
      cbv zeta in Hz, Hk. rewrite Hz. unfold emitted.
      destruct (0 <? whole_lots (Binary64.market self =? "A")%string (Qfloor v))%Z
        eqn:E; cbn [negb]; [|reflexivity].
      apply Z.ltb_lt in E. rewrite (Hk E). reflexivity.
    + intros Hc Hq. rewrite Hc. fold quotient.
      destruct (Binary64_int_no_value quotient Hq) as [e ->]. eauto.
Qed.

(** A BUY signal that leaves the quantity to the engine. *)
Definition buy_signal : SignalEvent.t :=
  SignalEvent.mk 1 "600519" "BUY" 0 "MARKET" None.

(** With 100000 in cash and a close of 11 in market "A", a BUY signal of
    quantity 0 becomes an order for 8600 shares: the integer part of
    95000 / 11 is 8636, cut down to whole lots. *)
Lemma signal_sizing_in_binary64_witness :
  Binary64._handle_signal buy_signal 11 (Binary64.mkAccount 100000 0 "A")
  = Ok (Some (market_order "BUY" 8600)).
Proof.
  pose (self := Binary64.mkAccount 100000 0 "A").
  destruct (Binary64.value (Binary64.cash self * 0.95 / 11)%float) as [v|] eqn:E;
    [|vm_compute in E; discriminate E].
  refine (eq_trans
            (proj1 (proj2 (proj2 (signal_sizing_in_binary64 buy_signal 11 self eq_refl)
                                 _))
                   eq_refl v E) _).
  - discriminate.
  - vm_compute in E. injection E as <-. vm_compute. reflexivity.
Defined.

(** C6, as stated, fails.  With 99999 in cash and a close of 0.95 in a
    market that trades single shares, 0.95 * cash / close is 99999 shares and
    a little more, whether the close is read as the decimal 0.95 or as the
    float nearest to it; the product and the quotient round to a float just
    below 99999, and the order is for 99998 shares.  With 900 in cash and a
    close of 8.55 in market "A", 0.95 * cash / close is one lot of 100 shares;
    the float quotient has integer part 99, and no order is emitted. *)
Lemma buy_size_is_not_the_stated_floor :
  (Binary64._handle_signal buy_signal 0.95 (Binary64.mkAccount 99999 0 "US")
   = Ok (Some (market_order "BUY" 99998))
   /\ stated_quantity false false 99999 (95 # 100) 0 = 99999%Z
   /\ (exists cash close,
         Binary64.value 99999 = Some cash /\ Binary64.value 0.95 = Some close
         /\ cash == 99999
         /\ stated_quantity false false cash close 0 = 99999%Z))
  /\ (Binary64._calculate_order_quantity "BUY" 8.55 (Binary64.mkAccount 900 0 "A")
      = Ok 0%Z
      /\ Binary64.int (900 * 0.95 / 8.55)%float = Ok 99%Z
      /\ Binary64._handle_signal buy_signal 8.55 (Binary64.mkAccount 900 0 "A")
         = Ok None
      /\ stated_quantity true false 900 (855 # 100) 0 = 100%Z).
Proof.
  split.
  - split; [vm_compute; reflexivity|]. split; [vm_compute; reflexivity|].
    eexists. eexists. split; [reflexivity|]. split; [reflexivity|].
    split; vm_compute; reflexivity.
  - repeat split; vm_compute; reflexivity.
Qed.

(** A strategy that places the calls a script lists for each bar, and
    ignores fills. *)
Definition scripted (script : nat -> list Strategy.Call) : Strategy.t unit :=
  Strategy.mk "scripted"
    (fun _ st => Strategy.mkRan [] (Ok tt) st)
    (fun ctx _ st => Strategy.mkRan (script (Strategy.current_idx ctx)) (Ok tt) st)
    (fun _ _ st => Strategy.mkRan [] (Ok tt) st).

Definition a_engine : BacktestEngine.t unit :=
  BacktestEngine.__init__ [a_bar] (scripted (fun _ => [])) tt
    100000 (3 # 10000) (1 # 1000) "A" "600519".

(** ** Runs of the engine *)

(** The states a run passes through.  Each step is a piece of [run]: the
    strategy's [init], the opening of a bar (its market event joins the
    queue), the handling of the event at the head of the queue against the
    current bar, and the snapshot that closes a bar. *)
Inductive Reachable {St} (e0 : BacktestEngine.t St) : BacktestEngine.t St -> Prop :=
| reach_start : Reachable e0 e0
| reach_init e :
    Reachable e0 e ->
    Reachable e0
      (final (BacktestEngine.hook (Strategy.init (BacktestEngine.strategy e))) e)
| reach_open e idx bar :
    Reachable e0 e ->
    nth_error (BacktestEngine.data e) idx = Some bar ->
    Reachable e0
      (enqueue (MARKET (MarketEvent.mk (Bar.name bar)))
               (BacktestEngine.set__current_idx idx e))
| reach_event e event rest bar :
    Reachable e0 e ->
    BacktestEngine.event_queue e = event :: rest ->
    nth_error (BacktestEngine.data e) (BacktestEngine._current_idx e) = Some bar ->
    Reachable e0
      (final (BacktestEngine._process_event event bar)
             (BacktestEngine.set_event_queue rest e))
| reach_snapshot e bar :
    Reachable e0 e ->
    nth_error (BacktestEngine.data e) (BacktestEngine._current_idx e) = Some bar ->
    Reachable e0
      (final (BacktestEngine.on_portfolio
                (Portfolio.update_market_value (Bar.name bar) (Bar.close bar))) e).

(** Orders and fills in flight carry a positive quantity. *)
Definition sized (event : Event) : Prop :=
  match event with
  | ORDER order => (0 < OrderEvent.quantity order)%Z
  | FILL fill => (0 < FillEvent.quantity fill)%Z
  | _ => True
  end.

Definition positive_price (trade : Trade.t) : Prop := 0 < Trade.price trade.

(** The ledger invariant: the position is never negative; with no position
    the average cost is zero; and as long as every recorded trade was at a
    positive price, the average cost is zero only with no position. *)
Definition ledger_ok (p : Portfolio.t) : Prop :=
  (0 <= Portfolio.position p)%Z
  /\ (Portfolio.position p = 0%Z -> Portfolio.position_avg_cost p == 0)
  /\ (Forall positive_price (Portfolio.trades p) ->
      0 <= Portfolio.position_avg_cost p
      /\ (Portfolio.position_avg_cost p == 0 -> Portfolio.position p = 0%Z)).

Definition engine_ok {St} (e : BacktestEngine.t St) : Prop :=
  ledger_ok (BacktestEngine.portfolio e)
  /\ Forall sized (BacktestEngine.event_queue e).

(** A handler that leaves the ledger alone and only adds sized events. *)
Definition only_enqueues {St} (e e' : BacktestEngine.t St) : Prop :=
  BacktestEngine.portfolio e' = BacktestEngine.portfolio e
  /\ BacktestEngine.data e' = BacktestEngine.data e
  /\ BacktestEngine._current_idx e' = BacktestEngine._current_idx e
  /\ exists events,
       BacktestEngine.event_queue e' = (BacktestEngine.event_queue e ++ events)%list
       /\ Forall sized events.

Lemma only_enqueues_refl {St} (e : BacktestEngine.t St) : only_enqueues e e.
Proof.
  repeat split. exists []. split; [symmetry; apply app_nil_r | constructor].
Qed.

Lemma only_enqueues_trans {St} (e1 e2 e3 : BacktestEngine.t St) :
  only_enqueues e1 e2 -> only_enqueues e2 e3 -> only_enqueues e1 e3.
Proof.
  intros (Hp1 & Hd1 & Hi1 & ev1 & Hq1 & Hs1) (Hp2 & Hd2 & Hi2 & ev2 & Hq2 & Hs2).
  repeat split; try congruence.
  exists (ev1 ++ ev2)%list. split.
  - rewrite Hq2, Hq1. symmetry. apply app_assoc.
  - apply Forall_app. split; assumption.
Qed.

Lemma only_enqueues_ok {St} (e e' : BacktestEngine.t St) :
  only_enqueues e e' -> engine_ok e -> engine_ok e'.
Proof.
  intros (Hp & _ & _ & ev & Hq & Hs) [Hl Hf]. split.
  - rewrite Hp. exact Hl.
  - rewrite Hq. apply Forall_app. split; assumption.
Qed.

Lemma enqueue_only_enqueues {St} (event : Event) (e : BacktestEngine.t St) :
  sized event -> only_enqueues e (enqueue event e).
Proof.
  intros H. repeat split. exists [event]. split; [reflexivity|].
  constructor; [exact H | constructor].
Qed.

Lemma place_only_enqueues {St} (c : Strategy.Call) (e : BacktestEngine.t St) :
  only_enqueues e (final (BacktestEngine.place c) e).
Proof.
  unfold final, BacktestEngine.place, BacktestEngine.get_current_bar.
  destruct c; run_monad;
    destruct (nth_error _ _); cbn [snd];
    try apply only_enqueues_refl;
    apply (enqueue_only_enqueues (SIGNAL _) e); exact I.
Qed.

Lemma bind_final {S A B} (m : M S A) (k : A -> M S B) (P : S -> Prop) s :
  P (final m s) ->
  (forall a, result m s = Ok a -> P (final (k a) (final m s))) ->
  P (final (bind m k) s).
Proof.
  unfold final, result, bind. destruct (m s) as [[a| |] s']; cbn; auto.
Qed.

Lemma place_all_only_enqueues {St} (cs : list Strategy.Call) (e : BacktestEngine.t St) :
  only_enqueues e (final (BacktestEngine.place_all cs) e).
Proof.
  revert e. induction cs as [|c cs IH]; intros e.
  - apply only_enqueues_refl.
  - cbn [BacktestEngine.place_all]. apply bind_final.
    + apply place_only_enqueues.
    + intros _ _. eapply only_enqueues_trans; [apply place_only_enqueues | apply IH].
Qed.

Lemma bind_only_enqueues {St A B} (m : M (BacktestEngine.t St) A)
    (k : A -> M (BacktestEngine.t St) B) e :
  only_enqueues e (final m e) ->
  (forall a e', only_enqueues e' (final (k a) e')) ->
  only_enqueues e (final (bind m k) e).
Proof.
  intros Hm Hk. apply bind_final; [exact Hm|].
  intros a _. eapply only_enqueues_trans; [exact Hm | apply Hk].
Qed.

Lemma set_strategy_self_only_enqueues {St} (st : St) (e : BacktestEngine.t St) :
  only_enqueues e (BacktestEngine.set_strategy_self st e).
Proof.
  repeat split. exists []. split; [symmetry; apply app_nil_r | constructor].
Qed.

Lemma hook_only_enqueues {St} h (e : BacktestEngine.t St) :
  only_enqueues e (final (BacktestEngine.hook h) e).
Proof.
  unfold BacktestEngine.hook.
  apply bind_only_enqueues; [apply only_enqueues_refl|].
  intros self e1.
  apply bind_only_enqueues; [apply set_strategy_self_only_enqueues|].
  intros _ e2.
  apply bind_only_enqueues; [apply place_all_only_enqueues|].
  intros _ e3. destruct (Strategy.outcome _); apply only_enqueues_refl.
Qed.

Lemma handle_signal_only_enqueues {St} signal bar (e : BacktestEngine.t St) :
  only_enqueues e (final (BacktestEngine._handle_signal signal bar) e).
Proof.
  unfold final. rewrite handle_signal_unfold. cbv zeta. cbn [snd].
  match goal with |- context [(?q <=? 0)%Z] =>
    destruct (q <=? 0)%Z eqn:E; [apply only_enqueues_refl | apply Z.leb_gt in E]
  end.
  apply enqueue_only_enqueues. exact E.
Qed.

Lemma handle_order_unfold {St} order bar (e : BacktestEngine.t St) :
  BacktestEngine._handle_order order bar e =
  let e1 := BacktestEngine.set_broker (counted (BacktestEngine.broker e)) e in
  match SimulatedBroker.base_fill_price order bar with
  | Raise x => (Raise x, e1)
  | Diverge => (Diverge, e1)
  | Ok None => (Ok tt, e1)
  | Ok (Some fill_price) =>
    match funds_check (BacktestEngine.portfolio e) order fill_price with
    | Some fill => (Ok tt, enqueue (FILL fill) e1)
    | None => (Ok tt, e1)
    end
  end.
Proof.
  unfold BacktestEngine._handle_order, BacktestEngine.on_broker.
  unfold bind at 1, zoom. rewrite execute_order_unfold.
  destruct e as [d s ss sy mk q p b i]. cbn.
  destruct (SimulatedBroker.base_fill_price order bar) as [[fp|]|x|]; try reflexivity.
  destruct (funds_check p order fp); reflexivity.
Qed.

Lemma funds_check_quantity p order fill_price fill :
  funds_check p order fill_price = Some fill ->
  FillEvent.quantity fill = OrderEvent.quantity order.
Proof.
  unfold funds_check. intros H.
  assert (fill = fill_at p order fill_price) as ->.
  { destruct (OrderEvent.direction order =? "BUY").
    - destruct (Py.gtb _ _); congruence.
    - destruct (OrderEvent.direction order =? "SELL"); [|congruence].
      destruct (_ >? _)%Z; congruence. }
  reflexivity.
Qed.

Lemma set_broker_only_enqueues {St} b (e : BacktestEngine.t St) :
  only_enqueues e (BacktestEngine.set_broker b e).
Proof.
  repeat split. exists []. split; [symmetry; apply app_nil_r | constructor].
Qed.

Lemma handle_order_only_enqueues {St} order bar (e : BacktestEngine.t St) :
  (0 < OrderEvent.quantity order)%Z ->
  only_enqueues e (final (BacktestEngine._handle_order order bar) e).
Proof.
  intros Hq. unfold final. rewrite handle_order_unfold. cbv zeta.
  destruct (SimulatedBroker.base_fill_price order bar) as [[fp|]|x|];
    cbn [snd]; try apply set_broker_only_enqueues.
  destruct (funds_check _ order fp) as [fill|] eqn:E;
    cbn [snd]; try apply set_broker_only_enqueues.
  eapply only_enqueues_trans; [apply set_broker_only_enqueues|].
  apply enqueue_only_enqueues. cbn.
  rewrite (funds_check_quantity _ _ _ _ E). exact Hq.
Qed.

(** Applying a fill of positive quantity keeps the ledger invariant. *)
Lemma execute_fill_ledger_ok fill p :
  (0 < FillEvent.quantity fill)%Z ->
  ledger_ok p ->
  ledger_ok (final (Portfolio.execute_fill fill) p).
Proof.
  intros Hq (Hpos & Hzero & Hpaid).
  unfold final. rewrite execute_fill_unfold. cbv zeta.
  destruct (FillEvent.direction fill =? "BUY").
  - destruct (Py.gtb _ _); cbn [snd]; [exact (conj Hpos (conj Hzero Hpaid))|].
    assert (Hnew : (0 < Portfolio.position p + FillEvent.quantity fill)%Z) by lia.
    apply Z.gtb_lt in Hnew as Hb. rewrite Hb.
    unfold ledger_ok. cbn [Portfolio.position Portfolio.position_avg_cost Portfolio.trades].
    split; [lia|]. split; [lia|].
    intros Hall. apply Forall_app in Hall as [Hold Hlast].
    apply Forall_inv in Hlast. unfold positive_price in Hlast. cbn in Hlast.
    destruct (Hpaid Hold) as [Havg _].
    assert (Hnum : 0 < Portfolio.position_avg_cost p * Py.of_int (Portfolio.position p)
                       + FillEvent.fill_price fill * Py.of_int (FillEvent.quantity fill)).
    { assert (Ha : 0 <= Portfolio.position_avg_cost p * Py.of_int (Portfolio.position p)).
      { apply Qmult_le_0_compat; [exact Havg|].
        unfold Py.of_int. change 0 with (inject_Z 0). rewrite <- Zle_Qle. exact Hpos. }
      assert (Hb' : 0 < FillEvent.fill_price fill * Py.of_int (FillEvent.quantity fill)).
      { apply Qmult_lt_0_compat; [exact Hlast|].
        unfold Py.of_int. change 0 with (inject_Z 0). rewrite <- Zlt_Qlt. exact Hq. }
      lra. }
    assert (Hden : 0 < Py.of_int (Portfolio.position p + FillEvent.quantity fill)).
    { unfold Py.of_int. change 0 with (inject_Z 0). rewrite <- Zlt_Qlt. exact Hnew. }
    assert (Hres : 0 < (Portfolio.position_avg_cost p * Py.of_int (Portfolio.position p)
                        + FillEvent.fill_price fill * Py.of_int (FillEvent.quantity fill))
                       / Py.of_int (Portfolio.position p + FillEvent.quantity fill)).
    { apply Qlt_shift_div_l; [exact Hden|]. rewrite Qmult_0_l. exact Hnum. }
    split; [apply Qlt_le_weak, Hres|].
    intros Hz. rewrite Hz in Hres. exfalso. exact (Qlt_irrefl 0 Hres).
  - destruct (FillEvent.direction fill =? "SELL").
    + destruct (_ >? _)%Z eqn:Hgt; cbn [snd]; [exact (conj Hpos (conj Hzero Hpaid))|].
      assert (Hle : (FillEvent.quantity fill <= Portfolio.position p)%Z).
      { destruct (Z.gtb_spec (FillEvent.quantity fill) (Portfolio.position p));
          [discriminate | assumption]. }
      unfold ledger_ok.
      cbn [Portfolio.position Portfolio.position_avg_cost Portfolio.trades].
      split; [lia|].
      destruct (Z.eqb_spec (Portfolio.position p - FillEvent.quantity fill) 0) as [E|E].
      * split; [intros _; reflexivity|].
        intros _. split; [apply Qle_refl | intros _; exact E].
      * split; [intros H; contradiction|].
        intros Hall. apply Forall_app in Hall as [Hold _].
        destruct (Hpaid Hold) as [Havg Hz]. split; [exact Havg|].
        intros H0. specialize (Hz H0). lia.
    + cbn [snd]. unfold ledger_ok. cbn. split; [exact Hpos|]. split; [exact Hzero|].
      intros Hall. apply Forall_app in Hall as [Hold _]. exact (Hpaid Hold).
Qed.

Lemma handle_fill_ok {St} fill (e : BacktestEngine.t St) :
  (0 < FillEvent.quantity fill)%Z ->
  engine_ok e ->
  engine_ok (final (BacktestEngine._handle_fill fill) e).
Proof.
  intros Hq [Hl Hf]. unfold BacktestEngine._handle_fill.
  set (e1 := final (BacktestEngine.on_portfolio (Portfolio.execute_fill fill)) e).
  assert (H1 : engine_ok e1).
  { unfold e1, final, BacktestEngine.on_portfolio, zoom.
    destruct (Portfolio.execute_fill fill (BacktestEngine.portfolio e)) as [r p'] eqn:E.
    cbn [snd]. split; cbn.
    - change p' with (snd (r, p')). rewrite <- E.
      apply (execute_fill_ledger_ok fill _ Hq Hl).
    - exact Hf. }
  apply bind_final; [exact H1|].
  intros _ _. fold e1.
  apply bind_final; [exact H1|].
  intros self _. change (final get e1) with e1.
  eapply only_enqueues_ok; [apply hook_only_enqueues | exact H1].
Qed.

Lemma handle_market_only_enqueues {St} event bar (e : BacktestEngine.t St) :
  only_enqueues e (final (BacktestEngine._handle_market event bar) e).
Proof.
  unfold BacktestEngine._handle_market.
  apply bind_only_enqueues; [apply only_enqueues_refl|].
  intros self e'. apply hook_only_enqueues.
Qed.

Lemma process_event_ok {St} event bar (e : BacktestEngine.t St) :
  sized event ->
  engine_ok e ->
  engine_ok (final (BacktestEngine._process_event event bar) e).
Proof.
  intros Hs He. destruct event as [m|s|o|f]; cbn [BacktestEngine._process_event].
  - eapply only_enqueues_ok; [apply handle_market_only_enqueues | exact He].
  - eapply only_enqueues_ok; [apply handle_signal_only_enqueues | exact He].
  - eapply only_enqueues_ok; [apply handle_order_only_enqueues; exact Hs | exact He].
  - apply handle_fill_ok; [exact Hs | exact He].
Qed.

Lemma init_engine_ok {St} data strategy (st : St) capital commission slippage
    market symbol :
  engine_ok (BacktestEngine.__init__ data strategy st capital commission slippage
                                     market symbol).
Proof.
  split; cbn; [|constructor].
  unfold ledger_ok. cbn. split; [lia|]. split; [reflexivity|].
  intros _. split; [apply Qle_refl | reflexivity].
Qed.

(** Every state of a run satisfies the engine invariant. *)
Lemma reachable_engine_ok {St} (e0 e : BacktestEngine.t St) :
  engine_ok e0 -> Reachable e0 e -> engine_ok e.
Proof.
  intros H0 Hr. induction Hr as [|e _ IH|e idx bar _ IH Hb|e event rest bar _ IH Hq Hb
                                 |e bar _ IH Hb].
  - exact H0.
  - eapply only_enqueues_ok; [apply hook_only_enqueues | exact IH].
  - destruct IH as [Hl Hf]. split; cbn; [exact Hl|].
    apply Forall_app. split; [exact Hf|]. constructor; [exact I | constructor].
  - destruct IH as [Hl Hf]. rewrite Hq in Hf.
    apply process_event_ok.
    + exact (Forall_inv Hf).
    + split; cbn; [exact Hl | exact (Forall_inv_tail Hf)].
  - destruct IH as [Hl Hf]. split; [|exact Hf].
    destruct Hl as (Hpos & Hzero & Hpaid). repeat split; cbn; auto; apply Hpaid; assumption.
Qed.

(** The bar table and the bar index are fixed while events are handled. *)
Definition same_bar {St} (e e' : BacktestEngine.t St) : Prop :=
  BacktestEngine.data e' = BacktestEngine.data e
  /\ BacktestEngine._current_idx e' = BacktestEngine._current_idx e.

Lemma only_enqueues_same_bar {St} (e e' : BacktestEngine.t St) :
  only_enqueues e e' -> same_bar e e'.
Proof. intros (_ & Hd & Hi & _). split; assumption. Qed.

Lemma process_event_same_bar {St} event bar (e : BacktestEngine.t St) :
  same_bar e (final (BacktestEngine._process_event event bar) e).
Proof.
  destruct event as [m|s|o|f]; cbn [BacktestEngine._process_event].
  - apply only_enqueues_same_bar, handle_market_only_enqueues.
  - apply only_enqueues_same_bar, handle_signal_only_enqueues.
  - unfold final. rewrite handle_order_unfold. cbv zeta.
    destruct (SimulatedBroker.base_fill_price o bar) as [[fp|]|x|];
      cbn [snd]; try (split; reflexivity).
    destruct (funds_check _ o fp); split; reflexivity.
  - unfold BacktestEngine._handle_fill.
    set (e1 := final (BacktestEngine.on_portfolio (Portfolio.execute_fill f)) e).
    assert (H1 : same_bar e e1).
    { unfold e1, final, BacktestEngine.on_portfolio, zoom.
      destruct (Portfolio.execute_fill f _). split; reflexivity. }
    apply bind_final; [exact H1|]. intros _ _. fold e1.
    apply bind_final; [exact H1|]. intros self _. change (final get e1) with e1.
    destruct (only_enqueues_same_bar _ _ (hook_only_enqueues
      (fun ctx => Strategy.on_order_filled (BacktestEngine.strategy self) ctx f) e1))
      as [Hd Hi].
    destruct H1 as [Hd1 Hi1]. split; congruence.
Qed.

Lemma drain_unfold {St} fuel bar (e : BacktestEngine.t St) :
  BacktestEngine.drain fuel bar e =
  match BacktestEngine.event_queue e with
  | [] => (Ok tt, e)
  | event :: rest =>
    match fuel with
    | O => (Diverge, e)
    | S fuel =>
      match BacktestEngine._process_event event bar
              (BacktestEngine.set_event_queue rest e) with
      | (Ok _, e1) => BacktestEngine.drain fuel bar e1
      | (Raise x, e1) => (Raise x, e1)
      | (Diverge, e1) => (Diverge, e1)
      end
    end
  end.
Proof.
  destruct fuel; cbn [BacktestEngine.drain]; unfold bind at 1, get;
    destruct (BacktestEngine.event_queue e); reflexivity.
Qed.

Lemma drain_reachable {St} (e0 : BacktestEngine.t St) fuel bar e :
  Reachable e0 e ->
  nth_error (BacktestEngine.data e) (BacktestEngine._current_idx e) = Some bar ->
  let e' := final (BacktestEngine.drain fuel bar) e in
  Reachable e0 e' /\ same_bar e e'.
Proof.
  revert e. induction fuel as [|fuel IH]; intros e Hr Hb; cbv zeta;
    unfold final; rewrite drain_unfold;
    destruct (BacktestEngine.event_queue e) as [|event rest] eqn:Hq;
    try (cbn [snd]; split; [exact Hr | split; reflexivity]).
  pose proof (reach_event e0 e event rest bar Hr Hq Hb) as Hstep.
  pose proof (process_event_same_bar event bar
                (BacktestEngine.set_event_queue rest e)) as [Hd Hi].
  unfold final in Hstep, Hd, Hi.
  change (BacktestEngine.data (BacktestEngine.set_event_queue rest e))
    with (BacktestEngine.data e) in Hd.
  change (BacktestEngine._current_idx (BacktestEngine.set_event_queue rest e))
    with (BacktestEngine._current_idx e) in Hi.
  destruct (BacktestEngine._process_event event bar
              (BacktestEngine.set_event_queue rest e)) as [[[]| |] e1];
    cbn [snd] in *; try (split; [exact Hstep | split; assumption]).
  assert (Hb1 : nth_error (BacktestEngine.data e1) (BacktestEngine._current_idx e1)
                = Some bar).
  { rewrite Hd, Hi. exact Hb. }
  destruct (IH e1 Hstep Hb1) as [Hr' [Hd' Hi']]. unfold final in Hr', Hd', Hi'.
  split; [exact Hr'|]. split; congruence.
Qed.

Lemma run_bar_reachable {St} (e0 : BacktestEngine.t St) fuel idx e :
  Reachable e0 e ->
  (idx < length (BacktestEngine.data e))%nat ->
  let e' := final (BacktestEngine.run_bar fuel idx) e in
  Reachable e0 e' /\ BacktestEngine.data e' = BacktestEngine.data e.
Proof.
  intros Hr Hlt. cbv zeta.
  destruct (nth_error (BacktestEngine.data e) idx) as [bar|] eqn:Hb;
    [|apply nth_error_None in Hb; lia].
  pose proof (reach_open e0 e idx bar Hr Hb) as Hopen.
  set (e1 := enqueue _ _) in Hopen.
  assert (Hb1 : nth_error (BacktestEngine.data e1) (BacktestEngine._current_idx e1)
                = Some bar) by exact Hb.
  destruct (drain_reachable e0 fuel bar e1 Hopen Hb1) as [Hdr [Hd Hi]].
  assert (Hrun : BacktestEngine.run_bar fuel idx e =
                 match BacktestEngine.drain fuel bar e1 with
                 | (Ok _, e2) =>
                   BacktestEngine.on_portfolio
                     (Portfolio.update_market_value (Bar.name bar) (Bar.close bar)) e2
                 | (Raise x, e2) => (Raise x, e2)
                 | (Diverge, e2) => (Diverge, e2)
                 end).
  { unfold BacktestEngine.run_bar, BacktestEngine.get_current_bar.
    unfold bind at 1, modify. unfold bind at 1. unfold bind at 1, get.
    cbn [BacktestEngine.data BacktestEngine.set__current_idx BacktestEngine._current_idx].
    rewrite Hb. unfold ret at 1. unfold bind at 1, modify. unfold bind.
    reflexivity. }
  unfold final in *. rewrite Hrun.
  destruct (BacktestEngine.drain fuel bar e1) as [[[]| |] e2]; cbn [snd] in *;
    try (split; [exact Hdr | exact Hd]).
  assert (Hb2 : nth_error (BacktestEngine.data e2) (BacktestEngine._current_idx e2)
                = Some bar).
  { rewrite Hd, Hi. exact Hb1. }
  split.
  - exact (reach_snapshot e0 e2 bar Hdr Hb2).
  - unfold BacktestEngine.on_portfolio, zoom. cbn. exact Hd.
Qed.

Lemma for_each_reachable {St} (e0 : BacktestEngine.t St) fuel idxs e :
  Reachable e0 e ->
  Forall (fun idx => idx < length (BacktestEngine.data e))%nat idxs ->
  Reachable e0 (final (BacktestEngine.for_each idxs (BacktestEngine.run_bar fuel)) e).
Proof.
  revert e. induction idxs as [|idx idxs IH]; intros e Hr Hall.
  - exact Hr.
  - cbn [BacktestEngine.for_each].
    destruct (run_bar_reachable e0 fuel idx e Hr (Forall_inv Hall)) as [H1 Hd].
    apply bind_final; [exact H1|].
    intros _ _. apply IH; [exact H1|]. rewrite Hd. exact (Forall_inv_tail Hall).
Qed.

(** The state in which [run] ends, whether it returns or not, is a state
    of the run. *)
Lemma run_reachable {St} (e0 : BacktestEngine.t St) fuel :
  Reachable e0 (final (BacktestEngine.run fuel) e0).
Proof.
  unfold BacktestEngine.run.
  apply bind_final; [apply reach_start|]. intros self Hself.
  change (final get e0) with e0.
  assert (self = e0) as -> by (unfold result, get in Hself; cbn in Hself; congruence).
  pose proof (reach_init e0 e0 (reach_start e0)) as Hinit.
  set (e1 := final _ e0) in Hinit.
  apply bind_final; [exact Hinit|]. intros _ _. fold e1.
  apply bind_final; [exact Hinit|]. intros self1 Hself1.
  change (final get e1) with e1.
  assert (self1 = e1) as -> by (unfold result, get in Hself1; cbn in Hself1; congruence).
  cbv zeta.
  assert (Hloop : Reachable e0
            (final (BacktestEngine.for_each (seq 0 (length (BacktestEngine.data e1)))
                      (BacktestEngine.run_bar fuel)) e1)).
  { apply for_each_reachable; [exact Hinit|].
    apply Forall_forall. intros idx Hin. apply in_seq in Hin. lia. }
  apply bind_final; [exact Hloop|]. intros _ _.
  apply bind_final; [exact Hloop|]. intros self2 _. exact Hloop.
Qed.

(** ** Position and average cost along a run *)

(** C8, as the code has it.  In every state of every run, so at every
    snapshot: the position is not negative, and a position of 0 goes with an
    average cost of 0.  The converse, and with it the equivalence, holds as
    long as every trade recorded so far was at a positive price.  Of an
    accepted fill of positive quantity applied in such a state: a SELL that
    brings the position to 0 sets the average cost to 0, and a BUY at a
    positive price after trades at positive prices leaves both the position
    and the average cost positive. *)
Theorem position_average_cost_invariant {St} (data : list Bar.t)
    (strategy : Strategy.t St) (st : St) (capital commission slippage : Q)
    (market symbol : string) (e : BacktestEngine.t St) :
  Reachable (BacktestEngine.__init__ data strategy st capital commission slippage
                                     market symbol) e ->
  let p := BacktestEngine.portfolio e in
  (0 <= Portfolio.position p)%Z
  /\ (Portfolio.position p = 0%Z -> Portfolio.position_avg_cost p == 0)
  /\ (Forall positive_price (Portfolio.trades p) ->
      (Portfolio.position p = 0%Z <-> Portfolio.position_avg_cost p == 0))
  /\ (forall fill,
        (0 < FillEvent.quantity fill)%Z ->
        result (Portfolio.execute_fill fill) p = Ok true ->
        let p' := final (Portfolio.execute_fill fill) p in
        (FillEvent.direction fill = "SELL" ->
         Portfolio.position p' = 0%Z -> Portfolio.position_avg_cost p' == 0)
        /\ (FillEvent.direction fill = "BUY" ->
            0 < FillEvent.fill_price fill ->
            Forall positive_price (Portfolio.trades p) ->
            (0 < Portfolio.position p')%Z /\ 0 < Portfolio.position_avg_cost p')).
Proof.
  intros Hr p.
  destruct (reachable_engine_ok _ e (init_engine_ok _ _ _ _ _ _ _ _) Hr) as [Hl _].
  fold p in Hl. pose proof Hl as (Hpos & Hzero & Hpaid).
  split; [exact Hpos|]. split; [exact Hzero|]. split.
  - intros Hall. split; [exact Hzero | apply (Hpaid Hall)].
  - intros fill Hq Hacc p'.
    pose proof (execute_fill_ledger_ok fill p Hq Hl) as (Hpos' & Hzero' & Hpaid').
    fold p' in Hpos', Hzero', Hpaid'.
    split; [intros _; exact Hzero'|].
    intros Hd Hprice Hall.
    assert (Htrades : Portfolio.trades p' = (Portfolio.trades p ++ [trade_of fill])%list).
    { unfold p', final. unfold result in Hacc. rewrite execute_fill_unfold in *.
      cbv zeta in *. rewrite Hd in *. cbn [String.eqb Ascii.eqb Bool.eqb] in *.
      destruct (Py.gtb _ _); [discriminate|]. reflexivity. }
    assert (Hposn : Portfolio.position p'
                    = (Portfolio.position p + FillEvent.quantity fill)%Z).
    { unfold p', final. unfold result in Hacc. rewrite execute_fill_unfold in *.
      cbv zeta in *. rewrite Hd in *. cbn [String.eqb Ascii.eqb Bool.eqb] in *.
      destruct (Py.gtb _ _); [discriminate|]. reflexivity. }
    assert (Hall' : Forall positive_price (Portfolio.trades p')).
    { rewrite Htrades. apply Forall_app. split; [exact Hall|].
      constructor; [exact Hprice | constructor]. }
    destruct (Hpaid' Hall') as [Havg Hne].
    split; [lia|].
    apply Qle_lteq in Havg. destruct Havg as [Hlt | Heq]; [exact Hlt|].
    symmetry in Heq. specialize (Hne Heq). lia.
Qed.

(** One bar with a close of 0.00001, in the proportional market; the
    strategy buys 100 shares. *)
Definition tiny_bars : list Bar.t :=
  [Bar.mk 1 (1 # 100000) (1 # 100000) (1 # 100000) (1 # 100000) 1000].

Definition tiny_engine : BacktestEngine.t unit :=
  BacktestEngine.__init__ tiny_bars
    (scripted (fun _ => [Strategy.buy 100 None "MARKET"])) tt
    100000 (3 # 10000) (1 # 1000) "US" "PENNY".

(** C8, as stated, fails: the fill price round(0.00001 * 1.001, 4) is 0, the
    buy is accepted, and at the snapshot of the bar the position is 100 while
    the average cost is 0. *)
Lemma average_cost_zero_with_position :
  let e := final (BacktestEngine.run 10) tiny_engine in
  let p := BacktestEngine.portfolio e in
  Reachable tiny_engine e
  /\ map EquityRow.position (Portfolio.equity_curve p) = [100%Z]
  /\ Portfolio.position p = 100%Z
  /\ Portfolio.position_avg_cost p == 0
  /\ ~ (Portfolio.position p = 0%Z <-> Portfolio.position_avg_cost p == 0).
Proof.
  cbv zeta. split; [apply run_reachable|].
  split; [vm_compute; reflexivity|].
  split; [vm_compute; reflexivity|].
  assert (Ha : Portfolio.position_avg_cost
                 (BacktestEngine.portfolio (final (BacktestEngine.run 10) tiny_engine))
               == 0) by (vm_compute; reflexivity).
  split; [exact Ha|].
  intros [_ H]. specialize (H Ha). vm_compute in H. discriminate H.
Qed.

(** ** A sale that overdraws the cash *)

(** Two bars at 0.04 and 0.03 in market "A"; the strategy buys 100 shares on
    the first bar and sells them on the second, with 10 in capital. *)
Definition penny_bars : list Bar.t :=
  [Bar.mk 1 (4 # 100) (4 # 100) (4 # 100) (4 # 100) 1000;
   Bar.mk 2 (3 # 100) (3 # 100) (3 # 100) (3 # 100) 1000].

Definition penny_script (idx : nat) : list Strategy.Call :=
  match idx with
  | O => [Strategy.buy 100 None "MARKET"]
  | _ => [Strategy.sell 0 None "MARKET"]
  end.

Definition penny_engine : BacktestEngine.t unit :=
  BacktestEngine.__init__ penny_bars (scripted penny_script) tt
    10 (3 # 10000) (1 # 1000) "A" "000001".

(** C1 at the failing input.  The run returns with two trades.  After the
    buy the cash is 1 and the position 100; the broker fills the sale of the
    100 shares at 0.03 with a commission of 5, [execute_fill] accepts it, and
    the cash ends at -1. *)
Theorem sell_commission_overdraws_cash :
  let e := final (BacktestEngine.run 10) penny_engine in
  let p := BacktestEngine.portfolio e in
  (exists r, result (BacktestEngine.run 10) penny_engine = Ok r)
  /\ map Trade.direction (Portfolio.trades p) = ["BUY"; "SELL"]
  /\ map (fun row => Qred (EquityRow.cash row)) (Portfolio.equity_curve p) = [1; -1 # 1]
  /\ Portfolio.position p = 0%Z
  /\ Portfolio.cash p < 0
  /\ (let p1 := BacktestEngine.portfolio
                  (final (BacktestEngine.run_bar 10 0) penny_engine) in
      exists fill,
        result (SimulatedBroker.execute_order
                  (OrderEvent.mk 2 "000001" "SELL" "MARKET" 100 None)
                  (Bar.mk 2 (3 # 100) (3 # 100) (3 # 100) (3 # 100) 1000))
               (SimulatedBroker.__init__, p1) = Ok (Some fill)
        /\ 0 <= Portfolio.cash p1
        /\ result (Portfolio.execute_fill fill) p1 = Ok true
        /\ Portfolio.cash (final (Portfolio.execute_fill fill) p1) < 0).
Proof.
  cbv zeta. split; [eexists; vm_compute; reflexivity|].
  split; [vm_compute; reflexivity|].
  split; [vm_compute; reflexivity|].
  split; [vm_compute; reflexivity|].
  split; [vm_compute; reflexivity|].
  eexists. split; [vm_compute; reflexivity|].
  split; [vm_compute; discriminate|].
  split; vm_compute; reflexivity.
Qed.

(** What does hold of the cash: an accepted BUY never leaves it negative,
    and an accepted SELL changes it by the proceeds less the commission. *)
Lemma accepted_fill_cash fill p :
  result (Portfolio.execute_fill fill) p = Ok true ->
  let p' := final (Portfolio.execute_fill fill) p in
  (FillEvent.direction fill = "BUY" -> 0 <= Portfolio.cash p')
  /\ (FillEvent.direction fill = "SELL" ->
      Portfolio.cash p' =
      Portfolio.cash p + (FillEvent.fill_price fill * Py.of_int (FillEvent.quantity fill)
                          - FillEvent.commission fill)).
Proof.
  unfold result, final. rewrite execute_fill_unfold. cbv zeta.
  intros Hacc. split; intros Hd; rewrite Hd in *;
    cbn [String.eqb Ascii.eqb Bool.eqb] in *.
  - destruct (Py.gtb _ _) eqn:E; [discriminate|].
    apply Py_gtb_le in E. cbn. lra.
  - destruct (_ >? _)%Z; [discriminate|]. reflexivity.
Qed.

(** After the two trades of the penny run, both at positive prices, the
    position and the average cost are both 0. *)
Lemma position_average_cost_invariant_witness :
  let p := BacktestEngine.portfolio (final (BacktestEngine.run 10) penny_engine) in
  Portfolio.position p = 0%Z <-> Portfolio.position_avg_cost p == 0.
Proof.
  cbv zeta.
  refine (proj1 (proj2 (proj2 (position_average_cost_invariant
            penny_bars (scripted penny_script) tt 10 (3 # 10000) (1 # 1000)
            "A" "000001" (final (BacktestEngine.run 10) penny_engine)
            (run_reachable penny_engine 10)))) _).
  vm_compute. repeat constructor.
Defined.

(** ** Validation of the bar table *)

(** Timestamps strictly ascending, row after row. *)
Fixpoint strictly_ascending (labels : list Z) : bool :=
  match labels with
  | a :: (b :: _) as rest => (a <? b)%Z && strictly_ascending rest
  | _ => true
  end.

(** A row with a missing value under a required column. *)
Definition has_missing_value (df : DataFrame.t) : bool :=
  existsb (fun r =>
    existsb (fun col =>
      match DataFrame.cell_at (DataFrame.columns df) (DataFrame.cells r) col with
      | Some _ => false
      | None => true
      end) DataLoader.REQUIRED_COLUMNS) (DataFrame.rows df).

Definition lacks_column (df : DataFrame.t) : bool :=
  negb (forallb (fun col => DataFrame.has_column col df) DataLoader.REQUIRED_COLUMNS).

(** The malformed inputs of the error taxonomy: timestamps out of order or
    repeated, a required column absent, a value missing under a required
    column, an index that is not a time index, a capital that is not
    positive. *)
Definition malformed (df : DataFrame.t) (capital : Q) : Prop :=
  strictly_ascending (map DataFrame.label (DataFrame.rows df)) = false
  \/ lacks_column df = true
  \/ has_missing_value df = true
  \/ DataFrame.index_is_DatetimeIndex df = false
  \/ capital <= 0.

Lemma check_columns_ok cols df :
  DataLoader.check_columns cols df =
  match find (fun col => negb (DataFrame.has_column col df)) cols with
  | Some col => Raise (ValueError ("missing required column: " ++ col))
  | None => Ok tt
  end.
Proof.
  induction cols as [|col cols IH]; [reflexivity|].
  cbn [DataLoader.check_columns find].
  destruct (negb (DataFrame.has_column col df)); [reflexivity | exact IH].
Qed.

Lemma find_none_forallb {A} (f : A -> bool) l :
  find (fun x => negb (f x)) l = None <-> forallb f l = true.
Proof.
  induction l as [|x l IH]; cbn; [tauto|].
  destruct (f x); cbn; [exact IH|]. split; discriminate.
Qed.

(** The bars the engine reads off a table: [iloc] row by row, with the five
    required columns of each row. *)
Definition bar_of_row (columns : list string) (r : DataFrame.Row) : option Bar.t :=
  match DataFrame.cell_at columns (DataFrame.cells r) "open",
        DataFrame.cell_at columns (DataFrame.cells r) "high",
        DataFrame.cell_at columns (DataFrame.cells r) "low",
        DataFrame.cell_at columns (DataFrame.cells r) "close",
        DataFrame.cell_at columns (DataFrame.cells r) "volume" with
  | Some o, Some h, Some l, Some c, Some v =>
    Some (Bar.mk (DataFrame.label r) o h l c v)
  | _, _, _, _, _ => None
  end.

Fixpoint bars_of_rows (columns : list string) (rows : list DataFrame.Row)
  : list Bar.t :=
  match rows with
  | [] => []
  | r :: rows =>
    match bar_of_row columns r with
    | Some bar => bar :: bars_of_rows columns rows
    | None => bars_of_rows columns rows
    end
  end.

Definition bars_of (df : DataFrame.t) : list Bar.t :=
  bars_of_rows (DataFrame.columns df) (DataFrame.rows df).

(** Labels in ascending order, repetitions allowed. *)
Fixpoint ascending (labels : list Z) : bool :=
  match labels with
  | a :: (b :: _) as rest => (a <=? b)%Z && ascending rest
  | _ => true
  end.

Lemma insert_row_ascending r sorted :
  ascending (map DataFrame.label sorted) = true ->
  ascending (map DataFrame.label (DataFrame.insert_row r sorted)) = true.
Proof.
  induction sorted as [|a rest IH]; intros Hs; [reflexivity|].
  cbn [DataFrame.insert_row].
  destruct (DataFrame.label a <=? DataFrame.label r)%Z eqn:E.
  - cbn [map]. destruct rest as [|b rest].
    + cbn. rewrite E. reflexivity.
    + cbn [map ascending] in Hs. apply andb_true_iff in Hs as [Hab Hrest].
      specialize (IH Hrest). cbn [DataFrame.insert_row] in *.
      destruct (DataFrame.label b <=? DataFrame.label r)%Z eqn:E2.
      * cbn [map ascending] in *. rewrite Hab. exact IH.
      * cbn [map ascending] in *. rewrite E. cbn [andb]. exact IH.
  - cbn [map ascending] in *.
    apply Z.leb_gt in E.
    assert (Hle : (DataFrame.label r <=? DataFrame.label a)%Z = true)
      by (apply Z.leb_le; lia).
    rewrite Hle. exact Hs.
Qed.

Lemma sort_index_ascending df :
  ascending (map DataFrame.label (DataFrame.rows (DataFrame.sort_index df))) = true.
Proof.
  unfold DataFrame.sort_index. cbn [DataFrame.rows].
  assert (H : forall rows acc,
             ascending (map DataFrame.label acc) = true ->
             ascending (map DataFrame.label
               (fold_left (fun acc r => DataFrame.insert_row r acc) rows acc)) = true).
  { induction rows as [|r rows IH]; intros acc Ha; [exact Ha|].
    cbn [fold_left]. apply IH. apply insert_row_ascending. exact Ha. }
  apply H. reflexivity.
Qed.

Lemma ascending_filter (f : DataFrame.Row -> bool) rows :
  ascending (map DataFrame.label rows) = true ->
  ascending (map DataFrame.label (filter f rows)) = true.
Proof.
  assert (Hall : forall rows a,
            ascending (map DataFrame.label (a :: rows)) = true ->
            Forall (fun r => (DataFrame.label a <= DataFrame.label r)%Z) rows
            /\ ascending (map DataFrame.label rows) = true).
  { induction rows0 as [|b rest IH]; intros a Ha; [split; [constructor | reflexivity]|].
    cbn [map ascending] in Ha. apply andb_true_iff in Ha as [Hab Hrest].
    apply Z.leb_le in Hab. split; [|exact Hrest].
    constructor; [exact Hab|].
    destruct (IH b Hrest) as [Hb _].
    eapply Forall_impl; [|exact Hb]. cbn. intros; lia. }
  induction rows as [|a rest IH]; intros Ha; [reflexivity|].
  destruct (Hall rest a Ha) as [Hle Hrest]. specialize (IH Hrest).
  cbn [filter]. destruct (f a); [|exact IH].
  assert (Hle' : Forall (fun r => (DataFrame.label a <= DataFrame.label r)%Z)
                        (filter f rest)).
  { apply Forall_forall. intros r Hin. apply filter_In in Hin as [Hin _].
    revert r Hin. apply Forall_forall. exact Hle. }
  destruct (filter f rest) as [|b rest']; [reflexivity|].
  cbn [map ascending] in *. apply Forall_inv in Hle'.
  apply Z.leb_le in Hle'. rewrite Hle'. exact IH.
Qed.

Lemma dropna_no_missing_value df :
  has_missing_value (DataFrame.dropna DataLoader.REQUIRED_COLUMNS df) = false.
Proof.
  unfold has_missing_value, DataFrame.dropna.
  cbn [DataFrame.rows DataFrame.columns].
  induction (DataFrame.rows df) as [|r rows IH]; [reflexivity|].
  cbn [filter].
  destruct (forallb _ DataLoader.REQUIRED_COLUMNS) eqn:E; [|exact IH].
  cbn [existsb]. rewrite IH. rewrite orb_false_r.
  clear IH. revert E.
  induction DataLoader.REQUIRED_COLUMNS as [|col cols IHc]; [reflexivity|].
  cbn [forallb existsb]. intros E. apply andb_true_iff in E as [E1 E2].
  destruct (DataFrame.cell_at _ _ col); [|discriminate].
  cbn [orb]. exact (IHc E2).
Qed.

(** Construction as the examples do it: the loader validates the table, the
    engine is then built on the result. *)
Definition construct {St} (df : DataFrame.t) (strategy : Strategy.t St) (st : St)
    (capital commission slippage : Q) (market symbol : string)
  : Outcome (BacktestEngine.t St) :=
  match DataLoader.validate df with
  | Ok df => Ok (BacktestEngine.__init__ (bars_of df) strategy st capital commission
                                         slippage market symbol)
  | Raise x => Raise x
  | Diverge => Diverge
  end.

(** C5, as the code has it.  Construction raises a validation error exactly
    when a required column is absent or the index is not a time index, and it
    does so before any bar is processed.  Every other table is accepted:
    [validate] sorts it by timestamp (repeated timestamps stay) and drops the
    rows with a missing value under a required column, and the engine is built
    on the result with the capital it is given, whatever its sign. *)
Theorem construction_raises_only_on_columns_and_index {St} (df : DataFrame.t)
    (strategy : Strategy.t St) (st : St) (capital commission slippage : Q)
    (market symbol : string) :
  ((exists x, construct df strategy st capital commission slippage market symbol
              = Raise x)
   <-> (lacks_column df = true \/ DataFrame.index_is_DatetimeIndex df = false))
  /\ (forall x, construct df strategy st capital commission slippage market symbol
                = Raise x -> exists msg, x = ValueError msg)
  /\ (lacks_column df = false ->
      DataFrame.index_is_DatetimeIndex df = true ->
      let df' := DataFrame.dropna DataLoader.REQUIRED_COLUMNS (DataFrame.sort_index df) in
      let e := BacktestEngine.__init__ (bars_of df') strategy st capital commission
                                       slippage market symbol in
      DataLoader.validate df = Ok df'
      /\ construct df strategy st capital commission slippage market symbol = Ok e
      /\ ascending (map DataFrame.label (DataFrame.rows df')) = true
      /\ has_missing_value df' = false
      /\ Portfolio.cash (BacktestEngine.portfolio e) = capital
      /\ BacktestEngine.event_queue e = []
      /\ Portfolio.trades (BacktestEngine.portfolio e) = []
      /\ Portfolio.equity_curve (BacktestEngine.portfolio e) = []).
Proof.
  assert (Hv : DataLoader.validate df =
               match find (fun col => negb (DataFrame.has_column col df))
                          DataLoader.REQUIRED_COLUMNS with
               | Some col => Raise (ValueError ("missing required column: " ++ col))
               | None =>
                 if DataFrame.index_is_DatetimeIndex df
                 then Ok (DataFrame.dropna DataLoader.REQUIRED_COLUMNS
                            (DataFrame.sort_index df))
                 else Raise (ValueError "index must be a DatetimeIndex")
               end).
  { unfold DataLoader.validate. rewrite check_columns_ok.
    destruct (find _ _); [reflexivity|].
    destruct (DataFrame.index_is_DatetimeIndex df); reflexivity. }
  assert (Hl : lacks_column df = false <->
               find (fun col => negb (DataFrame.has_column col df))
                    DataLoader.REQUIRED_COLUMNS = None).
  { unfold lacks_column. rewrite negb_false_iff. symmetry. apply find_none_forallb. }
  unfold construct. rewrite Hv.
  destruct (find _ DataLoader.REQUIRED_COLUMNS) as [col|] eqn:Hf.
  - assert (Hlack : lacks_column df = true).
    { destruct (lacks_column df); [reflexivity|].
      destruct Hl as [Hl _]. specialize (Hl eq_refl). discriminate. }
    split; [split; [intros _; left; exact Hlack | intros _; eexists; reflexivity]|].
    split; [intros x Hx; injection Hx as <-; eexists; reflexivity|].
    intros Hno. congruence.
  - assert (Hlack : lacks_column df = false) by (apply Hl; reflexivity).
    destruct (DataFrame.index_is_DatetimeIndex df) eqn:Hi.
    + split; [split; [intros [x Hx]; discriminate | intros [H|H]; congruence]|].
      split; [intros x Hx; discriminate|].
      intros _ _. cbv zeta.
      split; [reflexivity|]. split; [reflexivity|].
      split; [apply ascending_filter, sort_index_ascending|].
      split; [apply dropna_no_missing_value|].
      repeat split.
    + split; [split; [intros _; right; reflexivity | intros _; eexists; reflexivity]|].
      split; [intros x Hx; injection Hx as <-; eexists; reflexivity|].
      intros _ Hno. discriminate.
Qed.

Definition full_row (label : Z) (close : Q) : DataFrame.Row :=
  DataFrame.mkRow label [Some close; Some close; Some close; Some close; Some 1000].

Definition frame (rows : list DataFrame.Row) : DataFrame.t :=
  DataFrame.mk DataLoader.REQUIRED_COLUMNS true rows.

(** Timestamps out of order, a repeated timestamp, a missing close. *)
Definition shuffled_frame : DataFrame.t := frame [full_row 2 11; full_row 1 10].
Definition repeated_frame : DataFrame.t := frame [full_row 1 10; full_row 1 11].
Definition gapped_frame : DataFrame.t :=
  frame [full_row 1 10;
         DataFrame.mkRow 2 [Some 10; Some 10; Some 10; None; Some 1000];
         full_row 3 12].
Definition clean_frame : DataFrame.t := frame [full_row 1 10; full_row 2 11].

Definition built (df : DataFrame.t) (capital : Q) : Outcome (BacktestEngine.t unit) :=
  construct df (scripted (fun _ => [])) tt capital (3 # 10000) (1 # 1000) "A" "600519".

(** C5, as stated, fails.  A table with timestamps out of order is sorted
    and accepted; one with a repeated timestamp is accepted with both rows; one
    with a missing close loses that row and is accepted; and a capital of -5
    is accepted as the cash of the new portfolio.  None of the four
    constructions raises. *)
Lemma malformed_input_is_accepted :
  (malformed shuffled_frame 100000
   /\ exists e, built shuffled_frame 100000 = Ok e
                /\ map Bar.name (BacktestEngine.data e) = [1; 2]%Z)
  /\ (malformed repeated_frame 100000
      /\ exists e, built repeated_frame 100000 = Ok e
                   /\ map Bar.name (BacktestEngine.data e) = [1; 1]%Z)
  /\ (malformed gapped_frame 100000
      /\ exists e, built gapped_frame 100000 = Ok e
                   /\ map Bar.name (BacktestEngine.data e) = [1; 3]%Z)
  /\ (malformed clean_frame (-5)
      /\ exists e, built clean_frame (-5) = Ok e
                   /\ Portfolio.cash (BacktestEngine.portfolio e) = -5).
Proof.
  split; [|split; [|split]].
  - split; [left; reflexivity|]. eexists. split; reflexivity.
  - split; [left; reflexivity|]. eexists. split; reflexivity.
  - split; [right; right; left; reflexivity|]. eexists. split; reflexivity.
  - split; [right; right; right; right; vm_compute; discriminate|].
    eexists. split; reflexivity.
Qed.

(** The clean table with a capital of 100000 is validated as it is. *)
Lemma construction_raises_only_on_columns_and_index_witness :
  DataLoader.validate clean_frame = Ok clean_frame
  /\ exists e, built clean_frame 100000 = Ok e
               /\ Portfolio.cash (BacktestEngine.portfolio e) = 100000.
Proof.
  destruct (proj2 (proj2 (construction_raises_only_on_columns_and_index
              clean_frame (scripted (fun _ => [])) tt 100000 (3 # 10000) (1 # 1000)
              "A" "600519")) eq_refl eq_refl) as (Hv & Hc & _ & _ & Hcash & _).
  split; [exact Hv|]. eexists. split; [exact Hc | exact Hcash].
Defined.

(** * Further properties of the ledger, the broker and the loop *)

(** ** The broker and the ledger agree *)

(** A fill the broker emits against a portfolio is accepted when it is
    applied to that same portfolio: step 4 of [execute_order] and the
    re-validation in [execute_fill] are the same two tests. *)
Theorem emitted_fill_is_accepted (order : OrderEvent.t) (bar : Bar.t)
    (b : SimulatedBroker.t) (p : Portfolio.t) (fill : FillEvent.t) :
  result (SimulatedBroker.execute_order order bar) (b, p) = Ok (Some fill) ->
  result (Portfolio.execute_fill fill) p = Ok true
  /\ FillEvent.quantity fill = OrderEvent.quantity order
  /\ FillEvent.direction fill = OrderEvent.direction order
  /\ FillEvent.datetime fill = OrderEvent.datetime order
  /\ FillEvent.symbol fill = OrderEvent.symbol order.
Proof.
  intros H. destruct (execute_order_fill_from_base _ _ _ _ _ H) as (fp & Hb & Hf).
  unfold result in H. rewrite execute_order_unfold, Hb in H. cbn [fst] in H.
  injection H as H. subst fill.
  split; [|repeat split].
  unfold result. rewrite execute_fill_unfold. cbv zeta.
  unfold funds_check in H.
  cbn [fill_at FillEvent.direction FillEvent.quantity FillEvent.fill_price
       FillEvent.commission] in *.
  destruct (OrderEvent.direction order =? "BUY").
  - destruct (Py.gtb _ _); [discriminate | reflexivity].
  - destruct (OrderEvent.direction order =? "SELL"); [|reflexivity].
    destruct (_ >? _)%Z; [discriminate | reflexivity].
Qed.

(** Buying 10 shares on the sample bar with 1000 in cash is filled, and the
    fill is accepted. *)
Lemma emitted_fill_is_accepted_witness :
  result (Portfolio.execute_fill (fill_at a_portfolio (market_order "BUY" 10) 11))
         a_portfolio = Ok true.
Proof.
  refine (proj1 (emitted_fill_is_accepted (market_order "BUY" 10) a_bar
                   SimulatedBroker.__init__ a_portfolio _ _)).
  vm_compute. reflexivity.
Defined.

(** Selling out.  A market SELL signal without a quantity, raised while a
    position is held, becomes an order for the whole position; the broker
    fills it whatever the cash, and applying the fill leaves no position and
    an average cost of 0. *)
Theorem sell_signal_closes_position {St} (signal : SignalEvent.t) (bar : Bar.t)
    (e : BacktestEngine.t St) :
  SignalEvent.direction signal = "SELL" ->
  SignalEvent.order_type signal = "MARKET" ->
  (SignalEvent.volume signal <= 0)%Z ->
  (0 < Portfolio.position (BacktestEngine.portfolio e))%Z ->
  let p := BacktestEngine.portfolio e in
  let order := order_of signal (Portfolio.position p) in
  let fill := fill_at p order (Bar.close bar) in
  BacktestEngine._handle_signal signal bar e = (Ok tt, enqueue (ORDER order) e)
  /\ SimulatedBroker.execute_order order bar (BacktestEngine.broker e, p)
     = (Ok (Some fill), (counted (BacktestEngine.broker e), p))
  /\ result (Portfolio.execute_fill fill) p = Ok true
  /\ Portfolio.position (final (Portfolio.execute_fill fill) p) = 0%Z
  /\ Portfolio.position_avg_cost (final (Portfolio.execute_fill fill) p) = 0.
Proof.
  intros Hd Ht Hv Hpos p order fill.
  change (0 < Portfolio.position p)%Z in Hpos.
  assert (Hsig : BacktestEngine._handle_signal signal bar e
                 = (Ok tt, enqueue (ORDER order) e)).
  { rewrite handle_signal_unfold. cbv zeta.
    apply Z.leb_le in Hv. rewrite Hv.
    rewrite calculate_order_quantity_reads. cbn [fst]. rewrite Hd.
    cbn [String.eqb Ascii.eqb Bool.eqb]. fold p.
    destruct (Z.leb_spec (Portfolio.position p) 0); [lia | reflexivity]. }
  assert (Hord : SimulatedBroker.execute_order order bar (BacktestEngine.broker e, p)
                 = (Ok (Some fill), (counted (BacktestEngine.broker e), p))).
  { subst order fill.
    rewrite execute_order_unfold. unfold SimulatedBroker.base_fill_price.
    cbn [order_of OrderEvent.order_type]. rewrite Ht.
    cbn [String.eqb Ascii.eqb Bool.eqb].
    unfold funds_check. cbn [order_of OrderEvent.direction OrderEvent.quantity].
    rewrite Hd. cbn [String.eqb Ascii.eqb Bool.eqb].
    destruct (Z.gtb_spec (Portfolio.position p) (Portfolio.position p)); [lia|].
    reflexivity. }
  split; [exact Hsig|]. split; [exact Hord|].
  subst order fill.
  unfold result, final. rewrite execute_fill_unfold. cbv zeta.
  cbn [fill_at order_of FillEvent.direction FillEvent.quantity
       OrderEvent.direction OrderEvent.quantity].
  rewrite Hd. cbn [String.eqb Ascii.eqb Bool.eqb].
  destruct (Z.gtb_spec (Portfolio.position p) (Portfolio.position p)); [lia|].
  cbn [fst snd Portfolio.position Portfolio.position_avg_cost].
  rewrite Z.sub_diag. repeat split.
Qed.

(** The engine at which the second bar of the penny run opens: 100 shares
    held, 1 in cash. *)
Definition penny_engine_after_buy : BacktestEngine.t unit :=
  final (BacktestEngine.run_bar 10 0) penny_engine.

Lemma sell_signal_closes_position_witness :
  let p := BacktestEngine.portfolio penny_engine_after_buy in
  let signal := SignalEvent.mk 2 "000001" "SELL" 0 "MARKET" None in
  let bar := Bar.mk 2 (3 # 100) (3 # 100) (3 # 100) (3 # 100) 1000 in
  Portfolio.position
    (final (Portfolio.execute_fill
              (fill_at p (order_of signal (Portfolio.position p)) (Bar.close bar))) p)
  = 0%Z.
Proof.
  cbv zeta.
  refine (proj1 (proj2 (proj2 (proj2 (sell_signal_closes_position
            (SignalEvent.mk 2 "000001" "SELL" 0 "MARKET" None)
            (Bar.mk 2 (3 # 100) (3 # 100) (3 # 100) (3 # 100) 1000)
            penny_engine_after_buy eq_refl eq_refl _ _))))).
  - vm_compute. discriminate.
  - vm_compute. reflexivity.
Defined.

(** ** What an event does to the ledger *)

(** Only a fill event reaches the portfolio, and it does so through
    [execute_fill] alone. *)
Lemma process_event_portfolio {St} event bar (e : BacktestEngine.t St) :
  BacktestEngine.portfolio (final (BacktestEngine._process_event event bar) e) =
  match event with
  | FILL fill => final (Portfolio.execute_fill fill) (BacktestEngine.portfolio e)
  | _ => BacktestEngine.portfolio e
  end.
Proof.
  destruct event as [m|s|o|f]; cbn [BacktestEngine._process_event].
  - apply (handle_market_only_enqueues m bar e).
  - apply (handle_signal_only_enqueues s bar e).
  - unfold final. rewrite handle_order_unfold. cbv zeta.
    destruct (SimulatedBroker.base_fill_price o bar) as [[fp|]|x|];
      cbn [snd]; try reflexivity.
    destruct (funds_check _ o fp); reflexivity.
  - unfold BacktestEngine._handle_fill.
    set (e1 := final (BacktestEngine.on_portfolio (Portfolio.execute_fill f)) e).
    assert (H1 : BacktestEngine.portfolio e1
                 = final (Portfolio.execute_fill f) (BacktestEngine.portfolio e)).
    { unfold e1, final, BacktestEngine.on_portfolio, zoom.
      destruct (Portfolio.execute_fill f _). reflexivity. }
    apply bind_final; [exact H1|]. intros _ _. fold e1.
    apply bind_final; [exact H1|]. intros self _. change (final get e1) with e1.
    rewrite <- H1. apply hook_only_enqueues.
Qed.

(** Induction over a run for a property of the portfolio: it is enough that
    fills of positive quantity and snapshots keep it. *)
Lemma reachable_portfolio_invariant {St} (P : Portfolio.t -> Prop)
    (e0 e : BacktestEngine.t St) :
  engine_ok e0 ->
  P (BacktestEngine.portfolio e0) ->
  (forall fill p, (0 < FillEvent.quantity fill)%Z -> P p ->
                  P (final (Portfolio.execute_fill fill) p)) ->
  (forall datetime close_price p,
      P p -> P (final (Portfolio.update_market_value datetime close_price) p)) ->
  Reachable e0 e ->
  P (BacktestEngine.portfolio e).
Proof.
  intros Hok H0 Hfill Hsnap Hr.
  induction Hr as [|e Hr IH|e idx bar Hr IH Hb|e event rest bar Hr IH Hq Hb
                   |e bar Hr IH Hb].
  - exact H0.
  - replace (BacktestEngine.portfolio _) with (BacktestEngine.portfolio e);
      [exact IH|].
    symmetry. apply hook_only_enqueues.
  - exact IH.
  - rewrite process_event_portfolio.
    destruct (reachable_engine_ok e0 e Hok Hr) as [_ Hs]. rewrite Hq in Hs.
    apply Forall_inv in Hs.
    destruct event; try exact IH.
    apply Hfill; [exact Hs | exact IH].
  - unfold final, BacktestEngine.on_portfolio, zoom.
    cbn [snd BacktestEngine.portfolio BacktestEngine.set_portfolio].
    apply (Hsnap (Bar.name bar) (Bar.close bar) _ IH).
Qed.

(** ** The ledger can be replayed from the trade history *)

(** The cash movement and the share movement of one recorded trade, as
    [execute_fill] applies them. *)
Definition settle (cash : Q) (trade : Trade.t) : Q :=
  let cost := Trade.price trade * Py.of_int (Trade.quantity trade) in
  if Trade.direction trade =? "BUY" then cash - (cost + Trade.commission trade)
  else if Trade.direction trade =? "SELL" then cash + (cost - Trade.commission trade)
  else cash.

Definition hold (position : Z) (trade : Trade.t) : Z :=
  if Trade.direction trade =? "BUY" then (position + Trade.quantity trade)%Z
  else if Trade.direction trade =? "SELL" then (position - Trade.quantity trade)%Z
  else position.

(** In every state of a run the cash is the initial capital settled trade by
    trade through the recorded history, in order, and the position is the
    running total of the quantities bought less those sold: nothing but a
    recorded trade ever moves cash or shares, and no rejected fill leaves a
    trace. *)
Theorem ledger_replays_from_trades {St} (data : list Bar.t)
    (strategy : Strategy.t St) (st : St) (capital commission slippage : Q)
    (market symbol : string) (e : BacktestEngine.t St) :
  Reachable (BacktestEngine.__init__ data strategy st capital commission slippage
                                     market symbol) e ->
  let p := BacktestEngine.portfolio e in
  Portfolio.cash p = fold_left settle (Portfolio.trades p) capital
  /\ Portfolio.position p = fold_left hold (Portfolio.trades p) 0%Z
  /\ Portfolio.initial_capital p = capital.
Proof.
  intros Hr. cbv zeta.
  apply (reachable_portfolio_invariant
           (fun p => Portfolio.cash p = fold_left settle (Portfolio.trades p) capital
                     /\ Portfolio.position p = fold_left hold (Portfolio.trades p) 0%Z
                     /\ Portfolio.initial_capital p = capital)
           _ e (init_engine_ok data strategy st capital commission slippage
                               market symbol)); [| | |exact Hr].
  - cbn. repeat split.
  - intros fill p _ (Hc & Hp & Hi).
    unfold final. rewrite execute_fill_unfold. cbv zeta.
    destruct (FillEvent.direction fill =? "BUY") eqn:Eb.
    + destruct (Py.gtb _ _); cbn [snd]; [repeat split; assumption|].
      cbn [Portfolio.cash Portfolio.position Portfolio.trades Portfolio.initial_capital].
      rewrite !fold_left_app. cbn [fold_left]. rewrite <- Hc, <- Hp.
      unfold settle, hold. cbn [trade_of Trade.direction Trade.price Trade.quantity
                                Trade.commission].
      rewrite Eb. repeat split. exact Hi.
    + destruct (FillEvent.direction fill =? "SELL") eqn:Es.
      * destruct (_ >? _)%Z; cbn [snd]; [repeat split; assumption|].
        cbn [Portfolio.cash Portfolio.position Portfolio.trades
             Portfolio.initial_capital].
        rewrite !fold_left_app. cbn [fold_left]. rewrite <- Hc, <- Hp.
        unfold settle, hold. cbn [trade_of Trade.direction Trade.price Trade.quantity
                                  Trade.commission].
        rewrite Eb, Es. repeat split. exact Hi.
      * cbn [snd]. unfold Portfolio.set_trades.
        cbn [Portfolio.cash Portfolio.position Portfolio.trades
             Portfolio.initial_capital].
        rewrite !fold_left_app. cbn [fold_left]. rewrite <- Hc, <- Hp.
        unfold settle, hold. cbn [trade_of Trade.direction].
        rewrite Eb, Es. repeat split. exact Hi.
  - intros datetime close_price p H. exact H.
Qed.

Lemma ledger_replays_from_trades_witness :
  let p := BacktestEngine.portfolio (final (BacktestEngine.run 10) penny_engine) in
  Portfolio.cash p = fold_left settle (Portfolio.trades p) 10.
Proof.
  cbv zeta.
  exact (proj1 (ledger_replays_from_trades penny_bars (scripted penny_script) tt
                  10 (3 # 10000) (1 # 1000) "A" "000001"
                  (final (BacktestEngine.run 10) penny_engine)
                  (run_reachable penny_engine 10))).
Defined.

(** ** Histories only grow *)

Lemma execute_fill_histories fill p :
  let p' := final (Portfolio.execute_fill fill) p in
  (Portfolio.trades p' = Portfolio.trades p
   \/ Portfolio.trades p' = (Portfolio.trades p ++ [trade_of fill])%list)
  /\ Portfolio.equity_curve p' = Portfolio.equity_curve p.
Proof.
  cbv zeta. unfold final. rewrite execute_fill_unfold. cbv zeta.
  destruct (FillEvent.direction fill =? "BUY").
  - destruct (Py.gtb _ _); cbn; auto.
  - destruct (FillEvent.direction fill =? "SELL"); [|cbn; auto].
    destruct (_ >? _)%Z; cbn; auto.
Qed.

(** Between any two states of a run, the later trade history and equity
    curve extend the earlier ones: a recorded trade or snapshot is never
    changed, reordered or removed. *)
Theorem histories_are_append_only {St} (e1 e2 : BacktestEngine.t St) :
  Reachable e1 e2 ->
  exists trades rows,
    Portfolio.trades (BacktestEngine.portfolio e2)
      = (Portfolio.trades (BacktestEngine.portfolio e1) ++ trades)%list
    /\ Portfolio.equity_curve (BacktestEngine.portfolio e2)
       = (Portfolio.equity_curve (BacktestEngine.portfolio e1) ++ rows)%list.
Proof.
  intros Hr.
  induction Hr as [|e Hr IH|e idx bar Hr IH Hb|e event rest bar Hr IH Hq Hb
                   |e bar Hr IH Hb].
  - exists [], []. rewrite !app_nil_r. split; reflexivity.
  - replace (BacktestEngine.portfolio _) with (BacktestEngine.portfolio e);
      [exact IH|].
    symmetry. apply hook_only_enqueues.
  - exact IH.
  - destruct IH as (ts & rows & Ht & Hrows).
    rewrite process_event_portfolio.
    destruct event as [m|s|o|f]; try (exists ts, rows; split; assumption).
    cbn [BacktestEngine.portfolio BacktestEngine.set_event_queue].
    destruct (execute_fill_histories f (BacktestEngine.portfolio e)) as [[H|H] Hc];
      cbv zeta in H, Hc; rewrite H, Hc.
    + exists ts, rows. split; assumption.
    + exists (ts ++ [trade_of f])%list, rows. split; [|assumption].
      rewrite Ht. symmetry. apply app_assoc.
  - destruct IH as (ts & rows & Ht & Hrows).
    unfold final, BacktestEngine.on_portfolio, zoom.
    rewrite update_market_value_unfold.
    cbn [snd BacktestEngine.portfolio BacktestEngine.set_portfolio
         Portfolio.trades Portfolio.equity_curve Portfolio.set_equity_curve].
    exists ts. eexists. split; [exact Ht|].
    rewrite Hrows. symmetry. apply app_assoc.
Qed.

Lemma histories_are_append_only_witness :
  exists trades rows,
    Portfolio.trades (BacktestEngine.portfolio (final (BacktestEngine.run 10) penny_engine))
      = (Portfolio.trades (BacktestEngine.portfolio penny_engine) ++ trades)%list
    /\ Portfolio.equity_curve
         (BacktestEngine.portfolio (final (BacktestEngine.run 10) penny_engine))
       = (Portfolio.equity_curve (BacktestEngine.portfolio penny_engine) ++ rows)%list.
Proof.
  exact (histories_are_append_only penny_engine
           (final (BacktestEngine.run 10) penny_engine)
           (run_reachable penny_engine 10)).
Defined.

(** ** One snapshot per bar *)

Lemma process_event_equity_curve {St} event bar (e : BacktestEngine.t St) :
  Portfolio.equity_curve
    (BacktestEngine.portfolio (final (BacktestEngine._process_event event bar) e))
  = Portfolio.equity_curve (BacktestEngine.portfolio e).
Proof.
  rewrite process_event_portfolio. destruct event; try reflexivity.
  apply execute_fill_histories.
Qed.

(** When the queue loop returns, the queue is empty and no snapshot was
    taken meanwhile. *)
Lemma drain_returns_quiescent {St} fuel bar (e : BacktestEngine.t St) :
  let e' := final (BacktestEngine.drain fuel bar) e in
  Portfolio.equity_curve (BacktestEngine.portfolio e')
    = Portfolio.equity_curve (BacktestEngine.portfolio e)
  /\ (result (BacktestEngine.drain fuel bar) e = Ok tt ->
      BacktestEngine.event_queue e' = []).
Proof.
  revert e. induction fuel as [|fuel IH]; intros e; cbv zeta;
    unfold final, result; rewrite drain_unfold;
    destruct (BacktestEngine.event_queue e) as [|event rest] eqn:Hq;
    try (cbn [fst snd]; split; [reflexivity | intros H; congruence]).
  pose proof (process_event_equity_curve event bar
                (BacktestEngine.set_event_queue rest e)) as Hc.
  unfold final in Hc.
  change (BacktestEngine.portfolio (BacktestEngine.set_event_queue rest e))
    with (BacktestEngine.portfolio e) in Hc.
  destruct (BacktestEngine._process_event event bar
              (BacktestEngine.set_event_queue rest e)) as [[[]| |] e1];
    cbn [fst snd] in *; try (split; [exact Hc | intros H; discriminate]).
  destruct (IH e1) as [Hc1 Hq1]. unfold final, result in Hc1, Hq1.
  split; [congruence | exact Hq1].
Qed.

Lemma run_bar_unfold {St} fuel idx (e : BacktestEngine.t St) :
  BacktestEngine.run_bar fuel idx e =
  match nth_error (BacktestEngine.data e) idx with
  | None => (Raise (IndexError "single positional indexer is out-of-bounds"),
             BacktestEngine.set__current_idx idx e)
  | Some bar =>
    match BacktestEngine.drain fuel bar
            (enqueue (MARKET (MarketEvent.mk (Bar.name bar)))
                     (BacktestEngine.set__current_idx idx e)) with
    | (Ok _, e2) =>
      BacktestEngine.on_portfolio
        (Portfolio.update_market_value (Bar.name bar) (Bar.close bar)) e2
    | (Raise x, e2) => (Raise x, e2)
    | (Diverge, e2) => (Diverge, e2)
    end
  end.
Proof.
  unfold BacktestEngine.run_bar, BacktestEngine.get_current_bar.
  unfold bind at 1, modify. unfold bind at 1. unfold bind at 1, get.
  cbn [BacktestEngine.data BacktestEngine.set__current_idx BacktestEngine._current_idx].
  destruct (nth_error (BacktestEngine.data e) idx) as [bar|]; [|reflexivity].
  unfold ret at 1. unfold bind at 1, modify. unfold bind. reflexivity.
Qed.

(** A bar that is processed to the end leaves an empty queue and exactly one
    new row, stamped with the bar's timestamp, on the equity curve. *)
Lemma run_bar_returns {St} fuel idx (e : BacktestEngine.t St) :
  result (BacktestEngine.run_bar fuel idx) e = Ok tt ->
  let e' := final (BacktestEngine.run_bar fuel idx) e in
  exists bar row,
    nth_error (BacktestEngine.data e) idx = Some bar
    /\ Portfolio.equity_curve (BacktestEngine.portfolio e')
       = (Portfolio.equity_curve (BacktestEngine.portfolio e) ++ [row])%list
    /\ EquityRow.datetime row = Bar.name bar
    /\ EquityRow.position row = Portfolio.position (BacktestEngine.portfolio e')
    /\ BacktestEngine.event_queue e' = []
    /\ BacktestEngine.data e' = BacktestEngine.data e.
Proof.
  unfold result, final. rewrite run_bar_unfold.
  destruct (nth_error (BacktestEngine.data e) idx) as [bar|] eqn:Hb;
    [|cbn; discriminate].
  set (e1 := enqueue _ _).
  destruct (drain_returns_quiescent fuel bar e1) as [Hc Hq].
  destruct (drain_reachable e1 fuel bar e1 (reach_start e1) Hb) as [_ [Hd _]].
  unfold final, result in Hc, Hq, Hd.
  destruct (BacktestEngine.drain fuel bar e1) as [[[]| |] e2];
    cbn [fst snd] in *; try discriminate.
  intros _. specialize (Hq eq_refl).
  unfold BacktestEngine.on_portfolio, zoom. rewrite update_market_value_unfold.
  cbn [snd BacktestEngine.portfolio BacktestEngine.set_portfolio
       Portfolio.equity_curve Portfolio.set_equity_curve Portfolio.position
       BacktestEngine.event_queue BacktestEngine.data].
  exists bar. eexists. split; [reflexivity|].
  split; [rewrite Hc; reflexivity|].
  split; [reflexivity|]. split; [reflexivity|]. split; [exact Hq | exact Hd].
Qed.

Lemma for_each_returns {St} fuel idxs (e : BacktestEngine.t St) :
  result (BacktestEngine.for_each idxs (BacktestEngine.run_bar fuel)) e = Ok tt ->
  let e' := final (BacktestEngine.for_each idxs (BacktestEngine.run_bar fuel)) e in
  exists bars,
    Forall2 (fun idx bar => nth_error (BacktestEngine.data e) idx = Some bar) idxs bars
    /\ map EquityRow.datetime (Portfolio.equity_curve (BacktestEngine.portfolio e'))
       = (map EquityRow.datetime (Portfolio.equity_curve (BacktestEngine.portfolio e))
          ++ map Bar.name bars)%list
    /\ BacktestEngine.data e' = BacktestEngine.data e
    /\ (idxs <> [] -> BacktestEngine.event_queue e' = []).
Proof.
  revert e. induction idxs as [|idx idxs IH]; intros e.
  - intros _. cbv zeta. exists []. cbn. rewrite app_nil_r.
    repeat split; [constructor | congruence].
  - cbn [BacktestEngine.for_each]. unfold result, final, bind.
    pose proof (run_bar_returns fuel idx e) as Hbar. unfold result, final in Hbar.
    destruct (BacktestEngine.run_bar fuel idx e) as [[[]| |] e1];
      cbn [fst snd] in *; try discriminate.
    destruct (Hbar eq_refl) as (bar & row & Hb & Hc & Hdt & _ & Hq & Hd).
    intros Hrest. specialize (IH e1). unfold result, final in IH.
    destruct (IH Hrest) as (bars & Hbars & Hc' & Hd' & Hq').
    exists (bar :: bars). split; [|split; [|split]].
    + constructor; [exact Hb|]. rewrite <- Hd. exact Hbars.
    + rewrite Hc', Hc, map_app. cbn [map]. rewrite Hdt, <- app_assoc. reflexivity.
    + congruence.
    + intros _. destruct idxs as [|idx' idxs']; [exact Hq | apply Hq'; discriminate].
Qed.

Lemma nth_error_seq_all {A} (pre l bars : list A) :
  Forall2 (fun idx bar => nth_error (pre ++ l) idx = Some bar)
          (seq (length pre) (length l)) bars ->
  bars = l.
Proof.
  revert pre bars. induction l as [|x l IH]; intros pre bars H.
  - inversion H. reflexivity.
  - cbn [length seq] in H. inversion H as [|idx bar idxs bars' Hx Hrest]; subst.
    rewrite nth_error_app2 in Hx by lia. rewrite Nat.sub_diag in Hx.
    cbn in Hx. injection Hx as <-. f_equal.
    apply (IH (pre ++ [x])%list).
    rewrite <- app_assoc, length_app. cbn [length app].
    rewrite Nat.add_1_r. exact Hrest.
Qed.

Lemma run_unfold {St} fuel (e0 : BacktestEngine.t St) :
  BacktestEngine.run fuel e0 =
  match BacktestEngine.hook (Strategy.init (BacktestEngine.strategy e0)) e0 with
  | (Ok _, e1) =>
    match BacktestEngine.for_each (seq 0 (length (BacktestEngine.data e1)))
            (BacktestEngine.run_bar fuel) e1 with
    | (Ok _, e2) =>
      (Ok (BacktestResult.mk
             (Portfolio.equity_curve (BacktestEngine.portfolio e2))
             (Portfolio.trades (BacktestEngine.portfolio e2))
             (Portfolio.initial_capital (BacktestEngine.portfolio e2))
             (BacktestEngine.data e2)
             (Strategy.name (BacktestEngine.strategy e2))
             (BacktestEngine.symbol e2)), e2)
    | (Raise x, e2) => (Raise x, e2)
    | (Diverge, e2) => (Diverge, e2)
    end
  | (Raise x, e1) => (Raise x, e1)
  | (Diverge, e1) => (Diverge, e1)
  end.
Proof.
  unfold BacktestEngine.run. unfold bind at 1, get. unfold bind at 1.
  destruct (BacktestEngine.hook _ e0) as [[[]| |] e1]; reflexivity.
Qed.

(** A run that returns has taken exactly one snapshot per bar: the equity
    curve of the result carries the timestamps of the bar table, in the order
    of the table, and the result hands back that table, the capital the engine
    was built with, and the trade history of the final ledger. *)
Theorem equity_curve_follows_bars {St} (data : list Bar.t)
    (strategy : Strategy.t St) (st : St) (capital commission slippage : Q)
    (market symbol : string) (fuel : nat) (r : BacktestResult.t) :
  let e0 := BacktestEngine.__init__ data strategy st capital commission slippage
                                    market symbol in
  result (BacktestEngine.run fuel) e0 = Ok r ->
  map EquityRow.datetime (BacktestResult.equity_curve r) = map Bar.name data
  /\ length (BacktestResult.equity_curve r) = length data
  /\ BacktestResult.data r = data
  /\ BacktestResult.initial_capital r = capital
  /\ BacktestResult.trades r
     = Portfolio.trades (BacktestEngine.portfolio (final (BacktestEngine.run fuel) e0))
  /\ (data <> [] ->
      BacktestEngine.event_queue (final (BacktestEngine.run fuel) e0) = []).
Proof.
  intros e0 Hrun.
  pose proof (ledger_replays_from_trades data strategy st capital commission
                slippage market symbol _ (run_reachable e0 fuel)) as (_ & _ & Hcap).
  cbv zeta in Hcap. fold e0 in Hcap.
  destruct (hook_only_enqueues (Strategy.init (BacktestEngine.strategy e0)) e0)
    as (Hp1 & Hd1 & _).
  unfold result in Hrun. unfold final in Hcap, Hp1, Hd1 |- *.
  rewrite run_unfold in *.
  destruct (BacktestEngine.hook _ e0) as [[[]| |] e1]; cbn [fst snd] in *;
    try discriminate.
  pose proof (for_each_returns fuel (seq 0 (length (BacktestEngine.data e1))) e1)
    as Hloop.
  unfold result, final in Hloop.
  destruct (BacktestEngine.for_each _ _ e1) as [[[]| |] e2]; cbn [fst snd] in *;
    try discriminate.
  destruct (Hloop eq_refl) as (bars & Hbars & Hc & Hd & Hq).
  injection Hrun as <-. cbn [BacktestResult.equity_curve BacktestResult.data
                             BacktestResult.initial_capital BacktestResult.trades].
  assert (Hdata : BacktestEngine.data e1 = data) by exact Hd1.
  assert (bars = data) as ->.
  { rewrite Hdata in Hbars. apply (nth_error_seq_all [] data bars). exact Hbars. }
  assert (Hdt : map EquityRow.datetime
                  (Portfolio.equity_curve (BacktestEngine.portfolio e2))
                = map Bar.name data).
  { rewrite Hc, Hp1. reflexivity. }
  split; [exact Hdt|].
  split; [rewrite <- (length_map EquityRow.datetime), Hdt; apply length_map|].
  split; [congruence|]. split; [exact Hcap|]. split; [reflexivity|].
  intros Hne. apply Hq. rewrite Hdata. destruct data; [congruence | discriminate].
Qed.

(** The penny run returns a curve stamped 1 and 2, as its two bars are. *)
Lemma equity_curve_follows_bars_witness :
  exists r,
    result (BacktestEngine.run 10) penny_engine = Ok r
    /\ map EquityRow.datetime (BacktestResult.equity_curve r) = [1; 2]%Z.
Proof.
  eexists. split; [vm_compute; reflexivity|].
  refine (proj1 (equity_curve_follows_bars penny_bars (scripted penny_script) tt
                   10 (3 # 10000) (1 # 1000) "A" "000001" 10 _ _)).
  vm_compute. reflexivity.
Defined.

(** ** The event loop comes to rest *)

(** A strategy is tame when its hooks return or raise, [init] and
    [on_order_filled] place no order (as the base class's [on_order_filled]
    does), and [on_bar] places at most [K]. *)
Record tame {St} (K : nat) (s : Strategy.t St) : Prop := mk_tame {
  init_quiet : forall ctx st,
    Strategy.calls (Strategy.init s ctx st) = []
    /\ Strategy.outcome (Strategy.init s ctx st) <> Diverge;
  on_bar_bounded : forall ctx bar st,
    (length (Strategy.calls (Strategy.on_bar s ctx bar st)) <= K)%nat
    /\ Strategy.outcome (Strategy.on_bar s ctx bar st) <> Diverge;
  on_fill_quiet : forall ctx fill st,
    Strategy.calls (Strategy.on_order_filled s ctx fill st) = []
    /\ Strategy.outcome (Strategy.on_order_filled s ctx fill st) <> Diverge
}.

(** The number of events an event can still give rise to, itself
    included: a market event up to [K] signals, a signal an order, an order
    a fill. *)
Definition weight (K : nat) (event : Event) : nat :=
  match event with
  | MARKET _ => 1 + 3 * K
  | SIGNAL _ => 3
  | ORDER _ => 2
  | FILL _ => 1
  end.

Definition load (K : nat) (events : list Event) : nat :=
  list_sum (map (weight K) events).

Lemma load_app K xs ys : load K (xs ++ ys) = (load K xs + load K ys)%nat.
Proof. unfold load. rewrite map_app. apply list_sum_app. Qed.

Lemma load_cons K x xs : load K (x :: xs) = (weight K x + load K xs)%nat.
Proof. reflexivity. Qed.

Lemma weight_positive K event : (1 <= weight K event)%nat.
Proof. destruct event; cbn; lia. Qed.

(** A handler that keeps the strategy and adds events of load at most [w]. *)
Definition grows {St} (K w : nat) (e e' : BacktestEngine.t St) : Prop :=
  BacktestEngine.strategy e' = BacktestEngine.strategy e
  /\ exists events,
       BacktestEngine.event_queue e' = (BacktestEngine.event_queue e ++ events)%list
       /\ (load K events <= w)%nat.

Lemma grows_refl {St} K w (e : BacktestEngine.t St) : grows K w e e.
Proof.
  split; [reflexivity|]. exists []. split; [symmetry; apply app_nil_r | cbn; lia].
Qed.

Lemma grows_trans {St} K w1 w2 (e1 e2 e3 : BacktestEngine.t St) :
  grows K w1 e1 e2 -> grows K w2 e2 e3 -> grows K (w1 + w2) e1 e3.
Proof.
  intros (Hs1 & ev1 & Hq1 & Hl1) (Hs2 & ev2 & Hq2 & Hl2).
  split; [congruence|]. exists (ev1 ++ ev2)%list. split.
  - rewrite Hq2, Hq1. symmetry. apply app_assoc.
  - rewrite load_app. lia.
Qed.

Lemma grows_weaken {St} K w w' (e e' : BacktestEngine.t St) :
  (w <= w')%nat -> grows K w e e' -> grows K w' e e'.
Proof.
  intros Hw (Hs & ev & Hq & Hl). split; [exact Hs|]. exists ev. split; [exact Hq | lia].
Qed.

Lemma place_grows {St} K (c : Strategy.Call) (e : BacktestEngine.t St) :
  grows K 3 e (final (BacktestEngine.place c) e)
  /\ result (BacktestEngine.place c) e <> Diverge.
Proof.
  unfold final, result, BacktestEngine.place, BacktestEngine.get_current_bar.
  destruct c; run_monad;
    (destruct (nth_error _ _); cbn [fst snd];
     [ split; [|discriminate];
       split; [reflexivity|]; eexists; split; [reflexivity | cbn; lia]
     | split; [apply grows_refl | discriminate] ]).
Qed.

Lemma place_all_grows {St} K (cs : list Strategy.Call) (e : BacktestEngine.t St) :
  grows K (3 * length cs) e (final (BacktestEngine.place_all cs) e)
  /\ result (BacktestEngine.place_all cs) e <> Diverge.
Proof.
  revert e. induction cs as [|c cs IH]; intros e.
  - split; [apply grows_refl | discriminate].
  - cbn [BacktestEngine.place_all length].
    destruct (place_grows K c e) as [Hg Hr].
    unfold final, result, bind in *.
    destruct (BacktestEngine.place c e) as [[[]| |] e1]; cbn [fst snd] in *.
    + destruct (IH e1) as [Hg' Hr']. split; [|exact Hr'].
      eapply grows_weaken; [|eapply grows_trans; [exact Hg | exact Hg']]. lia.
    + split; [|discriminate]. eapply grows_weaken; [|exact Hg]. lia.
    + congruence.
Qed.

Lemma hook_unfold {St} h (e : BacktestEngine.t St) :
  BacktestEngine.hook h e =
  let ran := h (BacktestEngine.context e) (BacktestEngine.strategy_self e) in
  match BacktestEngine.place_all (Strategy.calls ran)
          (BacktestEngine.set_strategy_self (Strategy.after ran) e) with
  | (Ok _, e2) =>
    (match Strategy.outcome ran with
     | Ok _ => Ok tt
     | Raise x => Raise x
     | Diverge => Diverge
     end, e2)
  | (Raise x, e2) => (Raise x, e2)
  | (Diverge, e2) => (Diverge, e2)
  end.
Proof.
  unfold BacktestEngine.hook. unfold bind at 1, get. unfold bind at 1, modify.
  unfold bind. cbv zeta.
  destruct (BacktestEngine.place_all _ _) as [[[]| |] e2]; try reflexivity.
  destruct (Strategy.outcome _); reflexivity.
Qed.

Lemma hook_grows {St} K h (e : BacktestEngine.t St) :
  let ran := h (BacktestEngine.context e) (BacktestEngine.strategy_self e) in
  grows K (3 * length (Strategy.calls ran)) e (final (BacktestEngine.hook h) e)
  /\ (Strategy.outcome ran <> Diverge -> result (BacktestEngine.hook h) e <> Diverge).
Proof.
  cbv zeta. unfold final, result. rewrite hook_unfold. cbv zeta.
  set (ran := h (BacktestEngine.context e) (BacktestEngine.strategy_self e)).
  set (e1 := BacktestEngine.set_strategy_self (Strategy.after ran) e).
  destruct (place_all_grows K (Strategy.calls ran) e1) as [Hg Hr].
  assert (Hg1 : grows K (3 * length (Strategy.calls ran)) e
                  (final (BacktestEngine.place_all (Strategy.calls ran)) e1)).
  { destruct Hg as (Hs & ev & Hq & Hl). split; [exact Hs|]. exists ev.
    split; [exact Hq | exact Hl]. }
  unfold final, result in *.
  destruct (BacktestEngine.place_all (Strategy.calls ran) e1) as [[[]| |] e2];
    cbn [fst snd] in *.
  - split; [exact Hg1|]. destruct (Strategy.outcome ran); congruence.
  - split; [exact Hg1 | discriminate].
  - congruence.
Qed.

Lemma base_fill_price_returns order bar :
  SimulatedBroker.base_fill_price order bar <> Diverge.
Proof.
  unfold SimulatedBroker.base_fill_price.
  destruct (OrderEvent.order_type order =? "MARKET"); [discriminate|].
  destruct (OrderEvent.order_type order =? "LIMIT"); [|discriminate].
  destruct (OrderEvent.price order); [|discriminate].
  destruct (OrderEvent.direction order =? "BUY").
  - destruct (Py.ltb _ _); discriminate.
  - destruct (Py.gtb _ _); discriminate.
Qed.

Lemma handle_fill_unfold {St} fill (e : BacktestEngine.t St) :
  BacktestEngine._handle_fill fill e =
  let e1 := BacktestEngine.set_portfolio
              (final (Portfolio.execute_fill fill) (BacktestEngine.portfolio e)) e in
  BacktestEngine.hook
    (fun ctx => Strategy.on_order_filled (BacktestEngine.strategy e) ctx fill) e1.
Proof.
  unfold BacktestEngine._handle_fill, BacktestEngine.on_portfolio, zoom, final.
  unfold bind at 1.
  assert (Hr : exists b, fst (Portfolio.execute_fill fill (BacktestEngine.portfolio e))
                         = Ok b).
  { rewrite execute_fill_unfold. cbv zeta.
    destruct (FillEvent.direction fill =? "BUY");
      [destruct (Py.gtb _ _); cbn; eauto|].
    destruct (FillEvent.direction fill =? "SELL"); [|cbn; eauto].
    destruct (FillEvent.quantity fill >? Portfolio.position (BacktestEngine.portfolio e))%Z;
      cbn; eauto. }
  destruct Hr as [b Hr].
  destruct (Portfolio.execute_fill fill (BacktestEngine.portfolio e)) as [r p'].
  cbn [fst snd] in *. subst r. reflexivity.
Qed.

(** Under a tame strategy, handling an event returns or raises, and what it
    adds to the queue weighs less than the event handled. *)
Lemma process_event_grows {St} K event bar (e : BacktestEngine.t St) :
  tame K (BacktestEngine.strategy e) ->
  grows K (weight K event - 1) e (final (BacktestEngine._process_event event bar) e)
  /\ result (BacktestEngine._process_event event bar) e <> Diverge.
Proof.
  intros Ht. destruct event as [m|s|o|f]; cbn [BacktestEngine._process_event weight].
  - unfold BacktestEngine._handle_market, final, result. unfold bind, get.
    destruct (on_bar_bounded K _ Ht (BacktestEngine.context e) bar
                (BacktestEngine.strategy_self e)) as [Hlen Hout].
    destruct (hook_grows K
                (fun ctx => Strategy.on_bar (BacktestEngine.strategy e) ctx bar) e)
      as [Hg Hr].
    cbv zeta in Hg, Hr. split; [|exact (Hr Hout)].
    eapply grows_weaken; [|exact Hg]. lia.
  - unfold final, result. rewrite handle_signal_unfold. cbv zeta. cbn [fst snd].
    split; [|discriminate].
    match goal with |- context [(?q <=? 0)%Z] => destruct (q <=? 0)%Z end.
    + apply grows_refl.
    + split; [reflexivity|]. eexists. split; [reflexivity | cbn; lia].
  - unfold final, result. rewrite handle_order_unfold. cbv zeta.
    pose proof (base_fill_price_returns o bar) as Hb.
    destruct (SimulatedBroker.base_fill_price o bar) as [[fp|]|x|];
      cbn [fst snd]; try congruence;
      try (split; [split; [reflexivity|]; exists []; split;
                     [symmetry; apply app_nil_r | cbn; lia]
                  | discriminate]).
    destruct (funds_check _ o fp); cbn [fst snd]; (split; [|discriminate]).
    + split; [reflexivity|]. eexists. split; [reflexivity | cbn; lia].
    + split; [reflexivity|]. exists []. split; [symmetry; apply app_nil_r | cbn; lia].
  - unfold final, result. rewrite handle_fill_unfold. cbv zeta.
    set (e1 := BacktestEngine.set_portfolio _ e).
    destruct (on_fill_quiet K _ Ht (BacktestEngine.context e1) f
                (BacktestEngine.strategy_self e1)) as [Hcalls Hout].
    destruct (hook_grows K
                (fun ctx => Strategy.on_order_filled (BacktestEngine.strategy e) ctx f)
                e1) as [Hg Hr].
    cbv zeta in Hg, Hr. rewrite Hcalls in Hg. split; [|exact (Hr Hout)].
    destruct Hg as (Hs & ev & Hq & Hl). split; [exact Hs|].
    exists ev. split; [exact Hq | cbn in *; lia].
Qed.

(** With fuel for the load of its queue, the queue loop does not run
    out. *)
Lemma drain_comes_to_rest {St} K fuel bar (e : BacktestEngine.t St) :
  tame K (BacktestEngine.strategy e) ->
  (load K (BacktestEngine.event_queue e) <= fuel)%nat ->
  result (BacktestEngine.drain fuel bar) e <> Diverge
  /\ BacktestEngine.strategy (final (BacktestEngine.drain fuel bar) e)
     = BacktestEngine.strategy e.
Proof.
  revert e. induction fuel as [|fuel IH]; intros e Ht Hl;
    unfold result, final; rewrite drain_unfold;
    destruct (BacktestEngine.event_queue e) as [|event rest] eqn:Hq;
    try (cbn [fst snd]; split; [discriminate | reflexivity]).
  - exfalso. rewrite load_cons in Hl. pose proof (weight_positive K event). lia.
  - set (e1 := BacktestEngine.set_event_queue rest e).
    destruct (process_event_grows K event bar e1 Ht) as [(Hs & ev & Hq1 & Hl1) Hr].
    unfold final, result in *.
    destruct (BacktestEngine._process_event event bar e1) as [[[]| |] e2];
      cbn [fst snd] in *; try (split; [discriminate | exact Hs]); try congruence.
    assert (Ht2 : tame K (BacktestEngine.strategy e2)) by (rewrite Hs; exact Ht).
    assert (Hl2 : (load K (BacktestEngine.event_queue e2) <= fuel)%nat).
    { rewrite Hq1. cbn [e1 BacktestEngine.event_queue BacktestEngine.set_event_queue].
      rewrite load_app. rewrite load_cons in Hl.
      pose proof (weight_positive K event). lia. }
    destruct (IH e2 Ht2 Hl2) as [Hr2 Hs2]. unfold final, result in Hr2, Hs2.
    split; [exact Hr2 | rewrite Hs2, Hs; reflexivity].
Qed.

Lemma run_bar_comes_to_rest {St} K fuel idx (e : BacktestEngine.t St) :
  tame K (BacktestEngine.strategy e) ->
  BacktestEngine.event_queue e = [] ->
  (1 + 3 * K <= fuel)%nat ->
  result (BacktestEngine.run_bar fuel idx) e <> Diverge
  /\ BacktestEngine.strategy (final (BacktestEngine.run_bar fuel idx) e)
     = BacktestEngine.strategy e.
Proof.
  intros Ht Hq Hf. unfold result, final. rewrite run_bar_unfold.
  destruct (nth_error (BacktestEngine.data e) idx) as [bar|];
    [|cbn; split; [discriminate | reflexivity]].
  set (e1 := enqueue _ _).
  assert (Hl : (load K (BacktestEngine.event_queue e1) <= fuel)%nat).
  { unfold e1, enqueue.
    cbn [BacktestEngine.event_queue BacktestEngine.set_event_queue
         BacktestEngine.set__current_idx].
    rewrite Hq. cbn [app]. rewrite load_cons.
    change (load K []) with 0%nat. unfold weight. lia. }
  destruct (drain_comes_to_rest K fuel bar e1 Ht Hl) as [Hr Hs].
  unfold result, final in Hr, Hs.
  destruct (BacktestEngine.drain fuel bar e1) as [[[]| |] e2]; cbn [fst snd] in *;
    try congruence; (split; [discriminate | exact Hs]).
Qed.

Lemma for_each_comes_to_rest {St} K fuel idxs (e : BacktestEngine.t St) :
  tame K (BacktestEngine.strategy e) ->
  BacktestEngine.event_queue e = [] ->
  (1 + 3 * K <= fuel)%nat ->
  result (BacktestEngine.for_each idxs (BacktestEngine.run_bar fuel)) e <> Diverge.
Proof.
  revert e. induction idxs as [|idx idxs IH]; intros e Ht Hq Hf; [discriminate|].
  cbn [BacktestEngine.for_each]. unfold result, bind.
  destruct (run_bar_comes_to_rest K fuel idx e Ht Hq Hf) as [Hr Hs].
  pose proof (run_bar_returns fuel idx e) as Hret.
  unfold result, final in Hr, Hs, Hret.
  destruct (BacktestEngine.run_bar fuel idx e) as [[[]| |] e1]; cbn [fst snd] in *;
    try congruence; try discriminate.
  destruct (Hret eq_refl) as (_ & _ & _ & _ & _ & _ & Hq1 & _).
  apply IH; [rewrite Hs; exact Ht | exact Hq1 | exact Hf].
Qed.

(** The event loop comes to rest.  Under a tame strategy that places at most
    [K] orders per bar, each bar gives rise to at most [1 + 3 * K] events, so a
    run with that much fuel per bar never runs out: it returns its result or
    stops on an exception. *)
Theorem event_loop_comes_to_rest {St} (K fuel : nat) (data : list Bar.t)
    (strategy : Strategy.t St) (st : St) (capital commission slippage : Q)
    (market symbol : string) :
  tame K strategy ->
  (1 + 3 * K <= fuel)%nat ->
  result (BacktestEngine.run fuel)
         (BacktestEngine.__init__ data strategy st capital commission slippage
                                  market symbol) <> Diverge.
Proof.
  intros Ht Hf. set (e0 := BacktestEngine.__init__ _ _ _ _ _ _ _ _).
  unfold result. rewrite run_unfold.
  destruct (init_quiet K _ Ht (BacktestEngine.context e0)
              (BacktestEngine.strategy_self e0)) as [Hcalls Hout].
  destruct (hook_grows K (Strategy.init (BacktestEngine.strategy e0)) e0) as [Hg Hr].
  cbv zeta in Hg, Hr. change (BacktestEngine.strategy e0) with strategy in *.
  rewrite Hcalls in Hg. specialize (Hr Hout).
  destruct Hg as (Hs & ev & Hq & Hl).
  unfold result, final in *.
  destruct (BacktestEngine.hook (Strategy.init strategy) e0) as [[[]| |] e1];
    cbn [fst snd] in *; try congruence; try discriminate.
  assert (Hq1 : BacktestEngine.event_queue e1 = []).
  { rewrite Hq. cbn [e0 BacktestEngine.__init__ BacktestEngine.event_queue app].
    destruct ev as [|x ev]; [reflexivity|].
    rewrite load_cons in Hl. pose proof (weight_positive K x). cbn in Hl. lia. }
  assert (Ht1 : tame K (BacktestEngine.strategy e1)) by (rewrite Hs; exact Ht).
  pose proof (for_each_comes_to_rest K fuel
                (seq 0 (length (BacktestEngine.data e1))) e1 Ht1 Hq1 Hf) as Hloop.
  unfold result in Hloop.
  destruct (BacktestEngine.for_each _ _ e1) as [[[]| |] e2]; cbn [fst snd] in *;
    congruence.
Qed.

Lemma scripted_penny_tame : tame 1 (scripted penny_script).
Proof.
  constructor; intros; cbn; (split; [|discriminate]); try reflexivity.
  destruct (Strategy.current_idx ctx); cbn; lia.
Qed.

(** The penny strategy places one order per bar: fuel 4 is enough. *)
Lemma event_loop_comes_to_rest_witness :
  result (BacktestEngine.run 4) penny_engine <> Diverge.
Proof.
  apply (event_loop_comes_to_rest 1 4 penny_bars (scripted penny_script) tt
           10 (3 # 10000) (1 # 1000) "A" "000001").
  - exact scripted_penny_tame.
  - lia.
Defined.

(** ** Snapshots and fees in numbers *)

(** The three amounts of a snapshot are rounded one by one: cash and market
    value are each within half a cent of the ledger's, and the total equity of
    the row is within a cent and a half of the sum of the row's cash and market
    value (it need not equal it). *)
Theorem snapshot_amounts_agree (datetime : Timestamp) (close_price : Q)
    (p : Portfolio.t) :
  exists row,
    Portfolio.equity_curve (final (Portfolio.update_market_value datetime close_price) p)
      = (Portfolio.equity_curve p ++ [row])%list
    /\ Qabs (EquityRow.cash row - Portfolio.cash p) <= 1 # 200
    /\ Qabs (EquityRow.market_value row
             - Py.of_int (Portfolio.position p) * close_price) <= 1 # 200
    /\ Qabs (EquityRow.total_equity row
             - (EquityRow.cash row + EquityRow.market_value row)) <= 3 # 200.
Proof.
  unfold final. rewrite update_market_value_unfold. cbn [snd].
  eexists. split; [reflexivity|].
  cbn [EquityRow.cash EquityRow.market_value EquityRow.total_equity].
  set (c := Portfolio.cash p).
  set (m := Py.of_int (Portfolio.position p) * close_price).
  pose proof (Py_round_error c 2) as Hc.
  pose proof (Py_round_error m 2) as Hm.
  pose proof (Py_round_error (c + m) 2) as Ht.
  change ((1 # 2) / inject_Z (Py.pow10 2)) with (1 # 200) in Hc, Hm, Ht.
  split; [exact Hc|]. split; [exact Hm|].
  apply Qabs_Qle_condition in Hc, Hm, Ht.
  apply Qabs_Qle_condition. split; lra.
Qed.

(** Rounding keeps the order of numbers. *)
Lemma round_half_even_monotone x y :
  x <= y -> (Py.round_half_even x <= Py.round_half_even y)%Z.
Proof.
  intros Hxy. unfold Py.round_half_even.
  pose proof (Qfloor_resp_le x y Hxy) as Hf.
  pose proof (Qfloor_le x) as Hx1. pose proof (Qlt_floor x) as Hx2.
  pose proof (Qfloor_le y) as Hy1. pose proof (Qlt_floor y) as Hy2.
  rewrite inject_Z_plus in Hx2, Hy2. change (inject_Z 1) with 1 in Hx2, Hy2.
  destruct (Z.eq_dec (Qfloor x) (Qfloor y)) as [E|E].
  - rewrite <- E in *.
    destruct (Qcompare_spec (x - inject_Z (Qfloor x)) (1 # 2)) as [Ex|Ex|Ex];
      destruct (Qcompare_spec (y - inject_Z (Qfloor x)) (1 # 2)) as [Ey|Ey|Ey];
      try destruct (Z.even (Qfloor x)); try lia; exfalso; lra.
  - assert (Qfloor x + 1 <= Qfloor y)%Z by lia.
    destruct (Qcompare (x - inject_Z (Qfloor x)) (1 # 2));
      destruct (Qcompare (y - inject_Z (Qfloor y)) (1 # 2));
      try destruct (Z.even (Qfloor x)); try destruct (Z.even (Qfloor y)); lia.
Qed.

Lemma Py_round_monotone x y n : x <= y -> Py.round x n <= Py.round y n.
Proof.
  intros Hxy. unfold Py.round.
  set (k := inject_Z (Py.pow10 n)).
  assert (Hk : 0 < k).
  { unfold k. change 0 with (inject_Z 0). rewrite <- Zlt_Qlt.
    unfold Py.pow10. apply Z.pow_pos_nonneg; lia. }
  unfold Qdiv. apply Qmult_le_compat_r.
  - rewrite <- Zle_Qle. apply round_half_even_monotone.
    apply Qmult_le_compat_r; [exact Hxy | apply Qlt_le_weak, Hk].
  - apply Qlt_le_weak, Qinv_lt_0_compat, Hk.
Qed.

(** In market "A" the minimum commission is a floor: whatever the trade
    amount and the rate, the commission charged is at least the minimum
    commission (rounded to cents), provided the sell-side tax is not
    negative. *)
Theorem minimum_commission_is_a_floor (p : Portfolio.t) (price : Q)
    (quantity : Z) (direction : string) (commission : Q) :
  Portfolio.market p = "A" ->
  (direction = "SELL" -> 0 <= price * Py.of_int quantity * Portfolio.stamp_tax p) ->
  result (Portfolio.calculate_commission price quantity direction) p = Ok commission ->
  Py.round (Portfolio.min_commission p) 2 <= commission.
Proof.
  intros Hm Htax Hc. unfold result in Hc. rewrite calculate_commission_reads in Hc.
  cbn [fst] in Hc. injection Hc as <-.
  apply Py_round_monotone. unfold raw_commission. rewrite Hm.
  cbn [String.eqb Ascii.eqb Bool.eqb].
  pose proof (Q.le_max_r (price * Py.of_int quantity * Portfolio.commission_rate p)
                         (Portfolio.min_commission p)) as Hmax.
  unfold Py.max.
  destruct (direction =? "SELL") eqn:E; [|exact Hmax].
  apply String.eqb_eq in E. specialize (Htax E). lra.
Qed.

(** Selling one share at 1 still costs the minimum commission of 5. *)
Lemma minimum_commission_is_a_floor_witness :
  Py.round (Portfolio.min_commission a_portfolio) 2
  <= Py.round (raw_commission a_portfolio 1 1 "SELL") 2.
Proof.
  refine (minimum_commission_is_a_floor a_portfolio 1 1 "SELL" _ eq_refl _ eq_refl).
  intros _. vm_compute. discriminate.
Defined.

(** A BUY bought for all but one unit of the cash, accepted with cash left
    over. *)
Lemma accepted_fill_cash_witness :
  0 <= Portfolio.cash
         (final (Portfolio.execute_fill (FillEvent.mk 1 "600519" "BUY" 10 99 5 1))
                a_portfolio).
Proof.
  refine (proj1 (accepted_fill_cash (FillEvent.mk 1 "600519" "BUY" 10 99 5 1)
                   a_portfolio _) eq_refl).
  vm_compute. reflexivity.
Defined.

(** ** What validation keeps *)

(** [DataLoader.validate] above is [validate] on a table of floats, where
    the closing [pd.to_numeric] pass has nothing to do.  A table read from a
    file can hold text under any column.  This is [validate] on such a table,
    closing pass included: text is a value to [dropna], and the closing pass
    then turns it into the number it spells, or into NaN when it spells
    none. *)
Module ObjectFrame.

Inductive Cell : Type :=
| Num (x : Q)
| NaN
| Text (s : string).

Record Row : Type := mkRow {
  label : Timestamp;
  cells : list Cell
}.

Record t : Type := mk {
  columns : list string;
  index_is_DatetimeIndex : bool;
  rows : list Row
}.

(** [col in df.columns]. *)
Definition has_column (col : string) (df : t) : bool :=
  existsb (String.eqb col) (columns df).

(** The cell of a row under a column label. *)
Fixpoint cell_at (cols : list string) (cs : list Cell) (col : string) : Cell :=
  match cols, cs with
  | c :: cols, v :: cs => if c =? col then v else cell_at cols cs col
  | _, _ => NaN
  end.

Fixpoint insert_row (r : Row) (sorted : list Row) : list Row :=
  match sorted with
  | [] => [r]
  | r' :: rest =>
    if (label r' <=? label r)%Z then r' :: insert_row r rest
    else r :: r' :: rest
  end.

(** [df.sort_index()]. *)
Definition sort_index (df : t) : t :=
  mk (columns df) (index_is_DatetimeIndex df)
     (fold_left (fun acc r => insert_row r acc) (rows df) []).

(** [pd.isna] of a cell. *)
Definition isna (c : Cell) : bool :=
  match c with
  | NaN => true
  | _ => false
  end.

(** [df.dropna(subset=cols)]. *)
Definition dropna (subset : list string) (df : t) : t :=
  mk (columns df) (index_is_DatetimeIndex df)
     (filter (fun r =>
        forallb (fun col => negb (isna (cell_at (columns df) (cells r) col))) subset)
        (rows df)).

(** The cells of a row after [df[col] = f(df[col])]. *)
Fixpoint assign (f : Cell -> Cell) (col : string) (cols : list string)
                (cs : list Cell) : list Cell :=
  match cols, cs with
  | c :: cols, v :: cs => (if c =? col then f v else v) :: assign f col cols cs
  | _, _ => cs
  end.

(** [df[col] = f(df[col])]. *)
Definition assign_column (f : Cell -> Cell) (col : string) (df : t) : t :=
  mk (columns df) (index_is_DatetimeIndex df)
     (map (fun r => mkRow (label r) (assign f col (columns df) (cells r))) (rows df)).

End ObjectFrame.

Module ObjectLoader.

Section Parsing.

(** The number a text spells, if it spells one. *)
Variable parse : string -> option Q.

(** [pd.to_numeric(., errors='coerce')] on a cell. *)
Definition to_numeric (c : ObjectFrame.Cell) : ObjectFrame.Cell :=
  match c with
  | ObjectFrame.Num x => ObjectFrame.Num x
  | ObjectFrame.NaN => ObjectFrame.NaN
  | ObjectFrame.Text s =>
    match parse s with
    | Some x => ObjectFrame.Num x
    | None => ObjectFrame.NaN
    end
  end.

Fixpoint check_columns (cols : list string) (df : ObjectFrame.t) : Outcome unit :=
  match cols with
  | [] => Ok tt
  | col :: cols =>
    if negb (ObjectFrame.has_column col df)
    then Raise (ValueError ("missing required column: " ++ col))
    else check_columns cols df
  end.

Definition validate (df : ObjectFrame.t) : Outcome ObjectFrame.t :=
  match check_columns DataLoader.REQUIRED_COLUMNS df with
  | Raise e => Raise e
  | Diverge => Diverge
  | Ok _ =>
    if negb (ObjectFrame.index_is_DatetimeIndex df)
    then Raise (ValueError "index must be a DatetimeIndex")
    else
      let df := ObjectFrame.sort_index df in
      let df := ObjectFrame.dropna DataLoader.REQUIRED_COLUMNS df in
      let df :=
        fold_left (fun df col => ObjectFrame.assign_column to_numeric col df)
                  DataLoader.REQUIRED_COLUMNS df in
      Ok df
  end.

End Parsing.

End ObjectLoader.

(** A required column label. *)
Definition required (c : string) : bool :=
  existsb (fun col => c =? col) DataLoader.REQUIRED_COLUMNS.

(** A row with a value, a number or text, under every required column. *)
Definition complete (columns : list string) (r : ObjectFrame.Row) : bool :=
  forallb (fun col =>
    negb (ObjectFrame.isna (ObjectFrame.cell_at columns (ObjectFrame.cells r) col)))
    DataLoader.REQUIRED_COLUMNS.

(** The cells of a row once the closing pass has gone over the five required
    columns. *)
Fixpoint coerce_cells (parse : string -> option Q) (cols : list string)
                      (cs : list ObjectFrame.Cell) : list ObjectFrame.Cell :=
  match cols, cs with
  | c :: cols, v :: cs =>
    (if required c then ObjectLoader.to_numeric parse v else v)
      :: coerce_cells parse cols cs
  | _, _ => cs
  end.

Definition coerce_row (parse : string -> option Q) (cols : list string)
                      (r : ObjectFrame.Row) : ObjectFrame.Row :=
  ObjectFrame.mkRow (ObjectFrame.label r) (coerce_cells parse cols (ObjectFrame.cells r)).

Definition coerced (parse : string -> option Q) (df : ObjectFrame.t) : ObjectFrame.t :=
  ObjectFrame.mk (ObjectFrame.columns df) (ObjectFrame.index_is_DatetimeIndex df)
                 (map (coerce_row parse (ObjectFrame.columns df)) (ObjectFrame.rows df)).

(** No text under a required column. *)
Fixpoint no_text (cols : list string) (cs : list ObjectFrame.Cell) : bool :=
  match cols, cs with
  | c :: cols, v :: cs =>
    (negb (required c) || match v with ObjectFrame.Text _ => false | _ => true end)
    && no_text cols cs
  | _, _ => true
  end.

Definition text_free (df : ObjectFrame.t) : Prop :=
  Forall (fun r => no_text (ObjectFrame.columns df) (ObjectFrame.cells r) = true)
         (ObjectFrame.rows df).

Lemma to_numeric_settles parse c :
  ObjectLoader.to_numeric parse (ObjectLoader.to_numeric parse c)
  = ObjectLoader.to_numeric parse c.
Proof.
  destruct c as [x| |s]; try reflexivity.
  cbn. destruct (parse s); reflexivity.
Qed.

Lemma to_numeric_no_text parse c :
  match ObjectLoader.to_numeric parse c with ObjectFrame.Text _ => false | _ => true end
  = true.
Proof.
  destruct c as [x| |s]; try reflexivity.
  cbn. destruct (parse s); reflexivity.
Qed.

(** The five assignments of the closing pass, cell by cell. *)
Lemma assign_required parse cols cs :
  fold_left (fun cs col =>
               ObjectFrame.assign (ObjectLoader.to_numeric parse) col cols cs)
            DataLoader.REQUIRED_COLUMNS cs
  = coerce_cells parse cols cs.
Proof.
  unfold DataLoader.REQUIRED_COLUMNS. cbn [fold_left].
  revert cs. induction cols as [|c cols IH]; intros cs.
  - destruct cs; reflexivity.
  - destruct cs as [|v cs]; [reflexivity|].
    cbn [ObjectFrame.assign coerce_cells]. rewrite IH. f_equal.
    unfold required, DataLoader.REQUIRED_COLUMNS. cbn [existsb].
    destruct (c =? "open"), (c =? "high"), (c =? "low"), (c =? "close"),
             (c =? "volume");
      cbn [orb]; rewrite ?to_numeric_settles; reflexivity.
Qed.

Lemma closing_pass parse df :
  fold_left (fun df col =>
               ObjectFrame.assign_column (ObjectLoader.to_numeric parse) col df)
            DataLoader.REQUIRED_COLUMNS df
  = coerced parse df.
Proof.
  unfold coerced. destruct df as [cols idx rows].
  cbn [ObjectFrame.columns ObjectFrame.index_is_DatetimeIndex ObjectFrame.rows].
  unfold DataLoader.REQUIRED_COLUMNS. cbn [fold_left].
  unfold ObjectFrame.assign_column.
  cbn [ObjectFrame.columns ObjectFrame.index_is_DatetimeIndex ObjectFrame.rows].
  f_equal. rewrite !map_map. apply map_ext. intros r.
  cbn [ObjectFrame.label ObjectFrame.cells]. unfold coerce_row. f_equal.
  rewrite <- assign_required. reflexivity.
Qed.

Lemma coerce_cells_no_text parse cols cs :
  no_text cols cs = true -> coerce_cells parse cols cs = cs.
Proof.
  revert cs. induction cols as [|c cols IH]; intros cs H; [destruct cs; reflexivity|].
  destruct cs as [|v cs]; [reflexivity|].
  cbn [no_text] in H. apply andb_true_iff in H as [Hv Hcs].
  cbn [coerce_cells]. rewrite (IH cs Hcs). f_equal.
  destruct (required c); [|reflexivity].
  destruct v; [reflexivity | reflexivity | discriminate Hv].
Qed.

Lemma coerce_cells_settled parse cols cs :
  no_text cols (coerce_cells parse cols cs) = true.
Proof.
  revert cs. induction cols as [|c cols IH]; intros cs; [destruct cs; reflexivity|].
  destruct cs as [|v cs]; [reflexivity|].
  cbn [coerce_cells no_text]. rewrite IH, andb_true_r.
  destruct (required c); [|reflexivity].
  cbn [negb orb]. apply to_numeric_no_text.
Qed.

Lemma coerce_rows_no_text parse cols rows :
  Forall (fun r => no_text cols (ObjectFrame.cells r) = true) rows ->
  map (coerce_row parse cols) rows = rows.
Proof.
  induction rows as [|r rows IH]; intros H; [reflexivity|].
  cbn [map]. rewrite (IH (Forall_inv_tail H)). f_equal.
  unfold coerce_row. rewrite (coerce_cells_no_text parse cols _ (Forall_inv H)).
  destruct r; reflexivity.
Qed.

Lemma coerced_text_free parse df : text_free df -> coerced parse df = df.
Proof.
  intros H. unfold coerced. rewrite (coerce_rows_no_text parse _ _ H).
  destruct df; reflexivity.
Qed.

Lemma coerced_settled parse df : text_free (coerced parse df).
Proof.
  unfold text_free, coerced.
  cbn [ObjectFrame.columns ObjectFrame.rows].
  apply Forall_forall. intros r Hin. apply in_map_iff in Hin as (r0 & <- & _).
  apply coerce_cells_settled.
Qed.

Lemma object_insert_row_permutation r rows :
  Permutation (ObjectFrame.insert_row r rows) (r :: rows).
Proof.
  induction rows as [|a rows IH]; [reflexivity|].
  cbn [ObjectFrame.insert_row].
  destruct (ObjectFrame.label a <=? ObjectFrame.label r)%Z; [|reflexivity].
  rewrite IH. apply perm_swap.
Qed.

Lemma object_sort_index_permutation df :
  Permutation (ObjectFrame.rows (ObjectFrame.sort_index df)) (ObjectFrame.rows df).
Proof.
  unfold ObjectFrame.sort_index. cbn [ObjectFrame.rows].
  assert (H : forall rows acc,
             Permutation (fold_left (fun acc r => ObjectFrame.insert_row r acc) rows acc)
                         (acc ++ rows)).
  { induction rows as [|r rows IH]; intros acc; cbn [fold_left].
    - rewrite app_nil_r. reflexivity.
    - rewrite IH, object_insert_row_permutation. apply Permutation_middle. }
  apply (H (ObjectFrame.rows df) []).
Qed.

Lemma filter_permutation {A} (f : A -> bool) l l' :
  Permutation l l' -> Permutation (filter f l) (filter f l').
Proof.
  induction 1 as [|x l l' _ IH|x y l|l l' l'' _ IH1 _ IH2]; cbn [filter].
  - reflexivity.
  - destruct (f x); [apply perm_skip|]; exact IH.
  - destruct (f x), (f y); try reflexivity. apply perm_swap.
  - etransitivity; eassumption.
Qed.

Lemma ascending_head a l :
  ascending (a :: l) = true ->
  Forall (fun x => (a <= x)%Z) l /\ ascending l = true.
Proof.
  revert a. induction l as [|b l IH]; intros a H; [split; [constructor | reflexivity]|].
  cbn [ascending] in H. apply andb_true_iff in H as [Hab Hl].
  apply Z.leb_le in Hab. split; [|exact Hl].
  constructor; [exact Hab|].
  destruct (IH b Hl) as [Hb _]. eapply Forall_impl; [|exact Hb].
  cbn. intros; lia.
Qed.

Lemma ascending_before xs y ys :
  ascending (xs ++ y :: ys) = true -> Forall (fun x => (x <= y)%Z) xs.
Proof.
  induction xs as [|x xs IH]; intros H; [constructor|].
  cbn [app] in H. destruct (ascending_head _ _ H) as [Hx Hrest].
  constructor; [|exact (IH Hrest)].
  apply Forall_app in Hx as [_ Hx]. exact (Forall_inv Hx).
Qed.

Lemma ascending_cons a l :
  Forall (fun x => (a <= x)%Z) l -> ascending l = true -> ascending (a :: l) = true.
Proof.
  intros Ha Hl. destruct l as [|b l]; [reflexivity|].
  cbn [ascending]. apply andb_true_iff. split; [|exact Hl].
  apply Z.leb_le. exact (Forall_inv Ha).
Qed.

Lemma ascending_filter_by {A} (key : A -> Z) (f : A -> bool) l :
  ascending (map key l) = true -> ascending (map key (filter f l)) = true.
Proof.
  induction l as [|a l IH]; intros H; [reflexivity|].
  cbn [map] in H. destruct (ascending_head _ _ H) as [Ha Hl].
  cbn [filter]. destruct (f a); [|exact (IH Hl)].
  cbn [map]. apply ascending_cons; [|exact (IH Hl)].
  apply Forall_forall. intros x Hin. apply in_map_iff in Hin as (y & <- & Hy).
  apply filter_In in Hy as [Hy _].
  rewrite Forall_forall in Ha. apply Ha. apply in_map. exact Hy.
Qed.

Lemma object_insert_row_ascending r sorted :
  ascending (map ObjectFrame.label sorted) = true ->
  ascending (map ObjectFrame.label (ObjectFrame.insert_row r sorted)) = true.
Proof.
  induction sorted as [|a rest IH]; intros Hs; [reflexivity|].
  cbn [map] in Hs. destruct (ascending_head _ _ Hs) as [Ha Hrest].
  cbn [ObjectFrame.insert_row].
  destruct (Z.leb_spec (ObjectFrame.label a) (ObjectFrame.label r)) as [Hle|Hlt].
  - cbn [map]. apply ascending_cons; [|exact (IH Hrest)].
    apply Forall_forall. intros x Hin.
    apply in_map_iff in Hin as (y & <- & Hy).
    apply (Permutation_in _ (object_insert_row_permutation r rest)) in Hy.
    destruct Hy as [<-|Hy]; [exact Hle|].
    rewrite Forall_forall in Ha. apply Ha. apply in_map. exact Hy.
  - cbn [map]. apply ascending_cons; [|exact Hs].
    constructor; [lia|]. eapply Forall_impl; [|exact Ha]. cbn. intros; lia.
Qed.

Lemma object_sort_index_ascending df :
  ascending (map ObjectFrame.label (ObjectFrame.rows (ObjectFrame.sort_index df))) = true.
Proof.
  unfold ObjectFrame.sort_index. cbn [ObjectFrame.rows].
  assert (H : forall rows acc,
             ascending (map ObjectFrame.label acc) = true ->
             ascending (map ObjectFrame.label
               (fold_left (fun acc r => ObjectFrame.insert_row r acc) rows acc)) = true).
  { induction rows as [|r rows IH]; intros acc Ha; [exact Ha|].
    cbn [fold_left]. apply IH. apply object_insert_row_ascending. exact Ha. }
  apply H. reflexivity.
Qed.

Lemma object_insert_row_last r rows :
  Forall (fun x => (x <= ObjectFrame.label r)%Z) (map ObjectFrame.label rows) ->
  ObjectFrame.insert_row r rows = (rows ++ [r])%list.
Proof.
  induction rows as [|a rows IH]; intros H; [reflexivity|].
  cbn [map] in H. cbn [ObjectFrame.insert_row].
  destruct (Z.leb_spec (ObjectFrame.label a) (ObjectFrame.label r)) as [_|Hlt].
  - rewrite (IH (Forall_inv_tail H)). reflexivity.
  - apply Forall_inv in H. lia.
Qed.

Lemma object_sort_index_of_ascending df :
  ascending (map ObjectFrame.label (ObjectFrame.rows df)) = true ->
  ObjectFrame.sort_index df = df.
Proof.
  intros Ha. unfold ObjectFrame.sort_index.
  assert (H : forall rows acc,
             ascending (map ObjectFrame.label (acc ++ rows)) = true ->
             fold_left (fun acc r => ObjectFrame.insert_row r acc) rows acc
             = (acc ++ rows)%list).
  { induction rows as [|r rows IH]; intros acc Hacc; cbn [fold_left].
    - symmetry. apply app_nil_r.
    - rewrite object_insert_row_last.
      + rewrite IH; [rewrite <- app_assoc; reflexivity|].
        rewrite <- app_assoc. exact Hacc.
      + rewrite map_app in Hacc. cbn [map] in Hacc.
        exact (ascending_before _ _ _ Hacc). }
  rewrite (H (ObjectFrame.rows df) [] Ha). destruct df; reflexivity.
Qed.

Lemma filter_idempotent {A} (f : A -> bool) l : filter f (filter f l) = filter f l.
Proof.
  induction l as [|x l IH]; [reflexivity|].
  cbn [filter]. destruct (f x) eqn:E; [|exact IH].
  cbn [filter]. rewrite E, IH. reflexivity.
Qed.

Definition object_lacks_column (df : ObjectFrame.t) : bool :=
  negb (forallb (fun col => ObjectFrame.has_column col df) DataLoader.REQUIRED_COLUMNS).

Lemma object_check_columns_ok cols df :
  ObjectLoader.check_columns cols df =
  match find (fun col => negb (ObjectFrame.has_column col df)) cols with
  | Some col => Raise (ValueError ("missing required column: " ++ col))
  | None => Ok tt
  end.
Proof.
  induction cols as [|col cols IH]; [reflexivity|].
  cbn [ObjectLoader.check_columns find].
  destruct (negb (ObjectFrame.has_column col df)); [reflexivity | exact IH].
Qed.

(** [validate] in one piece. *)
Lemma object_validate_unfold parse df :
  ObjectLoader.validate parse df =
  match find (fun col => negb (ObjectFrame.has_column col df))
             DataLoader.REQUIRED_COLUMNS with
  | Some col => Raise (ValueError ("missing required column: " ++ col))
  | None =>
    if ObjectFrame.index_is_DatetimeIndex df
    then Ok (coerced parse (ObjectFrame.dropna DataLoader.REQUIRED_COLUMNS
                                               (ObjectFrame.sort_index df)))
    else Raise (ValueError "index must be a DatetimeIndex")
  end.
Proof.
  unfold ObjectLoader.validate. rewrite object_check_columns_ok.
  destruct (find _ _) as [col|]; [reflexivity|].
  destruct (ObjectFrame.index_is_DatetimeIndex df); cbn [negb]; [|reflexivity].
  cbv zeta. rewrite closing_pass. reflexivity.
Qed.

Lemma object_validate_ok parse df df' :
  ObjectLoader.validate parse df = Ok df' ->
  df' = coerced parse (ObjectFrame.dropna DataLoader.REQUIRED_COLUMNS
                                          (ObjectFrame.sort_index df))
  /\ object_lacks_column df = false
  /\ ObjectFrame.index_is_DatetimeIndex df = true.
Proof.
  rewrite object_validate_unfold.
  destruct (find _ _) eqn:Hf; [discriminate|].
  destruct (ObjectFrame.index_is_DatetimeIndex df); [|discriminate].
  intros H. injection H as <-. split; [reflexivity|]. split; [|reflexivity].
  unfold object_lacks_column. apply negb_false_iff. apply find_none_forallb. exact Hf.
Qed.

Lemma coerce_row_label parse cols rows :
  map ObjectFrame.label (map (coerce_row parse cols) rows) = map ObjectFrame.label rows.
Proof. rewrite map_map. reflexivity. Qed.

(** What [validate] does to a table that is in order and holds no text under
    a required column: it drops the rows with a missing value. *)
Lemma object_validate_settled parse df :
  object_lacks_column df = false ->
  ObjectFrame.index_is_DatetimeIndex df = true ->
  ascending (map ObjectFrame.label (ObjectFrame.rows df)) = true ->
  text_free df ->
  ObjectLoader.validate parse df
  = Ok (ObjectFrame.dropna DataLoader.REQUIRED_COLUMNS df).
Proof.
  intros Hl Hi Ha Ht. rewrite object_validate_unfold.
  unfold object_lacks_column in Hl. apply negb_false_iff in Hl.
  apply find_none_forallb in Hl. rewrite Hl, Hi.
  rewrite (object_sort_index_of_ascending df Ha). f_equal.
  apply coerced_text_free. unfold text_free, ObjectFrame.dropna.
  cbn [ObjectFrame.columns ObjectFrame.rows].
  apply Forall_forall. intros r Hin. apply filter_In in Hin as [Hin _].
  unfold text_free in Ht. rewrite Forall_forall in Ht. exact (Ht r Hin).
Qed.

Lemma validate_sorted_columns parse df df' :
  ObjectLoader.validate parse df = Ok df' ->
  ObjectFrame.columns df' = ObjectFrame.columns df
  /\ ascending (map ObjectFrame.label (ObjectFrame.rows df')) = true.
Proof.
  intros H. destruct (object_validate_ok parse df df' H) as (-> & _ & _).
  split; [reflexivity|].
  unfold coerced, ObjectFrame.dropna. cbn [ObjectFrame.rows].
  rewrite coerce_row_label. apply ascending_filter_by.
  apply (object_sort_index_ascending df).
Qed.

(** A table of floats, as a table that could hold text. *)
Definition of_float (c : option Q) : ObjectFrame.Cell :=
  match c with
  | Some x => ObjectFrame.Num x
  | None => ObjectFrame.NaN
  end.

Definition of_float_row (r : DataFrame.Row) : ObjectFrame.Row :=
  ObjectFrame.mkRow (DataFrame.label r) (map of_float (DataFrame.cells r)).

Definition of_floats (df : DataFrame.t) : ObjectFrame.t :=
  ObjectFrame.mk (DataFrame.columns df) (DataFrame.index_is_DatetimeIndex df)
                 (map of_float_row (DataFrame.rows df)).

Lemma of_float_cell_at cols cs col :
  ObjectFrame.cell_at cols (map of_float cs) col
  = of_float (DataFrame.cell_at cols cs col).
Proof.
  revert cs. induction cols as [|c cols IH]; intros cs; [destruct cs; reflexivity|].
  destruct cs as [|v cs]; [reflexivity|].
  cbn [map ObjectFrame.cell_at DataFrame.cell_at].
  destruct (c =? col); [reflexivity | apply IH].
Qed.

Lemma of_float_no_text cols cs : no_text cols (map of_float cs) = true.
Proof.
  revert cs. induction cols as [|c cols IH]; intros cs; [destruct cs; reflexivity|].
  destruct cs as [|v cs]; [reflexivity|].
  cbn [map no_text]. rewrite IH, andb_true_r.
  destruct v; cbn; apply orb_true_r.
Qed.

Lemma of_float_insert_row r rows :
  ObjectFrame.insert_row (of_float_row r) (map of_float_row rows)
  = map of_float_row (DataFrame.insert_row r rows).
Proof.
  induction rows as [|a rows IH]; [reflexivity|].
  cbn [map ObjectFrame.insert_row DataFrame.insert_row].
  cbn [of_float_row ObjectFrame.label].
  destruct (DataFrame.label a <=? DataFrame.label r)%Z; [|reflexivity].
  cbn [map]. f_equal. exact IH.
Qed.

Lemma of_floats_sort_index df :
  ObjectFrame.sort_index (of_floats df) = of_floats (DataFrame.sort_index df).
Proof.
  unfold ObjectFrame.sort_index, DataFrame.sort_index, of_floats.
  cbn [ObjectFrame.columns ObjectFrame.index_is_DatetimeIndex ObjectFrame.rows
       DataFrame.columns DataFrame.index_is_DatetimeIndex DataFrame.rows].
  f_equal.
  assert (H : forall rows acc,
             fold_left (fun acc r => ObjectFrame.insert_row r acc)
                       (map of_float_row rows) (map of_float_row acc)
             = map of_float_row
                   (fold_left (fun acc r => DataFrame.insert_row r acc) rows acc)).
  { induction rows as [|r rows IH]; intros acc; [reflexivity|].
    cbn [map fold_left]. rewrite of_float_insert_row. apply IH. }
  apply (H (DataFrame.rows df) []).
Qed.

Lemma filter_map_commute {A B} (g : A -> B) (f : B -> bool) l :
  filter f (map g l) = map g (filter (fun a => f (g a)) l).
Proof.
  induction l as [|a l IH]; [reflexivity|].
  cbn [map filter]. destruct (f (g a)); cbn [map]; rewrite IH; reflexivity.
Qed.

Lemma forallb_pointwise {A} (f g : A -> bool) l :
  (forall a, f a = g a) -> forallb f l = forallb g l.
Proof.
  intros H. induction l as [|a l IH]; [reflexivity|].
  cbn [forallb]. rewrite H, IH. reflexivity.
Qed.

Lemma of_floats_dropna subset df :
  ObjectFrame.dropna subset (of_floats df) = of_floats (DataFrame.dropna subset df).
Proof.
  unfold ObjectFrame.dropna, DataFrame.dropna, of_floats.
  cbn [ObjectFrame.columns ObjectFrame.index_is_DatetimeIndex ObjectFrame.rows
       DataFrame.columns DataFrame.index_is_DatetimeIndex DataFrame.rows].
  f_equal. rewrite filter_map_commute. f_equal.
  apply filter_ext. intros r. apply forallb_pointwise. intros col.
  cbn [of_float_row ObjectFrame.cells]. rewrite of_float_cell_at.
  destruct (DataFrame.cell_at (DataFrame.columns df) (DataFrame.cells r) col);
    reflexivity.
Qed.

Lemma of_floats_text_free df : text_free (of_floats df).
Proof.
  unfold text_free, of_floats. cbn [ObjectFrame.columns ObjectFrame.rows].
  apply Forall_forall. intros r Hin. apply in_map_iff in Hin as (r0 & <- & _).
  apply of_float_no_text.
Qed.

(** On a table of floats the closing pass has nothing to do, and the two
    renderings of [validate] agree. *)
Lemma validate_of_floats parse df :
  ObjectLoader.validate parse (of_floats df) =
  match DataLoader.validate df with
  | Ok df' => Ok (of_floats df')
  | Raise e => Raise e
  | Diverge => Diverge
  end.
Proof.
  rewrite object_validate_unfold. unfold DataLoader.validate.
  rewrite check_columns_ok.
  change (fun col => negb (ObjectFrame.has_column col (of_floats df)))
    with (fun col => negb (DataFrame.has_column col df)).
  destruct (find _ _) as [col|]; [reflexivity|].
  change (ObjectFrame.index_is_DatetimeIndex (of_floats df))
    with (DataFrame.index_is_DatetimeIndex df).
  destruct (DataFrame.index_is_DatetimeIndex df); cbn [negb]; [|reflexivity].
  cbv zeta. rewrite of_floats_sort_index, of_floats_dropna.
  rewrite (coerced_text_free parse _ (of_floats_text_free _)). reflexivity.
Qed.

(** A table with a date out of order, a close that is the text "n/a" and a
    volume that is missing. *)
Definition text_frame : ObjectFrame.t :=
  ObjectFrame.mk ["open"; "high"; "low"; "close"; "volume"] true
    [ObjectFrame.mkRow 2 [ObjectFrame.Num 10; ObjectFrame.Num 12; ObjectFrame.Num 9;
                          ObjectFrame.Num 11; ObjectFrame.Num 5000];
     ObjectFrame.mkRow 1 [ObjectFrame.Num 10; ObjectFrame.Num 12; ObjectFrame.Num 9;
                          ObjectFrame.Text "n/a"; ObjectFrame.Num 5000];
     ObjectFrame.mkRow 3 [ObjectFrame.Num 10; ObjectFrame.Num 12; ObjectFrame.Num 9;
                          ObjectFrame.Num 11; ObjectFrame.NaN]].

(** A reading of text that knows no number. *)
Definition no_number (s : string) : option Q := None.

(** Validation neither invents nor loses data.  When [validate] returns,
    its rows are the rows of the input without a missing value under a
    required column, each as often as it occurred, in ascending order of
    timestamp; under a required column a text has been replaced by the number
    it spells, or by NaN when it spells none, and nothing else has changed.
    The columns are the same.  Of a table with no text under a required
    column the rows come back as they were. *)
Theorem validate_keeps_complete_rows (parse : string -> option Q)
    (df df' : ObjectFrame.t) :
  ObjectLoader.validate parse df = Ok df' ->
  ObjectFrame.columns df' = ObjectFrame.columns df
  /\ Permutation (ObjectFrame.rows df')
                 (map (coerce_row parse (ObjectFrame.columns df))
                      (filter (complete (ObjectFrame.columns df)) (ObjectFrame.rows df)))
  /\ ascending (map ObjectFrame.label (ObjectFrame.rows df')) = true
  /\ (length (ObjectFrame.rows df') <= length (ObjectFrame.rows df))%nat
  /\ (text_free df ->
      Permutation (ObjectFrame.rows df')
                  (filter (complete (ObjectFrame.columns df)) (ObjectFrame.rows df))).
Proof.
  intros H. destruct (object_validate_ok parse df df' H) as (-> & _ & _).
  unfold coerced, ObjectFrame.dropna.
  cbn [ObjectFrame.columns ObjectFrame.rows ObjectFrame.sort_index].
  fold (complete (ObjectFrame.columns df)).
  set (sorted := fold_left (fun acc r => ObjectFrame.insert_row r acc)
                           (ObjectFrame.rows df) []).
  assert (Hs : Permutation sorted (ObjectFrame.rows df))
    by apply (object_sort_index_permutation df).
  assert (Hperm : Permutation
            (map (coerce_row parse (ObjectFrame.columns df))
                 (filter (complete (ObjectFrame.columns df)) sorted))
            (map (coerce_row parse (ObjectFrame.columns df))
                 (filter (complete (ObjectFrame.columns df)) (ObjectFrame.rows df)))).
  { apply Permutation_map, filter_permutation, Hs. }
  split; [reflexivity|]. split; [exact Hperm|].
  split; [|split].
  - rewrite coerce_row_label. apply ascending_filter_by.
    apply (object_sort_index_ascending df).
  - rewrite (Permutation_length Hperm), length_map. apply filter_length_le.
  - intros Ht. rewrite Hperm. rewrite coerce_rows_no_text; [reflexivity|].
    apply Forall_forall. intros r Hin. apply filter_In in Hin as [Hin _].
    unfold text_free in Ht. rewrite Forall_forall in Ht. exact (Ht r Hin).
Qed.

(** Of the table with a text for a close, the rows dated 1 and 2 come back in
    that order, the text turned into NaN; the row with no volume is gone. *)
Lemma validate_keeps_complete_rows_witness :
  exists df',
    ObjectLoader.validate no_number text_frame = Ok df'
    /\ ascending (map ObjectFrame.label (ObjectFrame.rows df')) = true
    /\ map ObjectFrame.label (ObjectFrame.rows df') = [1; 2]%Z
    /\ ObjectFrame.cell_at (ObjectFrame.columns df')
         (ObjectFrame.cells (hd (ObjectFrame.mkRow 0 []) (ObjectFrame.rows df'))) "close"
       = ObjectFrame.NaN.
Proof.
  eexists. split; [reflexivity|].
  split; [|split; reflexivity].
  exact (proj1 (proj2 (proj2 (validate_keeps_complete_rows no_number text_frame _
                                                            eq_refl)))).
Defined.

(** Validation settles.  A table that [validate] returned holds no text
    under a required column; validating it again drops the rows in which a
    text spelled no number, and the table that comes of that is returned
    unchanged by every further validation.  When the first table had no text
    under a required column, the first validation already is the last: its
    result is returned unchanged when validated again. *)
Theorem validate_settles (parse : string -> option Q) (df df1 : ObjectFrame.t) :
  ObjectLoader.validate parse df = Ok df1 ->
  let df2 := ObjectFrame.dropna DataLoader.REQUIRED_COLUMNS df1 in
  text_free df1
  /\ ObjectLoader.validate parse df1 = Ok df2
  /\ ObjectLoader.validate parse df2 = Ok df2
  /\ (text_free df -> df2 = df1).
Proof.
  intros H df2.
  destruct (object_validate_ok parse df df1 H) as (Hdf & Hcols & Hidx).
  destruct (validate_sorted_columns parse df df1 H) as (Hc & Hasc).
  assert (Ht1 : text_free df1) by (rewrite Hdf; apply coerced_settled).
  assert (Hl1 : object_lacks_column df1 = false).
  { unfold object_lacks_column, ObjectFrame.has_column in *. rewrite Hc. exact Hcols. }
  assert (Hi1 : ObjectFrame.index_is_DatetimeIndex df1 = true).
  { rewrite Hdf. exact Hidx. }
  assert (Hdrop : ObjectFrame.dropna DataLoader.REQUIRED_COLUMNS df2 = df2).
  { unfold df2, ObjectFrame.dropna.
    cbn [ObjectFrame.columns ObjectFrame.rows ObjectFrame.index_is_DatetimeIndex].
    f_equal. apply filter_idempotent. }
  split; [exact Ht1|]. split; [|split].
  - apply object_validate_settled; assumption.
  - rewrite <- Hdrop at 2. apply object_validate_settled.
    + exact Hl1.
    + exact Hi1.
    + unfold df2, ObjectFrame.dropna. cbn [ObjectFrame.rows].
      apply ascending_filter_by. exact Hasc.
    + unfold text_free, df2, ObjectFrame.dropna.
      cbn [ObjectFrame.columns ObjectFrame.rows].
      apply Forall_forall. intros r Hin. apply filter_In in Hin as [Hin _].
      unfold text_free in Ht1. rewrite Forall_forall in Ht1. exact (Ht1 r Hin).
  - intros Ht. unfold df2. rewrite Hdf.
    assert (Hts : text_free (ObjectFrame.dropna DataLoader.REQUIRED_COLUMNS
                                                (ObjectFrame.sort_index df))).
    { unfold text_free, ObjectFrame.dropna, ObjectFrame.sort_index.
      cbn [ObjectFrame.columns ObjectFrame.rows].
      apply Forall_forall. intros r Hin. apply filter_In in Hin as [Hin _].
      apply (Permutation_in _ (object_sort_index_permutation df)) in Hin.
      unfold text_free in Ht. rewrite Forall_forall in Ht. exact (Ht r Hin). }
    rewrite (coerced_text_free parse _ Hts).
    unfold ObjectFrame.dropna.
    cbn [ObjectFrame.columns ObjectFrame.rows ObjectFrame.index_is_DatetimeIndex].
    f_equal. apply filter_idempotent.
Qed.

(** The table with a text for a close is not settled by one validation: the
    second drops the row whose close spelled no number, and the third changes
    nothing. *)
Lemma validate_settles_witness :
  exists df1 df2,
    ObjectLoader.validate no_number text_frame = Ok df1
    /\ ObjectLoader.validate no_number df1 = Ok df2
    /\ ObjectLoader.validate no_number df2 = Ok df2
    /\ map ObjectFrame.label (ObjectFrame.rows df1) = [1; 2]%Z
    /\ map ObjectFrame.label (ObjectFrame.rows df2) = [2]%Z.
Proof.
  eexists. eexists. split; [reflexivity|].
  split; [exact (proj1 (proj2 (validate_settles no_number text_frame _ eq_refl)))|].
  split; [exact (proj1 (proj2 (proj2 (validate_settles no_number text_frame _ eq_refl))))|].
  split; reflexivity.
Defined.

(** ** The history a strategy can read ([strategy/base.py]) *)

(** [l[start:stop]] for bounds that are not negative. *)
Definition slice {A} (l : list A) (start stop : Z) : list A :=
  firstn (Z.to_nat (stop - start)) (skipn (Z.to_nat start) l).

(** [StrategyContext.get_history(n)]: the last [n] bars up to and including
    the current one. *)
Definition get_history (ctx : Strategy.Context) (n : Z) : list Bar.t :=
  let start := Z.max 0 (Z.of_nat (Strategy.current_idx ctx) - n + 1) in
  let stop := (Z.of_nat (Strategy.current_idx ctx) + 1)%Z in
  slice (Strategy.data ctx) start stop.

(** No look-ahead.  While the current index points into the table,
    [get_history(n)] returns the most recent bars up to the current one and
    nothing after it: it is the tail of the table cut after the current bar.
    It has [n] bars when that many exist, all [current_idx + 1] bars otherwise,
    ends with the current bar when [n >= 1], and is empty when [n <= 0]. *)
Theorem get_history_has_no_lookahead (ctx : Strategy.Context) (n : Z) :
  (Strategy.current_idx ctx < length (Strategy.data ctx))%nat ->
  let seen := firstn (S (Strategy.current_idx ctx)) (Strategy.data ctx) in
  (exists older, seen = (older ++ get_history ctx n)%list)
  /\ length (get_history ctx n)
     = Z.to_nat (Z.min n (Z.of_nat (Strategy.current_idx ctx) + 1))
  /\ ((1 <= n)%Z ->
      nth_error (get_history ctx n) (length (get_history ctx n) - 1)
      = nth_error (Strategy.data ctx) (Strategy.current_idx ctx))
  /\ ((n <= 0)%Z -> get_history ctx n = []).
Proof.
  intros Hidx seen. unfold get_history, slice.
  set (idx := Strategy.current_idx ctx) in *.
  set (data := Strategy.data ctx) in *.
  set (s := Z.to_nat (Z.max 0 (Z.of_nat idx - n + 1))).
  assert (Hcount : Z.to_nat (Z.of_nat idx + 1 - Z.max 0 (Z.of_nat idx - n + 1))
                   = (S idx - s)%nat) by (unfold s; lia).
  rewrite Hcount.
  assert (Hcomm : firstn (S idx - s) (skipn s data) = skipn s seen).
  { destruct (Nat.le_gt_cases s (S idx)) as [Hle|Hgt]; unfold seen.
    - rewrite firstn_skipn_comm. f_equal. f_equal. lia.
    - replace (S idx - s)%nat with 0%nat by lia. rewrite firstn_O.
      symmetry. apply skipn_all2. rewrite length_firstn. lia. }
  rewrite Hcomm.
  assert (Hlen : length (skipn s seen)
                 = Z.to_nat (Z.min n (Z.of_nat idx + 1))).
  { rewrite length_skipn. unfold seen. rewrite length_firstn. unfold s. lia. }
  split; [exists (firstn s seen); symmetry; apply firstn_skipn|].
  split; [exact Hlen|]. split.
  - intros Hn. rewrite Hlen.
    rewrite nth_error_skipn. unfold seen.
    rewrite nth_error_firstn.
    replace (s + (Z.to_nat (Z.min n (Z.of_nat idx + 1)) - 1))%nat with idx
      by (unfold s; lia).
    destruct (Nat.ltb_spec idx (S idx)); [reflexivity | lia].
  - intros Hn. apply length_zero_iff_nil. rewrite Hlen. lia.
Qed.

Definition a_context : Strategy.Context :=
  Strategy.mkContext penny_bars 1 100 1.

(** On the second bar of the penny table, a history of 5 is the two bars
    seen so far. *)
Lemma get_history_has_no_lookahead_witness :
  length (get_history a_context 5) = 2%nat.
Proof.
  refine (proj1 (proj2 (get_history_has_no_lookahead a_context 5 _))).
  cbn. lia.
Defined.

(** ** Trade pairing and the trade metrics ([analysis/metrics.py]) *)

(** One round trip as [_pair_trades] records it. *)
Module Paired.
Record t : Type := mk {
  buy_date : Timestamp;
  sell_date : Timestamp;
  buy_price : Q;
  sell_price : Q;
  quantity : Z;
  pnl : Q;
  return_ : Q;
  holding_days : Z
}.
End Paired.

(** A float that may be the infinity the ratio falls back on. *)
Inductive Ratio : Type :=
| finite (q : Q)
| inf.

Module metrics.

(** [a / b] on floats: a zero divisor raises. *)
Definition truediv (a b : Q) : Outcome Q :=
  if Qeq_bool b 0 then Raise (ZeroDivisionError "float division by zero")
  else Ok (a / b).

Section Pairing.

(** The whole days in a difference of timestamps ([Timedelta.days]). *)
Variable days : Z -> Z.

(** The round trip a SELL row makes with the BUY row it closes.  The entries
    are computed in the order of the dictionary; the one for 'return' divides
    by the buy price and is the only one that can raise. *)
Definition pair_of (buy trade : Trade.t) : Outcome Paired.t :=
  let pnl := (Trade.price trade - Trade.price buy) * Py.of_int (Trade.quantity trade) in
  let pnl := pnl - (Trade.commission buy + Trade.commission trade) in
  match truediv (Trade.price trade - Trade.price buy) (Trade.price buy) with
  | Ok return_ =>
    Ok (Paired.mk (Trade.datetime buy) (Trade.datetime trade)
                  (Trade.price buy) (Trade.price trade) (Trade.quantity trade) pnl
                  return_
                  (days (Trade.datetime trade - Trade.datetime buy)))
  | Raise e => Raise e
  | Diverge => Diverge
  end.

(** The loop of [_pair_trades] over the rows still to come, with the open
    buys and the pairs made so far. *)
Fixpoint pair_loop (trades : list Trade.t) (buy_stack : list Trade.t)
                   (paired : list Paired.t) : Outcome (list Paired.t) :=
  match trades with
  | [] => Ok paired
  | trade :: trades =>
    if Trade.direction trade =? "BUY" then
      pair_loop trades (buy_stack ++ [trade]) paired
    else if Trade.direction trade =? "SELL" then
      match buy_stack with
      | buy :: buy_stack =>
        match pair_of buy trade with
        | Ok entry => pair_loop trades buy_stack (paired ++ [entry])
        | Raise e => Raise e
        | Diverge => Diverge
        end
      | [] => pair_loop trades buy_stack paired
      end
    else pair_loop trades buy_stack paired
  end.

Definition _pair_trades (trades : list Trade.t) : Outcome (list Paired.t) :=
  pair_loop trades [] [].

(** [sum(1 for t in paired if t['pnl'] > 0)]. *)
Definition profitable (paired : list Paired.t) : nat :=
  length (filter (fun t => Py.gtb (Paired.pnl t) 0) paired).

Definition win_rate (trades : list Trade.t) : Outcome Q :=
  match trades with
  | [] => Ok 0
  | _ =>
    match _pair_trades trades with
    | Ok [] => Ok 0
    | Ok paired =>
      Ok (inject_Z (Z.of_nat (profitable paired)) / inject_Z (Z.of_nat (length paired)))
    | Raise e => Raise e
    | Diverge => Diverge
    end
  end.

(** [np.mean] of a list that is not empty. *)
Definition mean (xs : list Q) : Q :=
  fold_left Qplus xs 0 / inject_Z (Z.of_nat (length xs)).

Definition profit_loss_ratio (trades : list Trade.t) : Outcome Ratio :=
  match _pair_trades trades with
  | Ok [] => Ok (finite 0)
  | Ok paired =>
    let profits := map Paired.pnl (filter (fun t => Py.gtb (Paired.pnl t) 0) paired) in
    let losses :=
      map (fun t => Py.abs (Paired.pnl t))
          (filter (fun t => Py.ltb (Paired.pnl t) 0) paired) in
    let avg_profit := match profits with [] => 0 | _ => mean profits end in
    let avg_loss := match losses with [] => 1 | _ => mean losses end in
    Ok (if Py.gtb avg_loss 0 then finite (avg_profit / avg_loss) else inf)
  | Raise e => Raise e
  | Diverge => Diverge
  end.

End Pairing.

End metrics.

Definition is_buy (trade : Trade.t) : bool := Trade.direction trade =? "BUY".
Definition is_sell (trade : Trade.t) : bool := Trade.direction trade =? "SELL".

(** A row whose price is zero: the divisor that makes the 'return' entry of
    a round trip raise. *)
Definition zero_priced (trade : Trade.t) : Prop := Trade.price trade == 0.

Lemma Ok_injective {A} (a b : A) : Ok a = Ok b -> a = b.
Proof. congruence. Qed.

Lemma truediv_spec a b :
  (b == 0 /\ metrics.truediv a b = Raise (ZeroDivisionError "float division by zero"))
  \/ (~ b == 0 /\ metrics.truediv a b = Ok (a / b)).
Proof.
  unfold metrics.truediv. destruct (Qeq_bool b 0) eqn:E.
  - left. split; [apply Qeq_bool_iff, E | reflexivity].
  - right. split; [|reflexivity]. intros H. apply Qeq_bool_iff in H. congruence.
Qed.

Lemma pair_of_spec days buy trade :
  (zero_priced buy
   /\ metrics.pair_of days buy trade = Raise (ZeroDivisionError "float division by zero"))
  \/ (~ zero_priced buy
      /\ exists entry, metrics.pair_of days buy trade = Ok entry
                      /\ Paired.buy_date entry = Trade.datetime buy
                      /\ Paired.buy_price entry = Trade.price buy).
Proof.
  unfold metrics.pair_of, zero_priced.
  destruct (truediv_spec (Trade.price trade - Trade.price buy) (Trade.price buy))
    as [[Hz ->]|[Hz ->]].
  - left. split; [exact Hz | reflexivity].
  - right. split; [exact Hz|]. eexists. repeat split.
Qed.

(** What the loop does, in each of its outcomes. *)
Lemma pair_loop_fifo days trades buy_stack paired :
  match metrics.pair_loop days trades buy_stack paired with
  | Ok out =>
    exists pairs,
      out = (paired ++ pairs)%list
      /\ map (fun pr => (Paired.buy_date pr, Paired.buy_price pr)) pairs
         = map (fun t => (Trade.datetime t, Trade.price t))
               (firstn (length pairs) (buy_stack ++ filter is_buy trades))
      /\ (length pairs <= length (filter is_sell trades))%nat
      /\ (length pairs <= length (buy_stack ++ filter is_buy trades))%nat
  | Raise e =>
    e = ZeroDivisionError "float division by zero"
    /\ Exists zero_priced (buy_stack ++ filter is_buy trades)
  | Diverge => False
  end.
Proof.
  revert buy_stack paired.
  induction trades as [|trade trades IH]; intros buy_stack paired.
  - exists []. cbn. rewrite app_nil_r. repeat split; lia.
  - cbn [metrics.pair_loop filter].
    change (Trade.direction trade =? "BUY") with (is_buy trade).
    change (Trade.direction trade =? "SELL") with (is_sell trade).
    destruct (is_buy trade) eqn:Eb.
    + specialize (IH (buy_stack ++ [trade])%list paired).
      rewrite <- app_assoc in IH. cbn [app] in IH.
      destruct (metrics.pair_loop days trades (buy_stack ++ [trade]) paired)
        as [out|e|]; [|exact IH|exact IH].
      destruct IH as (pairs & Hp & Hm & Hs & Hb).
      exists pairs. split; [exact Hp|]. split; [exact Hm|]. split; [|exact Hb].
      destruct (is_sell trade); cbn [length]; lia.
    + destruct (is_sell trade) eqn:Es.
      * destruct buy_stack as [|buy buy_stack].
        -- specialize (IH [] paired).
           destruct (metrics.pair_loop days trades [] paired) as [out|e|];
             [|exact IH|exact IH].
           destruct IH as (pairs & Hp & Hm & Hs & Hb).
           exists pairs. split; [exact Hp|]. split; [exact Hm|].
           split; [cbn [length]; lia | exact Hb].
        -- destruct (pair_of_spec days buy trade) as [[Hz ->]|[Hz (entry & -> & Hd & Hpr)]].
           ++ split; [reflexivity|]. apply Exists_cons_hd. exact Hz.
           ++ specialize (IH buy_stack (paired ++ [entry])%list).
              destruct (metrics.pair_loop days trades buy_stack (paired ++ [entry]))
                as [out|e|].
              ** destruct IH as (pairs & Hp & Hm & Hs & Hb).
                 exists (entry :: pairs).
                 split; [rewrite Hp, <- app_assoc; reflexivity|].
                 split; [cbn [length map firstn app]; rewrite Hm, Hd, Hpr; reflexivity|].
                 split; cbn [length app]; lia.
              ** destruct IH as [He Hex]. split; [exact He|].
                 apply Exists_cons_tl. exact Hex.
              ** exact IH.
      * specialize (IH buy_stack paired).
        destruct (metrics.pair_loop days trades buy_stack paired) as [out|e|];
          [|exact IH|exact IH].
        destruct IH as (pairs & Hp & Hm & Hs & Hb).
        exists pairs. repeat split; assumption.
Qed.

(** With no zero-priced BUY in the history, the pairing returns. *)
Lemma pair_trades_returns days trades :
  Forall (fun t => ~ zero_priced t) (filter is_buy trades) ->
  exists paired, metrics._pair_trades days trades = Ok paired.
Proof.
  intros Hall. unfold metrics._pair_trades.
  pose proof (pair_loop_fifo days trades [] []) as H. cbn [app] in H.
  destruct (metrics.pair_loop days trades [] []) as [out|e|].
  - eauto.
  - destruct H as [_ Hex]. apply Exists_exists in Hex as (t & Hin & Hz).
    rewrite Forall_forall in Hall. destruct (Hall t Hin Hz).
  - destruct H.
Qed.

(** A bought-at-10, sold-at-12 round trip, and a position bought for
    nothing and sold at 12. *)
Definition round_trip : list Trade.t :=
  [Trade.mk 1 "600519" "BUY" 10 100 5 0; Trade.mk 3 "600519" "SELL" 12 100 6 0].

Definition free_round_trip : list Trade.t :=
  [Trade.mk 1 "600519" "BUY" 0 100 5 0; Trade.mk 3 "600519" "SELL" 12 100 6 0].

(** First in, first out.  When [_pair_trades] returns, the k-th round trip
    it made closes the k-th BUY of the trade history, whatever the
    quantities, and there are no more round trips than BUYs, nor than SELLs.
    It returns whenever no BUY of the history has price 0.  It never runs
    forever, and the only exception it raises is the [ZeroDivisionError] of
    the 'return' entry, which takes a BUY at price 0 in the history: the
    history bought at 0 and sold at 12 raises it. *)
Theorem pairing_is_first_in_first_out (days : Z -> Z) (trades : list Trade.t) :
  (forall paired, metrics._pair_trades days trades = Ok paired ->
     map (fun pr => (Paired.buy_date pr, Paired.buy_price pr)) paired
     = map (fun t => (Trade.datetime t, Trade.price t))
           (firstn (length paired) (filter is_buy trades))
     /\ (length paired <= length (filter is_buy trades))%nat
     /\ (length paired <= length (filter is_sell trades))%nat)
  /\ (Forall (fun t => ~ zero_priced t) (filter is_buy trades) ->
      exists paired, metrics._pair_trades days trades = Ok paired)
  /\ (forall e, metrics._pair_trades days trades = Raise e ->
        e = ZeroDivisionError "float division by zero"
        /\ Exists zero_priced (filter is_buy trades))
  /\ metrics._pair_trades days trades <> Diverge
  /\ metrics._pair_trades days free_round_trip
     = Raise (ZeroDivisionError "float division by zero").
Proof.
  pose proof (pair_loop_fifo days trades [] []) as H. cbn [app] in H.
  fold (metrics._pair_trades days trades) in H.
  split; [|split; [|split; [|split]]].
  - intros paired E. rewrite E in H.
    destruct H as (pairs & Hp & Hm & Hs & Hb). cbn [app] in Hp. subst pairs.
    repeat split; assumption.
  - apply pair_trades_returns.
  - intros e E. rewrite E in H. exact H.
  - intros E. rewrite E in H. exact H.
  - reflexivity.
Qed.

Lemma pairing_is_first_in_first_out_witness :
  exists paired,
    metrics._pair_trades (fun d => d) round_trip = Ok paired
    /\ map (fun pr => (Paired.buy_date pr, Paired.buy_price pr)) paired
       = map (fun t => (Trade.datetime t, Trade.price t))
             (firstn (length paired) (filter is_buy round_trip))
    /\ length paired = 1%nat.
Proof.
  destruct (proj1 (proj2 (pairing_is_first_in_first_out (fun d => d) round_trip)))
    as [paired E].
  - repeat constructor; unfold zero_priced; cbn; discriminate.
  - exists paired. split; [exact E|].
    split; [exact (proj1 (proj1 (pairing_is_first_in_first_out (fun d => d) round_trip)
                                 paired E))|].
    vm_compute in E. injection E as <-. reflexivity.
Defined.

Lemma ratio_of_counts (a b : nat) :
  (a <= b)%nat -> (0 < b)%nat ->
  0 <= inject_Z (Z.of_nat a) / inject_Z (Z.of_nat b) <= 1.
Proof.
  intros Hab Hb.
  assert (HbQ : 0 < inject_Z (Z.of_nat b)).
  { change 0 with (inject_Z 0). rewrite <- Zlt_Qlt. lia. }
  split.
  - apply Qle_shift_div_l; [exact HbQ|]. rewrite Qmult_0_l.
    change 0 with (inject_Z 0). rewrite <- Zle_Qle. lia.
  - apply Qle_shift_div_r; [exact HbQ|]. rewrite Qmult_1_l.
    rewrite <- Zle_Qle. lia.
Qed.

(** The win rate is a proportion.  Whenever [win_rate] returns, its value
    lies between 0 and 1, and it is 0 when no round trip was completed.  It
    returns for every history without a BUY at price 0; it raises exactly
    when the pairing does. *)
Theorem win_rate_is_a_proportion (days : Z -> Z) (trades : list Trade.t) :
  (forall w, metrics.win_rate days trades = Ok w ->
     0 <= w <= 1
     /\ (metrics._pair_trades days trades = Ok [] -> w = 0))
  /\ (Forall (fun t => ~ zero_priced t) (filter is_buy trades) ->
      exists w, metrics.win_rate days trades = Ok w)
  /\ (forall e, metrics.win_rate days trades = Raise e ->
        trades <> [] /\ metrics._pair_trades days trades = Raise e)
  /\ metrics.win_rate days trades <> Diverge.
Proof.
  pose proof (pair_loop_fifo days trades [] []) as Hloop. cbn [app] in Hloop.
  fold (metrics._pair_trades days trades) in Hloop.
  assert (Hret : Forall (fun t => ~ zero_priced t) (filter is_buy trades) ->
                 exists paired, metrics._pair_trades days trades = Ok paired)
    by apply pair_trades_returns.
  unfold metrics.win_rate.
  destruct trades as [|t trades].
  { split; [|split; [|split]].
    - intros w E. injection E as <-. split; [split; discriminate | reflexivity].
    - intros _. eauto.
    - discriminate.
    - discriminate. }
  destruct (metrics._pair_trades days (t :: trades)) as [[|pr paired]|e|].
  - split; [|split; [|split]]; try discriminate.
    + intros w E. injection E as <-. split; [split; discriminate | reflexivity].
    + intros _. eauto.
  - split; [|split; [|split]]; try discriminate.
    + intros w E. injection E as <-. split; [|discriminate].
      apply (ratio_of_counts (metrics.profitable (pr :: paired))
                             (length (pr :: paired)));
        [apply filter_length_le | cbn; lia].
    + intros _. eauto.
  - split; [|split; [|split]]; try discriminate.
    + intros H. destruct (Hret H) as [paired E]. discriminate E.
    + intros e' E. injection E as <-. split; [discriminate | reflexivity].
  - destruct Hloop.
Qed.

Lemma win_rate_is_a_proportion_witness :
  exists w, metrics.win_rate (fun d => d) round_trip = Ok w /\ 0 <= w <= 1.
Proof.
  exists 1. split; [reflexivity|].
  exact (proj1 (proj1 (win_rate_is_a_proportion (fun d => d) round_trip) 1 eq_refl)).
Defined.

Lemma sum_of_positives xs acc :
  Forall (fun x => 0 < x) xs ->
  acc <= fold_left Qplus xs acc /\ (xs <> [] -> acc < fold_left Qplus xs acc).
Proof.
  revert acc. induction xs as [|x xs IH]; intros acc H.
  - split; [apply Qle_refl | congruence].
  - cbn [fold_left]. pose proof (Forall_inv H) as Hx. cbn beta in Hx.
    destruct (IH (acc + x) (Forall_inv_tail H)) as [Hle _].
    split; [|intros _]; lra.
Qed.

Lemma mean_of_positives xs :
  Forall (fun x => 0 < x) xs -> xs <> [] -> 0 < metrics.mean xs.
Proof.
  intros H Hne. unfold metrics.mean.
  apply Qlt_shift_div_l.
  - change 0 with (inject_Z 0). rewrite <- Zlt_Qlt.
    destruct xs; [congruence | cbn; lia].
  - rewrite Qmult_0_l. apply (sum_of_positives xs 0 H). exact Hne.
Qed.

(** The profit/loss ratio is never the infinity its last line provides for.
    Whenever [profit_loss_ratio] returns, the average loss was an average of
    positive amounts, or 1 when there was no loss, so the result is a finite
    number, and it is not negative.  It returns for every history without a
    BUY at price 0; it raises exactly when the pairing does. *)
Theorem profit_loss_ratio_is_finite (days : Z -> Z) (trades : list Trade.t) :
  (forall r, metrics.profit_loss_ratio days trades = Ok r ->
     exists q, r = finite q /\ 0 <= q)
  /\ (Forall (fun t => ~ zero_priced t) (filter is_buy trades) ->
      exists r, metrics.profit_loss_ratio days trades = Ok r)
  /\ (forall e, metrics.profit_loss_ratio days trades = Raise e ->
        metrics._pair_trades days trades = Raise e)
  /\ metrics.profit_loss_ratio days trades <> Diverge.
Proof.
  pose proof (pair_loop_fifo days trades [] []) as Hloop. cbn [app] in Hloop.
  fold (metrics._pair_trades days trades) in Hloop.
  assert (Hret : Forall (fun t => ~ zero_priced t) (filter is_buy trades) ->
                 exists paired, metrics._pair_trades days trades = Ok paired)
    by apply pair_trades_returns.
  unfold metrics.profit_loss_ratio.
  destruct (metrics._pair_trades days trades) as [[|pr paired]|e|].
  - split; [|split; [|split]]; try discriminate.
    + intros r E. injection E as <-. exists 0. split; [reflexivity | discriminate].
    + intros _. eauto.
  - split; [|split; [|split]]; try discriminate; [|intros _; eauto].
    intros r E. apply Ok_injective in E. subst r.
    set (pairs := pr :: paired).
    set (profits := map Paired.pnl (filter (fun t => Py.gtb (Paired.pnl t) 0) pairs)).
    set (losses := map (fun t => Py.abs (Paired.pnl t))
                       (filter (fun t => Py.ltb (Paired.pnl t) 0) pairs)).
    assert (Hprofits : Forall (fun x => 0 < x) profits).
    { unfold profits. apply Forall_forall. intros x Hin.
      apply in_map_iff in Hin as (t & <- & Hin).
      apply filter_In in Hin as [_ Hgt]. apply Py_gtb_gt in Hgt. exact Hgt. }
    assert (Hlosses : Forall (fun x => 0 < x) losses).
    { unfold losses. apply Forall_forall. intros x Hin.
      apply in_map_iff in Hin as (t & <- & Hin).
      apply filter_In in Hin as [_ Hlt]. apply Py_ltb_lt in Hlt.
      unfold Py.abs. rewrite Qabs_neg by (apply Qlt_le_weak, Hlt). lra. }
    assert (Hloss : 0 < match losses with [] => 1 | _ => metrics.mean losses end).
    { destruct losses as [|l losses'] eqn:E; [reflexivity|].
      apply mean_of_positives; [exact Hlosses | discriminate]. }
    assert (Hprofit : 0 <= match profits with [] => 0 | _ => metrics.mean profits end).
    { destruct profits as [|x profits'] eqn:E; [discriminate|].
      apply Qlt_le_weak, mean_of_positives; [exact Hprofits | discriminate]. }
    apply Py_gtb_gt in Hloss as Hb. rewrite Hb.
    eexists. split; [reflexivity|].
    apply Qle_shift_div_l; [exact Hloss|]. rewrite Qmult_0_l. exact Hprofit.
  - split; [|split; [|split]]; try discriminate.
    + intros H. destruct (Hret H) as [paired E]. discriminate E.
    + intros e' E. injection E as <-. reflexivity.
  - destruct Hloop.
Qed.

Lemma profit_loss_ratio_is_finite_witness :
  exists q, metrics.profit_loss_ratio (fun d => d) round_trip = Ok (finite q) /\ 0 <= q.
Proof.
  destruct (proj1 (profit_loss_ratio_is_finite (fun d => d) round_trip)
                  (finite (189 # 1)) eq_refl) as (q & E & Hq).
  exists q. split; [|exact Hq].
  injection E as <-. reflexivity.
Defined.

(** ** More on sizing and slippage *)

(** The default BUY size keeps its promise on the price side: on a bar with
    a positive close the quantity computed is never negative, it is a whole
    number of 100-share lots in market "A", and at the close price it costs no
    more than 95% of the cash. *)
Theorem default_buy_size_within_budget {St} (signal : SignalEvent.t) (bar : Bar.t)
    (e : BacktestEngine.t St) (quantity : Z) :
  SignalEvent.direction signal <> "SELL" ->
  0 < Bar.close bar ->
  result (BacktestEngine._calculate_order_quantity signal bar) e = Ok quantity ->
  (0 <= quantity)%Z
  /\ (BacktestEngine.market e = "A" -> (quantity mod 100 = 0)%Z)
  /\ ((0 < quantity)%Z ->
      Py.of_int quantity * Bar.close bar
      <= (95 # 100) * Portfolio.cash (BacktestEngine.portfolio e)).
Proof.
  intros Hd Hc Hq. unfold result in Hq. rewrite calculate_order_quantity_reads in Hq.
  cbn [fst] in Hq. apply String.eqb_neq in Hd. rewrite Hd in Hq.
  apply Py_leb_gt in Hc as Hc'. rewrite Hc' in Hq. cbv zeta in Hq.
  injection Hq as <-.
  set (x := Portfolio.cash (BacktestEngine.portfolio e) * (95 # 100) / Bar.close bar).
  set (lot := if BacktestEngine.market e =? "A"
              then (Py.int x / 100 * 100)%Z else Py.int x).
  split; [lia|]. split.
  - intros Hm. unfold lot. rewrite Hm. cbn [String.eqb Ascii.eqb Bool.eqb].
    destruct (Z.max_spec (Py.int x / 100 * 100) 0) as [[_ ->]|[_ ->]];
      [reflexivity | apply Z.mod_mul; lia].
  - intros Hpos.
    assert (Hlot : (0 < lot)%Z) by lia.
    rewrite Z.max_l in * by lia.
    assert (Hx : 0 <= x).
    { destruct (Qlt_le_dec x 0) as [Hneg|Hge]; [|exact Hge].
      destruct (Py_int_neg x Hneg) as [Hi _]. exfalso. unfold lot in Hlot.
      destruct (BacktestEngine.market e =? "A"); [|lia].
      revert Hlot. Z.div_mod_to_equations. lia. }
    destruct (Py_int_nonneg x Hx) as [Hi Hf].
    assert (Hle : (lot <= Qfloor x)%Z).
    { unfold lot. rewrite Hi. destruct (BacktestEngine.market e =? "A"); [|lia].
      Z.div_mod_to_equations. lia. }
    assert (HleQ : Py.of_int lot <= x).
    { apply Qle_trans with (inject_Z (Qfloor x)); [|apply Qfloor_le].
      unfold Py.of_int. rewrite <- Zle_Qle. exact Hle. }
    assert (Hmul : Py.of_int lot * Bar.close bar <= x * Bar.close bar).
    { apply Qmult_le_compat_r; [exact HleQ | apply Qlt_le_weak, Hc]. }
    assert (Hxc : x * Bar.close bar
                  == (95 # 100) * Portfolio.cash (BacktestEngine.portfolio e)).
    { unfold x. field. intros E. rewrite E in Hc. exact (Qlt_irrefl 0 Hc). }
    rewrite <- Hxc. exact Hmul.
Qed.

Lemma default_buy_size_within_budget_witness :
  Py.of_int 8600 * Bar.close a_bar
  <= (95 # 100) * Portfolio.cash (BacktestEngine.portfolio a_engine).
Proof.
  refine (proj2 (proj2 (default_buy_size_within_budget
            (SignalEvent.mk 1 "600519" "BUY" 0 "MARKET" None) a_bar a_engine 8600
            _ _ _)) _).
  - discriminate.
  - reflexivity.
  - vm_compute. reflexivity.
  - reflexivity.
Defined.

(** Slippage works against the trader.  With a slippage fraction that is
    not negative and a base price that is not negative, the BUY price is at or
    above the base price rounded to four decimals, the SELL price at or below
    it; each is within 0.00005 of the exact slipped price. *)
Theorem slippage_moves_against_the_trader (p : Portfolio.t) (price : Q)
    (buy_price sell_price : Q) :
  0 <= Portfolio.slippage p ->
  0 <= price ->
  result (Portfolio.calculate_slippage price "BUY") p = Ok buy_price ->
  result (Portfolio.calculate_slippage price "SELL") p = Ok sell_price ->
  sell_price <= Py.round price 4 <= buy_price
  /\ Qabs (buy_price - price * (1 + Portfolio.slippage p)) <= 1 # 20000
  /\ Qabs (sell_price - price * (1 - Portfolio.slippage p)) <= 1 # 20000.
Proof.
  intros Hs Hp Hb Hsell. unfold result in Hb, Hsell.
  rewrite calculate_slippage_reads in Hb, Hsell. cbn in Hb, Hsell.
  injection Hb as <-. injection Hsell as <-.
  assert (Hmul : 0 <= price * Portfolio.slippage p)
    by (apply Qmult_le_0_compat; assumption).
  split; [split; apply Py_round_monotone; lra|].
  split; apply (Py_round_error _ 4).
Qed.

Lemma slippage_moves_against_the_trader_witness :
  slipped a_portfolio 11 "SELL" <= Py.round 11 4 <= slipped a_portfolio 11 "BUY".
Proof.
  refine (proj1 (slippage_moves_against_the_trader a_portfolio 11 _ _ _ _
                   eq_refl eq_refl)).
  - vm_compute. discriminate.
  - vm_compute. discriminate.
Defined.

(** ** Fills the ledger turns down *)

Lemma set_portfolio_same {St} (e : BacktestEngine.t St) :
  BacktestEngine.set_portfolio (BacktestEngine.portfolio e) e = e.
Proof. destruct e; reflexivity. Qed.

Lemma execute_fill_rejected_same fill p :
  result (Portfolio.execute_fill fill) p = Ok false ->
  final (Portfolio.execute_fill fill) p = p.
Proof.
  unfold result, final. rewrite execute_fill_unfold. cbv zeta.
  destruct (FillEvent.direction fill =? "BUY").
  - destruct (Py.gtb _ _); cbn; [reflexivity | discriminate].
  - destruct (FillEvent.direction fill =? "SELL"); [|cbn; discriminate].
    destruct (_ >? _)%Z; cbn; [reflexivity | discriminate].
Qed.

(** The engine does not look at what [execute_fill] returns.  A fill that
    the ledger turns down (the checks of the broker were made against an
    earlier state of the portfolio) changes nothing in the engine, and the
    strategy's [on_order_filled] is still called with it, exactly as for an
    accepted fill. *)
Theorem rejected_fill_still_notifies {St} (fill : FillEvent.t)
    (e : BacktestEngine.t St) :
  result (Portfolio.execute_fill fill) (BacktestEngine.portfolio e) = Ok false ->
  BacktestEngine._handle_fill fill e
  = BacktestEngine.hook
      (fun ctx => Strategy.on_order_filled (BacktestEngine.strategy e) ctx fill) e.
Proof.
  intros H. rewrite handle_fill_unfold. cbv zeta.
  rewrite (execute_fill_rejected_same _ _ H), set_portfolio_same. reflexivity.
Qed.

(** The fill the broker emits for a second BUY of 100 shares placed on the
    first bar of the penny run, checked against the 10 in cash from before the
    first BUY and applied after it, with 1 in cash left. *)
Definition stale_fill : FillEvent.t :=
  fill_at (BacktestEngine.portfolio penny_engine)
          (OrderEvent.mk 1 "000001" "BUY" "MARKET" 100 None) (4 # 100).

Lemma rejected_fill_still_notifies_witness :
  result (SimulatedBroker.execute_order
            (OrderEvent.mk 1 "000001" "BUY" "MARKET" 100 None)
            (Bar.mk 1 (4 # 100) (4 # 100) (4 # 100) (4 # 100) 1000))
         (SimulatedBroker.__init__, BacktestEngine.portfolio penny_engine)
  = Ok (Some stale_fill)
  /\ BacktestEngine._handle_fill stale_fill penny_engine_after_buy
     = BacktestEngine.hook
         (fun ctx => Strategy.on_order_filled
                       (BacktestEngine.strategy penny_engine_after_buy) ctx stale_fill)
         penny_engine_after_buy.
Proof.
  split; [vm_compute; reflexivity|].
  apply (rejected_fill_still_notifies stale_fill penny_engine_after_buy).
  vm_compute. reflexivity.
Defined.

(** ** Only buys and sells are recorded *)

Definition buy_or_sell (direction : string) : Prop :=
  direction = "BUY" \/ direction = "SELL".

(** Events as the engine's own handlers make them. *)
Definition regular (event : Event) : Prop :=
  match event with
  | MARKET _ => True
  | SIGNAL signal => buy_or_sell (SignalEvent.direction signal)
  | ORDER order =>
    (0 < OrderEvent.quantity order)%Z /\ buy_or_sell (OrderEvent.direction order)
  | FILL fill =>
    (0 < FillEvent.quantity fill)%Z /\ buy_or_sell (FillEvent.direction fill)
  end.

Definition regular_trade (trade : Trade.t) : Prop :=
  (0 < Trade.quantity trade)%Z /\ buy_or_sell (Trade.direction trade).

Definition regular_engine {St} (e : BacktestEngine.t St) : Prop :=
  Forall regular (BacktestEngine.event_queue e)
  /\ Forall regular_trade (Portfolio.trades (BacktestEngine.portfolio e)).

(** A handler that leaves the ledger alone and adds regular events only. *)
Definition adds_regular {St} (e e' : BacktestEngine.t St) : Prop :=
  BacktestEngine.portfolio e' = BacktestEngine.portfolio e
  /\ exists events,
       BacktestEngine.event_queue e' = (BacktestEngine.event_queue e ++ events)%list
       /\ Forall regular events.

Lemma adds_regular_refl {St} (e : BacktestEngine.t St) : adds_regular e e.
Proof.
  split; [reflexivity|]. exists []. split; [symmetry; apply app_nil_r | constructor].
Qed.

Lemma adds_regular_trans {St} (e1 e2 e3 : BacktestEngine.t St) :
  adds_regular e1 e2 -> adds_regular e2 e3 -> adds_regular e1 e3.
Proof.
  intros (Hp1 & ev1 & Hq1 & Hs1) (Hp2 & ev2 & Hq2 & Hs2).
  split; [congruence|]. exists (ev1 ++ ev2)%list. split.
  - rewrite Hq2, Hq1. symmetry. apply app_assoc.
  - apply Forall_app. split; assumption.
Qed.

Lemma adds_regular_keeps {St} (e e' : BacktestEngine.t St) :
  adds_regular e e' -> regular_engine e -> regular_engine e'.
Proof.
  intros (Hp & ev & Hq & Hs) [Hf Ht]. split.
  - rewrite Hq. apply Forall_app. split; assumption.
  - rewrite Hp. exact Ht.
Qed.

Lemma place_adds_regular {St} (c : Strategy.Call) (e : BacktestEngine.t St) :
  adds_regular e (final (BacktestEngine.place c) e).
Proof.
  unfold final, BacktestEngine.place, BacktestEngine.get_current_bar.
  destruct c; run_monad;
    (destruct (nth_error _ _); cbn [snd]; [|apply adds_regular_refl];
     split; [reflexivity|]; eexists; split; [reflexivity|];
     constructor; [|constructor]; cbn; unfold buy_or_sell; auto).
Qed.

Lemma place_all_adds_regular {St} (cs : list Strategy.Call) (e : BacktestEngine.t St) :
  adds_regular e (final (BacktestEngine.place_all cs) e).
Proof.
  revert e. induction cs as [|c cs IH]; intros e; [apply adds_regular_refl|].
  cbn [BacktestEngine.place_all].
  pose proof (place_adds_regular c e) as Hc.
  apply bind_final; [exact Hc|].
  intros _ _. eapply adds_regular_trans; [exact Hc | apply IH].
Qed.

Lemma hook_adds_regular {St} h (e : BacktestEngine.t St) :
  adds_regular e (final (BacktestEngine.hook h) e).
Proof.
  unfold final. rewrite hook_unfold. cbv zeta.
  set (e1 := BacktestEngine.set_strategy_self _ e).
  pose proof (place_all_adds_regular
                (Strategy.calls (h (BacktestEngine.context e)
                                   (BacktestEngine.strategy_self e))) e1) as Hp.
  unfold final in Hp.
  destruct (BacktestEngine.place_all _ e1) as [[[]| |] e2]; cbn [snd] in *; exact Hp.
Qed.

Lemma process_event_regular {St} event bar (e : BacktestEngine.t St) :
  regular event ->
  regular_engine e ->
  regular_engine (final (BacktestEngine._process_event event bar) e).
Proof.
  intros Hev He. destruct event as [m|s|o|f]; cbn [BacktestEngine._process_event].
  - unfold BacktestEngine._handle_market, final. unfold bind, get.
    eapply adds_regular_keeps; [|exact He].
    apply (hook_adds_regular
             (fun ctx => Strategy.on_bar (BacktestEngine.strategy e) ctx bar) e).
  - unfold final. rewrite handle_signal_unfold. cbv zeta. cbn [snd].
    match goal with |- context [(?q <=? 0)%Z] =>
      destruct (Z.leb_spec q 0) as [Hq|Hq]
    end; [exact He|].
    eapply adds_regular_keeps; [|exact He].
    split; [reflexivity|]. eexists. split; [reflexivity|].
    constructor; [|constructor]. split; [exact Hq | exact Hev].
  - unfold final. rewrite handle_order_unfold. cbv zeta.
    destruct Hev as [Hq Hd]. destruct He as [Hf Ht].
    destruct (SimulatedBroker.base_fill_price o bar) as [[fp|]|x|];
      cbn [snd]; try (split; assumption).
    destruct (funds_check _ o fp) as [fill|] eqn:E; cbn [snd];
      [|split; assumption].
    split; [|exact Ht].
    cbn [enqueue BacktestEngine.event_queue BacktestEngine.set_event_queue
         BacktestEngine.set_broker].
    apply Forall_app. split; [exact Hf|]. constructor; [|constructor].
    cbn [regular]. rewrite (funds_check_quantity _ _ _ _ E). split; [exact Hq|].
    assert (fill = fill_at (BacktestEngine.portfolio e) o fp) as ->.
    { unfold funds_check in E.
      destruct (OrderEvent.direction o =? "BUY").
      - destruct (Py.gtb _ _); congruence.
      - destruct (OrderEvent.direction o =? "SELL"); [|congruence].
        destruct (_ >? _)%Z; congruence. }
    exact Hd.
  - unfold final. rewrite handle_fill_unfold. cbv zeta.
    set (e1 := BacktestEngine.set_portfolio _ e).
    eapply adds_regular_keeps;
      [apply (hook_adds_regular
                (fun ctx => Strategy.on_order_filled (BacktestEngine.strategy e) ctx f)
                e1)|].
    destruct He as [Hf Ht]. split; [exact Hf|].
    cbn [e1 BacktestEngine.portfolio BacktestEngine.set_portfolio].
    destruct (execute_fill_histories f (BacktestEngine.portfolio e)) as [[H|H] _];
      cbv zeta in H; rewrite H; [exact Ht|].
    apply Forall_app. split; [exact Ht|]. constructor; [exact Hev | constructor].
Qed.

(** Whatever the strategy does through [buy] and [sell], every trade a run
    records is a BUY or a SELL of a positive quantity, and so is every order
    and fill in the queue: the unrecognised directions that [execute_fill]
    would let through never arise. *)
Theorem run_records_only_buys_and_sells {St} (data : list Bar.t)
    (strategy : Strategy.t St) (st : St) (capital commission slippage : Q)
    (market symbol : string) (e : BacktestEngine.t St) :
  Reachable (BacktestEngine.__init__ data strategy st capital commission slippage
                                     market symbol) e ->
  Forall regular_trade (Portfolio.trades (BacktestEngine.portfolio e))
  /\ Forall regular (BacktestEngine.event_queue e).
Proof.
  intros Hr.
  assert (H : regular_engine e); [|destruct H; split; assumption].
  induction Hr as [|e Hr IH|e idx bar Hr IH Hb|e event rest bar Hr IH Hq Hb
                   |e bar Hr IH Hb].
  - split; constructor.
  - eapply adds_regular_keeps; [apply hook_adds_regular | exact IH].
  - destruct IH as [Hf Ht]. split; [|exact Ht].
    cbn. apply Forall_app. split; [exact Hf|]. constructor; [exact I | constructor].
  - destruct IH as [Hf Ht]. rewrite Hq in Hf.
    apply process_event_regular; [exact (Forall_inv Hf)|].
    split; [exact (Forall_inv_tail Hf) | exact Ht].
  - destruct IH as [Hf Ht]. split; [exact Hf|].
    unfold final, BacktestEngine.on_portfolio, zoom.
    rewrite update_market_value_unfold. exact Ht.
Qed.

Lemma run_records_only_buys_and_sells_witness :
  Forall regular_trade
    (Portfolio.trades
       (BacktestEngine.portfolio (final (BacktestEngine.run 10) penny_engine))).
Proof.
  exact (proj1 (run_records_only_buys_and_sells penny_bars (scripted penny_script) tt
                  10 (3 # 10000) (1 # 1000) "A" "000001"
                  (final (BacktestEngine.run 10) penny_engine)
                  (run_reachable penny_engine 10))).
Defined.

(** ** Drawdown ([analysis/metrics.py]) *)

Module drawdown.

(** [np.maximum.accumulate] after its first element. *)
Fixpoint running (m : Q) (xs : list Q) : list Q :=
  match xs with
  | [] => []
  | x :: xs => let m := Qmax m x in m :: running m xs
  end.

Definition maximum_accumulate (xs : list Q) : list Q :=
  match xs with
  | [] => []
  | x :: rest => x :: running x rest
  end.

(** [Series.max()]: nothing (NaN) for an empty series. *)
Definition series_max (xs : list Q) : option Q :=
  match xs with
  | [] => None
  | x :: rest => Some (fold_left Qmax rest x)
  end.

(** [max_drawdown].  A running maximum of 0 makes the quotient NaN or
    infinite in the source; the curve is taken to be positive here. *)
Definition max_drawdown (equity_curve : list Q) : option Q :=
  let running_max := maximum_accumulate equity_curve in
  let drawdowns :=
    map (fun rx => (fst rx - snd rx) / fst rx) (combine running_max equity_curve) in
  series_max drawdowns.

End drawdown.

Lemma running_dominates m xs :
  0 < m ->
  Forall (fun x => 0 < x) xs ->
  Forall (fun rx => 0 < snd rx /\ snd rx <= fst rx) (combine (drawdown.running m xs) xs).
Proof.
  revert m. induction xs as [|x xs IH]; intros m Hm H; [constructor|].
  cbn [drawdown.running combine].
  pose proof (Forall_inv H) as Hx. cbn beta in Hx.
  constructor.
  - cbn [fst snd]. split; [exact Hx | apply Q.le_max_r].
  - apply IH; [|exact (Forall_inv_tail H)].
    apply Qlt_le_trans with x; [exact Hx | apply Q.le_max_r].
Qed.

Lemma drawdown_in_range r x :
  0 < x -> x <= r -> 0 <= (r - x) / r /\ (r - x) / r < 1.
Proof.
  intros Hx Hr. assert (Hrp : 0 < r) by lra. split.
  - apply Qle_shift_div_l; [exact Hrp | lra].
  - apply Qlt_shift_div_r; [exact Hrp | lra].
Qed.

Lemma fold_max_in_range xs d :
  0 <= d /\ d < 1 ->
  Forall (fun x => 0 <= x /\ x < 1) xs ->
  0 <= fold_left Qmax xs d /\ fold_left Qmax xs d < 1.
Proof.
  revert d. induction xs as [|x xs IH]; intros d Hd H; [exact Hd|].
  cbn [fold_left]. apply IH; [|exact (Forall_inv_tail H)].
  pose proof (Forall_inv H) as Hx. cbn beta in Hx.
  destruct (Q.max_spec d x) as [[_ ->]|[_ ->]]; assumption.
Qed.

(** For an equity curve that stays positive, the maximum drawdown is a
    fraction of the peak: at least 0 and strictly below 1.  The empty curve has
    none. *)
Theorem max_drawdown_is_a_fraction (equity_curve : list Q) :
  Forall (fun x => 0 < x) equity_curve ->
  equity_curve <> [] ->
  exists d, drawdown.max_drawdown equity_curve = Some d /\ 0 <= d /\ d < 1.
Proof.
  intros H Hne. destruct equity_curve as [|x xs]; [congruence|].
  unfold drawdown.max_drawdown, drawdown.maximum_accumulate. cbv zeta.
  cbn [combine map fst snd drawdown.series_max].
  pose proof (Forall_inv H) as Hx. cbn beta in Hx.
  eexists. split; [reflexivity|].
  apply fold_max_in_range.
  - apply drawdown_in_range; [exact Hx | apply Qle_refl].
  - pose proof (running_dominates x xs Hx (Forall_inv_tail H)) as Hd.
    apply Forall_map. eapply Forall_impl; [|exact Hd].
    intros [r y] [Hy Hr]. cbn [fst snd] in *. apply drawdown_in_range; assumption.
Qed.

(** A curve that rises from 100 to 120 and falls back to 90. *)
Lemma max_drawdown_is_a_fraction_witness :
  exists d, drawdown.max_drawdown [100; 120; 90] = Some d /\ 0 <= d /\ d < 1.
Proof.
  apply (max_drawdown_is_a_fraction [100; 120; 90]).
  - repeat constructor.
  - discriminate.
Defined.

Lemma fold_max_ge xs d :
  d <= fold_left Qmax xs d /\ Forall (fun y => y <= fold_left Qmax xs d) xs.
Proof.
  revert d. induction xs as [|x xs IH]; intros d; [split; [apply Qle_refl | constructor]|].
  cbn [fold_left]. destruct (IH (Qmax d x)) as [Hd Hall].
  split; [apply Qle_trans with (Qmax d x); [apply Q.le_max_l | exact Hd]|].
  constructor; [|exact Hall].
  apply Qle_trans with (Qmax d x); [apply Q.le_max_r | exact Hd].
Qed.

Lemma running_nth m xs j r :
  nth_error (drawdown.running m xs) j = Some r ->
  m <= r /\ forall i x, (i <= j)%nat -> nth_error xs i = Some x -> x <= r.
Proof.
  revert m j. induction xs as [|y xs IH]; intros m j H.
  - destruct j; discriminate.
  - cbn [drawdown.running] in H. destruct j as [|j].
    + cbn in H. injection H as <-. split; [apply Q.le_max_l|].
      intros i x Hi Hx. assert (i = 0%nat) as -> by lia.
      cbn in Hx. injection Hx as <-. apply Q.le_max_r.
    + cbn [nth_error] in H. destruct (IH _ _ H) as [Hm Hall].
      split; [apply Qle_trans with (Qmax m y); [apply Q.le_max_l | exact Hm]|].
      intros i x Hi Hx. destruct i as [|i].
      * cbn in Hx. injection Hx as <-.
        apply Qle_trans with (Qmax m y); [apply Q.le_max_r | exact Hm].
      * cbn [nth_error] in Hx. apply (Hall i x); [lia | exact Hx].
Qed.

Lemma maximum_accumulate_nth xs j xj :
  nth_error xs j = Some xj ->
  exists r,
    nth_error (drawdown.maximum_accumulate xs) j = Some r
    /\ forall i x, (i <= j)%nat -> nth_error xs i = Some x -> x <= r.
Proof.
  destruct xs as [|x0 xs]; [destruct j; discriminate|].
  cbn [drawdown.maximum_accumulate]. destruct j as [|j]; intros H.
  - exists x0. split; [reflexivity|].
    intros i x Hi Hx. assert (i = 0%nat) as -> by lia.
    cbn in Hx. injection Hx as <-. apply Qle_refl.
  - cbn [nth_error] in H.
    assert (Hlen : (j < length (drawdown.running x0 xs))%nat).
    { assert (Hl : forall m l, length (drawdown.running m l) = length l).
      { intros m l. revert m. induction l as [|y l IHl]; intros m; [reflexivity|].
        cbn. rewrite IHl. reflexivity. }
      rewrite Hl. apply nth_error_Some. congruence. }
    destruct (nth_error (drawdown.running x0 xs) j) as [r|] eqn:Hr;
      [|apply nth_error_None in Hr; lia].
    exists r. split; [exact Hr|].
    destruct (running_nth _ _ _ _ Hr) as [Hm Hall].
    intros i x Hi Hx. destruct i as [|i].
    + cbn in Hx. injection Hx as <-. exact Hm.
    + cbn [nth_error] in Hx. apply (Hall i x); [lia | exact Hx].
Qed.

Lemma combine_nth_in {A B} (l1 : list A) (l2 : list B) j a b :
  nth_error l1 j = Some a -> nth_error l2 j = Some b -> In (a, b) (combine l1 l2).
Proof.
  revert l2 j. induction l1 as [|x l1 IH]; intros l2 j H1 H2; [destruct j; discriminate|].
  destruct l2 as [|y l2]; [destruct j; discriminate|].
  destruct j as [|j]; cbn in *.
  - left. congruence.
  - right. exact (IH l2 j H1 H2).
Qed.

Lemma decline_grows_with_peak x peak r :
  0 < x -> 0 < peak -> peak <= r -> (peak - x) / peak <= (r - x) / r.
Proof.
  intros Hx Hp Hr. assert (Hrp : 0 < r) by lra.
  apply Qle_shift_div_r; [exact Hp|].
  setoid_replace ((r - x) / r * peak) with ((r - x) * peak / r)
    by (field; intros E; rewrite E in Hrp; exact (Qlt_irrefl 0 Hrp)).
  apply Qle_shift_div_l; [exact Hrp|].
  assert (H : 0 <= x * (r - peak)) by (apply Qmult_le_0_compat; lra).
  lra.
Qed.

(** The maximum drawdown is the worst decline.  On a positive equity curve,
    the fall from any point to any later point, as a fraction of the earlier
    value, is never more than the maximum drawdown. *)
Theorem max_drawdown_bounds_every_decline (equity_curve : list Q) (d : Q)
    (i j : nat) (xi xj : Q) :
  Forall (fun x => 0 < x) equity_curve ->
  drawdown.max_drawdown equity_curve = Some d ->
  (i <= j)%nat ->
  nth_error equity_curve i = Some xi ->
  nth_error equity_curve j = Some xj ->
  (xi - xj) / xi <= d.
Proof.
  intros Hpos Hd Hij Hi Hj.
  destruct (maximum_accumulate_nth equity_curve j xj Hj) as (r & Hr & Hall).
  pose proof (Hall i xi Hij Hi) as Hle.
  assert (Hxi : 0 < xi).
  { exact (proj1 (Forall_forall _ _) Hpos xi (nth_error_In _ _ Hi)). }
  assert (Hxj : 0 < xj).
  { exact (proj1 (Forall_forall _ _) Hpos xj (nth_error_In _ _ Hj)). }
  apply Qle_trans with ((r - xj) / r);
    [apply decline_grows_with_peak; assumption|].
  unfold drawdown.max_drawdown in Hd. cbv zeta in Hd.
  assert (Hin : In ((r - xj) / r)
                   (map (fun rx => (fst rx - snd rx) / fst rx)
                        (combine (drawdown.maximum_accumulate equity_curve)
                                 equity_curve))).
  { apply in_map_iff. exists (r, xj). split; [reflexivity|].
    exact (combine_nth_in _ _ j r xj Hr Hj). }
  destruct (map _ _) as [|y ys]; [destruct Hin|].
  cbn [drawdown.series_max] in Hd. injection Hd as <-.
  destruct (fold_max_ge ys y) as [Hy Hys].
  destruct Hin as [<-|Hin]; [exact Hy|].
  exact (proj1 (Forall_forall _ _) Hys _ Hin).
Qed.

(** From 120 down to 90 is a quarter, and the maximum drawdown of the curve
    covers it. *)
Lemma max_drawdown_bounds_every_decline_witness :
  (120 - 90) / 120 <= 30 # 120.
Proof.
  refine (max_drawdown_bounds_every_decline [100; 120; 90] (30 # 120) 1 2 120 90
            _ _ _ eq_refl eq_refl).
  - repeat constructor.
  - vm_compute. reflexivity.
  - lia.
Defined.

(** ** Order kinds at the broker *)

(** What the broker does with each order kind.  A MARKET order is priced at
    the close of the bar.  An order of any kind other than MARKET and LIMIT is
    turned down with [None].  A LIMIT order that names no price is not turned
    down: the comparison of the missing price with the bar raises a TypeError,
    which ends the run.  In all three cases the portfolio is untouched. *)
Theorem order_kinds_at_the_broker (order : OrderEvent.t) (bar : Bar.t)
    (b : SimulatedBroker.t) (p : Portfolio.t) :
  (OrderEvent.order_type order = "MARKET" ->
   SimulatedBroker.execute_order order bar (b, p)
   = (Ok (funds_check p order (Bar.close bar)), (counted b, p)))
  /\ (OrderEvent.order_type order <> "MARKET" ->
      OrderEvent.order_type order <> "LIMIT" ->
      SimulatedBroker.execute_order order bar (b, p) = (Ok None, (counted b, p)))
  /\ (OrderEvent.order_type order = "LIMIT" ->
      OrderEvent.price order = None ->
      exists msg,
        SimulatedBroker.execute_order order bar (b, p)
        = (Raise (TypeError msg), (counted b, p))).
Proof.
  split; [|split].
  - intros Ht. rewrite execute_order_unfold. unfold SimulatedBroker.base_fill_price.
    rewrite Ht. reflexivity.
  - intros Hm Hl. rewrite execute_order_unfold. unfold SimulatedBroker.base_fill_price.
    apply String.eqb_neq in Hm, Hl. rewrite Hm, Hl. reflexivity.
  - intros Ht Hp. rewrite execute_order_unfold. unfold SimulatedBroker.base_fill_price.
    rewrite Ht, Hp. cbn [String.eqb Ascii.eqb Bool.eqb]. eexists. reflexivity.
Qed.

(** A strategy that places a limit buy without a price on the first bar. *)
Definition unpriced_engine : BacktestEngine.t unit :=
  BacktestEngine.__init__ penny_bars
    (scripted (fun _ => [Strategy.buy 100 None "LIMIT"])) tt
    10 (3 # 10000) (1 # 1000) "A" "000001".

(** A stop order is turned down, an unpriced limit order raises, and a run
    that meets one stops on the TypeError with no snapshot taken. *)
Lemma order_kinds_at_the_broker_witness :
  SimulatedBroker.execute_order (OrderEvent.mk 1 "600519" "BUY" "STOP" 10 None) a_bar
    (SimulatedBroker.__init__, a_portfolio)
  = (Ok None, (counted SimulatedBroker.__init__, a_portfolio))
  /\ (exists msg,
        SimulatedBroker.execute_order (OrderEvent.mk 1 "600519" "BUY" "LIMIT" 10 None)
          a_bar (SimulatedBroker.__init__, a_portfolio)
        = (Raise (TypeError msg), (counted SimulatedBroker.__init__, a_portfolio)))
  /\ (exists msg,
        result (BacktestEngine.run 10) unpriced_engine = Raise (TypeError msg))
  /\ Portfolio.equity_curve
       (BacktestEngine.portfolio (final (BacktestEngine.run 10) unpriced_engine)) = [].
Proof.
  split; [|split; [|split]].
  - refine (proj1 (proj2 (order_kinds_at_the_broker
              (OrderEvent.mk 1 "600519" "BUY" "STOP" 10 None) a_bar
              SimulatedBroker.__init__ a_portfolio)) _ _); discriminate.
  - exact (proj2 (proj2 (order_kinds_at_the_broker
              (OrderEvent.mk 1 "600519" "BUY" "LIMIT" 10 None) a_bar
              SimulatedBroker.__init__ a_portfolio)) eq_refl eq_refl).
  - eexists. vm_compute. reflexivity.
  - vm_compute. reflexivity.
Defined.
